(** * The recommendation engine of the SalesMart server

    A shallow embedding of the helpers of [server/routes/users.js]
    (the recommendation router): [getUserPreferences],
    [getCollaborativeRecommendations], [getContentBasedRecommendations],
    [combineRecommendations], [getSeasonalRecommendations] and
    [getSeasonalCategories], together with the route handler
    [GET /personalized] that composes them.

    Conventions of the embedding.
    - A JavaScript number is an exact rational ([Qc]); the two values of
      the source that are not rationals are modelled where they arise:
      [NaN] as the [None] result of a subtraction with an [undefined]
      operand, and [-Infinity] as the [NegInfinity] result of [Math.max]
      over no arguments.  The rounding of doubles is not modelled:
      arithmetic is exact.
    - An array is a list; [slice], [indexOf], [find], [reduce], [flatMap]
      and [sort] are written out after ECMAScript.
    - A plain object used as a dictionary is an association list that
      remembers insertion order, with [Object.keys] after ECMAScript's
      own-property order.  Its keys are category and brand names; none of
      them is taken to name a property that every object inherits.
    - An [ObjectId] is a number; [toString] gives another spelling of
      it and is left out.  [mongoose.Types.ObjectId(...)] is the call of
      a class without [new], which throws ([Mongoose.Types_ObjectId]).
    - The document store is a record of collections.  A query is a
      function of the collections; each awaited query is one tick of a
      read counter, and the store says for every tick whether that read
      is rejected.  [try]/[catch] is written out; [console.error] is
      not.
    - The first part holds the program and the vocabulary of its
      specification, the second part the properties. *)

From Stdlib Require Import String List ZArith NArith QArith Qcanon Qcabs.
From Stdlib Require Import Bool Arith Permutation Sorted Lia.
Import ListNotations.

Close Scope Qc_scope.
Close Scope Q_scope.
Open Scope list_scope.

Set Implicit Arguments.

(* ------------------------------------------------------------------ *)
(** ** Numbers *)

Module Js.

Abbreviation number := Qc.

Definition num (z : Z) : number := Q2Qc (inject_Z z).

(** Decimal literals of the source. *)
Definition lit_0_5 : number := Q2Qc (1 # 2).
Definition lit_0_3 : number := Q2Qc (3 # 10).

Definition gtb (a b : number) : bool :=
  match (a ?= b)%Qc with Gt => true | _ => false end.

Definition eqb (a b : number) : bool :=
  match (a ?= b)%Qc with Eq => true | _ => false end.

(** [Math.max(a, b)], [Math.min(a, b)] and [Math.abs(a)] on numbers. *)
Definition Math_max (a b : number) : number := if gtb b a then b else a.
Definition Math_min (a b : number) : number := if gtb a b then b else a.
Definition Math_abs (a : number) : number := Qcabs a.

(** [x || 0] on a number: [0] is the only falsy rational. *)
Definition or_zero (x : number) : number := if eqb x (num 0) then num 0 else x.

(** The value of [Math.max(...xs)]: [-Infinity] when there is no argument. *)
Inductive extended := NegInfinity | Fin (q : number).

Definition ext_max (acc : extended) (x : number) : extended :=
  match acc with
  | NegInfinity => Fin x
  | Fin a => Fin (Math_max a x)
  end.

Definition Math_max_spread (xs : list number) : extended :=
  fold_left ext_max xs NegInfinity.

(** [b - a] where either operand may be [undefined]: [None] is [NaN]. *)
Definition sub (b a : option number) : option number :=
  match b, a with
  | Some x, Some y => Some (x - y)%Qc
  | _, _ => None
  end.

(** A comparator result [v] asks for a swap exactly when [v > 0];
    [NaN] counts as [+0]. *)
Definition positive_result (v : option number) : bool :=
  match v with
  | Some q => gtb q (num 0)
  | None => false
  end.

(* ------------------------------------------------------------------ *)
(** ** Arrays *)

(** [arr.slice(0, end)] for an integer [end]: a negative [end] counts
    from the back. *)
Definition slice0 {A} (final : Z) (arr : list A) : list A :=
  let len := Z.of_nat (length arr) in
  let k := if (final <? 0)%Z then Z.max (len + final) 0 else Z.min final len in
  firstn (Z.to_nat k) arr.

(** [arr.indexOf(x)] on an array of strings: [-1] when absent. *)
Fixpoint indexOf (x : string) (arr : list string) : Z :=
  match arr with
  | [] => (-1)%Z
  | y :: rest =>
      if String.eqb y x then 0%Z
      else let i := indexOf x rest in
           if (i =? -1)%Z then (-1)%Z else (i + 1)%Z
  end.

(** [arr.sort(cmp)].  The sort is stable; for a consistent comparator
    its result is the one list below, whatever the engine.  [x] is put
    behind [y] exactly when [cmp(x, y) > 0].  For a comparator that is
    not consistent on the array (a difference of scores where some are
    [undefined] and some are not) the language leaves the order to the
    engine, and the list below is one of the permutations it may give:
    what is proved of such an array holds of every permutation of it. *)
Fixpoint sort_insert {A} (behind : A -> A -> bool) (x : A) (sorted : list A)
  : list A :=
  match sorted with
  | [] => [x]
  | y :: rest =>
      if behind x y then y :: sort_insert behind x rest else x :: sorted
  end.

Definition stable_sort {A} (behind : A -> A -> bool) (arr : list A) : list A :=
  fold_right (sort_insert behind) [] arr.

Definition sort {A} (cmp : A -> A -> option number) (arr : list A) : list A :=
  stable_sort (fun a b => positive_result (cmp a b)) arr.

(** [front behind x y]: the sort may leave [x] before [y]. *)
Definition front {A} (behind : A -> A -> bool) (x y : A) : Prop := behind x y = false.

End Js.

(* ------------------------------------------------------------------ *)
(** ** Documents *)

Definition ObjectId := N.

Inductive ProductStatus := active | inactive | out_of_stock | discontinued.

Definition is_active (s : ProductStatus) : bool :=
  match s with active => true | _ => false end.

(** A product document without its [reviews] (every query of the engine
    projects them away with [select('-reviews')]). *)
Record Product := {
  _id : ObjectId;
  category : string;
  brand : string;
  price : Js.number;
  tags : list string;
  averageRating : Js.number;
  sales : Js.number;
  views : Js.number;
  status : ProductStatus
}.

Inductive RecommendationType := collaborative | content_based.

(** What the scorers return: [{...product.toObject(), recommendationScore,
    recommendationType}].  The cold-start path returns bare product
    documents, on which both extra properties are [undefined]. *)
Record Recommendation := {
  doc : Product;
  recommendationScore : option Js.number;
  recommendationType : option RecommendationType
}.

Definition bare (p : Product) : Recommendation :=
  {| doc := p; recommendationScore := None; recommendationType := None |}.

Definition rec_id (r : Recommendation) : ObjectId := _id (doc r).

(* ------------------------------------------------------------------ *)
(** ** combineRecommendations *)

(** The reducer of [combined.reduce(..., [])]: push [product] unless an
    element of [acc] has the same [_id]. *)
Definition push_unique (acc : list Recommendation) (product : Recommendation)
  : list Recommendation :=
  match find (fun p => N.eqb (rec_id p) (rec_id product)) acc with
  | None => acc ++ [product]
  | Some _ => acc
  end.

Definition by_score_desc (a b : Recommendation) : option Js.number :=
  Js.sub (recommendationScore b) (recommendationScore a).

Definition combineRecommendations (Prefs : Type)
  (collaborativeRecs contentBased : list Recommendation) (userPreferences : Prefs)
  (limit : Z) : list Recommendation :=
  let combined := collaborativeRecs ++ contentBased in
  let uniqueProducts := fold_left push_unique combined [] in
  Js.slice0 limit (Js.sort by_score_desc uniqueProducts).

(* ------------------------------------------------------------------ *)
(** ** The document store and awaited reads *)

Module Item.
(** A line item of an order.  [product] is the reference as stored
    ([R := ObjectId]) or as populated ([R := Product]); [None] is [null]. *)
Record t (R : Type) := { product : option R; price : Js.number; quantity : Js.number }.
End Item.

Record Order (R : Type) := {
  user : ObjectId;
  orderItems : list (Item.t R);
  isPaid : bool
}.

Module Cart.
Record t (R : Type) := { product : option R }.
End Cart.

(** A user document; [wishlist] and [cart] may be missing. *)
Record User (R : Type) := {
  user_id : ObjectId;
  wishlist : option (list R);
  cart : option (list (Cart.t R))
}.

Record Store := {
  products : list Product;
  orders : list (Order ObjectId);
  users : list (User ObjectId);
  rejects : nat -> bool   (* is the read at this tick rejected? *)
}.

Inductive Error := TypeError | StoreError | AggregationError.

Inductive outcome (A : Type) := Returned (a : A) | Thrown (e : Error).
Arguments Returned {A} a.
Arguments Thrown {A} e.

(** An [async] computation: from the number of reads issued so far to
    an outcome and the new number of reads. *)
Definition Async (A : Type) := nat -> outcome A * nat.

Definition ret {A} (a : A) : Async A := fun t => (Returned a, t).

Definition throw {A} (e : Error) : Async A := fun t => (Thrown e, t).

Definition bind {A B} (m : Async A) (k : A -> Async B) : Async B :=
  fun t =>
    match m t with
    | (Returned a, t') => k a t'
    | (Thrown e, t') => (Thrown e, t')
    end.

Definition try_catch {A} (body : Async A) (handler : Error -> Async A) : Async A :=
  fun t =>
    match body t with
    | (Returned a, t') => (Returned a, t')
    | (Thrown e, t') => handler e t'
    end.

(** [await] of one query whose answer on a healthy store is [answer]. *)
Definition await_read {A} (s : Store) (answer : outcome A) : Async A :=
  fun t => if rejects s t then (Thrown StoreError, S t) else (answer, S t).

Declare Scope async_scope.
Delimit Scope async_scope with async.
Notation "x <- m ;; k" := (bind m (fun x => k))
  (at level 61, m at next level, right associativity) : async_scope.

Definition mem (x : ObjectId) (ids : list ObjectId) : bool := existsb (N.eqb x) ids.

Definition str_mem (x : string) (l : list string) : bool := existsb (String.eqb x) l.

(** [populate]: a reference becomes the product document it names, or
    [null] when no such document exists. *)
Definition lookup_product (s : Store) (id : ObjectId) : option Product :=
  find (fun p => N.eqb (_id p) id) (products s).

Definition populate_ref (s : Store) (r : option ObjectId) : option Product :=
  match r with
  | Some id => lookup_product s id
  | None => None
  end.

Definition populate_item (s : Store) (it : Item.t ObjectId) : Item.t Product :=
  {| Item.product := populate_ref s (Item.product it);
     Item.price := Item.price it;
     Item.quantity := Item.quantity it |}.

Definition populate_order (s : Store) (o : Order ObjectId) : Order Product :=
  {| user := user o;
     orderItems := map (populate_item s) (orderItems o);
     isPaid := isPaid o |}.

(** Populating an array of references drops the elements that name no
    document; populating a sub-document field leaves [null]. *)
Definition populate_user (s : Store) (u : User ObjectId) : User Product :=
  {| user_id := user_id u;
     wishlist := option_map (flat_map (fun id => match lookup_product s id with
                                               | Some p => [p]
                                               | None => []
                                               end)) (wishlist u);
     cart := option_map (map (fun c => {| Cart.product := populate_ref s (Cart.product c) |}))
               (cart u) |}.

Module Mongo.

(** [.sort({ averageRating: -1, sales: -1 })]: [x] goes behind [y] when
    [y] has the higher rating, or the same rating and more sales.
    Documents that tie keep the collection's order. *)
Definition behind_rating_sales (x y : Product) : bool :=
  Js.gtb (averageRating y) (averageRating x)
  || (Js.eqb (averageRating y) (averageRating x)
      && Js.gtb (sales y) (sales x)).

Definition sort_rating_sales (docs : list Product) : list Product :=
  Js.stable_sort behind_rating_sales docs.

(** Cursor [.limit(n)]: [0] means no limit, a negative [n] limits to [|n|]. *)
Definition limit {A} (n : Z) (docs : list A) : list A :=
  if (n =? 0)%Z then docs else firstn (Z.abs_nat n) docs.

(** The aggregation stage [{ $limit: n }] takes a positive integer and
    fails the pipeline otherwise. *)
Definition limit_stage {A} (n : Z) (docs : list A) : outcome (list A) :=
  if (0 <? n)%Z then Returned (firstn (Z.to_nat n) docs)
  else Thrown AggregationError.

(** The aggregation stage [$group]: one accumulator per distinct [_id],
    in order of first appearance.  [same g d] tells whether document [d]
    falls into the group [g]; [init d] opens a group with [d] and
    [step g d] adds [d] to [g]. *)
Fixpoint group_into {D G} (same : G -> D -> bool) (init : D -> G) (step : G -> D -> G)
  (groups : list G) (d : D) : list G :=
  match groups with
  | [] => [init d]
  | g :: rest =>
      if same g d then step g d :: rest
      else g :: group_into same init step rest d
  end.

Definition group {D G} (same : G -> D -> bool) (init : D -> G) (step : G -> D -> G)
  (docs : list D) : list G :=
  fold_left (group_into same init step) docs [].

End Mongo.

(* ------------------------------------------------------------------ *)
(** ** Plain objects used as dictionaries *)

Module Dict.

Definition t := list (string * Js.number).

Fixpoint get (d : t) (k : string) : option Js.number :=
  match d with
  | [] => None
  | (k', v) :: rest => if String.eqb k' k then Some v else get rest k
  end.

(** [d[k] = v]: an existing key keeps its place, a new key goes last. *)
Fixpoint set (d : t) (k : string) (v : Js.number) : t :=
  match d with
  | [] => [(k, v)]
  | (k', v') :: rest =>
      if String.eqb k' k then (k', v) :: rest else (k', v') :: set rest k v
  end.

Definition digit (c : Ascii.ascii) : option N :=
  let n := Ascii.N_of_ascii c in
  if (48 <=? n)%N && (n <=? 57)%N then Some (n - 48)%N else None.

Fixpoint digits (s : string) (acc : N) : option N :=
  match s with
  | EmptyString => Some acc
  | String c rest =>
      match digit c with
      | Some d => digits rest (10 * acc + d)%N
      | None => None
      end
  end.

(** A key is an array index when it is the canonical decimal form of an
    integer below [2^32 - 1]. *)
Definition array_index (k : string) : option N :=
  match k with
  | EmptyString => None
  | String c rest =>
      if (Ascii.N_of_ascii c =? 48)%N && negb (String.eqb rest EmptyString)
      then None
      else match digits k 0 with
           | Some n => if (n <? 4294967295)%N then Some n else None
           | None => None
           end
  end.

Definition is_index (k : string) : bool :=
  match array_index k with Some _ => true | None => false end.

Definition index_behind (x y : N * string) : bool := (fst y <? fst x)%N.

(** [Object.keys(d)]: array-index keys in ascending numeric order, then
    the other keys in insertion order. *)
Definition keys (d : t) : list string :=
  let ks := map fst d in
  let indexed := flat_map (fun k => match array_index k with
                                    | Some n => [(n, k)]
                                    | None => []
                                    end) ks in
  map snd (Js.stable_sort index_behind indexed)
  ++ filter (fun k => negb (is_index k)) ks.

(** [d[k] = (d[k] || 0) + w]. *)
Definition bump (d : t) (k : string) (w : Js.number) : t :=
  let old := match get d k with
             | Some x => Js.or_zero x
             | None => Js.num 0
             end in
  set d k (old + w)%Qc.

(** The comparator [(a, b) => d[b] - d[a]]. *)
Definition by_weight_desc (d : t) (a b : string) : option Js.number :=
  Js.sub (get d b) (get d a).

End Dict.

(* ------------------------------------------------------------------ *)
(** ** getUserPreferences *)

Module PriceRange.
Record t := { avg : Js.number; max : Js.extended }.
End PriceRange.

Record Preferences := {
  categories : list string;
  brands : list string;
  priceRange : PriceRange.t;
  totalPurchases : Js.number
}.

Module Tally.
(** The four locals of [getUserPreferences]. *)
Record t := {
  categories : Dict.t;
  brands : Dict.t;
  totalSpent : Js.number;
  itemCount : Js.number
}.
Definition empty : t :=
  {| categories := []; brands := []; totalSpent := Js.num 0; itemCount := Js.num 0 |}.
End Tally.

(** Body of the inner [forEach] over [order.orderItems]. *)
Definition tally_item (acc : Tally.t) (item : Item.t Product) : Tally.t :=
  match Item.product item with
  | Some product =>
      {| Tally.categories :=
           Dict.bump (Tally.categories acc) (category product) (Item.quantity item);
         Tally.brands :=
           Dict.bump (Tally.brands acc) (brand product) (Item.quantity item);
         Tally.totalSpent :=
           (Tally.totalSpent acc + Item.price item * Item.quantity item)%Qc;
         Tally.itemCount := (Tally.itemCount acc + Item.quantity item)%Qc |}
  | None => acc
  end.

Definition tally_order (acc : Tally.t) (order : Order Product) : Tally.t :=
  fold_left tally_item (orderItems order) acc.

(** Body of the [forEach] over the wishlist and over the cart. *)
Definition tally_signal (w : Js.number) (acc : Tally.t) (product : Product) : Tally.t :=
  {| Tally.categories := Dict.bump (Tally.categories acc) (category product) w;
     Tally.brands := Dict.bump (Tally.brands acc) (brand product) w;
     Tally.totalSpent := Tally.totalSpent acc;
     Tally.itemCount := Tally.itemCount acc |}.

Definition tally_cart_item (acc : Tally.t) (cartItem : Cart.t Product) : Tally.t :=
  match Cart.product cartItem with
  | Some product => tally_signal Js.lit_0_3 acc product
  | None => acc
  end.

Definition tally_all (userOrders : list (Order Product)) (u : User Product) : Tally.t :=
  let acc := fold_left tally_order userOrders Tally.empty in
  let acc := match wishlist u with
             | Some w => fold_left (tally_signal Js.lit_0_5) w acc
             | None => acc
             end in
  match cart u with
  | Some c => fold_left tally_cart_item c acc
  | None => acc
  end.

Definition ranked_keys (d : Dict.t) : list string :=
  Js.sort (Dict.by_weight_desc d) (Dict.keys d).

Definition item_prices (userOrders : list (Order Product)) : list Js.number :=
  flat_map (fun order => map (fun item => Item.price item) (orderItems order)) userOrders.

Definition getUserPreferences (userId : ObjectId) (userOrders : list (Order Product))
  (u : User Product) : Preferences :=
  let acc := tally_all userOrders u in
  {| categories := ranked_keys (Tally.categories acc);
     brands := ranked_keys (Tally.brands acc);
     priceRange :=
       {| PriceRange.avg :=
            if Js.gtb (Tally.itemCount acc) (Js.num 0)
            then (Tally.totalSpent acc / Tally.itemCount acc)%Qc
            else Js.num 0;
          PriceRange.max := Js.Math_max_spread (item_prices userOrders) |};
     totalPurchases := Tally.itemCount acc |}.

(* ------------------------------------------------------------------ *)
(** ** getContentBasedRecommendations *)

(** The callback of [products.map]: [score] starts at [0] and the four
    blocks of the source add to it in turn. *)
Definition score_product (categoryWeights brandWeights : list string)
  (range : PriceRange.t) (product : Product) : Recommendation :=
  let score := Js.num 0 in
  let categoryIndex := Js.indexOf (category product) categoryWeights in
  let score :=
    if negb (categoryIndex =? -1)%Z
    then (score + (Js.num 3 - Js.num categoryIndex) * Js.num 3)%Qc
    else score in
  let brandIndex := Js.indexOf (brand product) brandWeights in
  let score :=
    if negb (brandIndex =? -1)%Z
    then (score + (Js.num 3 - Js.num brandIndex) * Js.num 2)%Qc
    else score in
  let score :=
    if Js.gtb (PriceRange.avg range) (Js.num 0) then
      let priceDifference :=
        (Js.Math_abs (price product - PriceRange.avg range) / PriceRange.avg range)%Qc in
      (score + Js.Math_max (Js.num 0) (Js.num 2 - priceDifference))%Qc
    else score in
  let score := (score + Js.or_zero (averageRating product))%Qc in
  let score := (score + Js.Math_min (sales product / Js.num 100) (Js.num 2))%Qc in
  {| doc := product;
     recommendationScore := Some score;
     recommendationType := Some content_based |}.

Definition is_candidate (categoryWeights brandWeights : list string) (p : Product) : bool :=
  is_active (status p)
  && (str_mem (category p) categoryWeights || str_mem (brand p) brandWeights).

Open Scope async_scope.

(** The [try] block of [getContentBasedRecommendations]. *)
Definition content_try (s : Store) (userPreferences : Preferences) (limit : Z)
  : Async (list Recommendation) :=
  if (length (categories userPreferences) =? 0)%nat then
    popular <- await_read s
      (Returned (Mongo.limit limit
         (Mongo.sort_rating_sales
            (filter (fun p => is_active (status p)) (products s))))) ;;
    ret (map bare popular)
  else
    let categoryWeights := Js.slice0 3 (categories userPreferences) in
    let brandWeights := Js.slice0 3 (brands userPreferences) in
    found <- await_read s
      (Returned (filter (is_candidate categoryWeights brandWeights) (products s))) ;;
    let scoredProducts :=
      map (score_product categoryWeights brandWeights (priceRange userPreferences))
          found in
    ret (Js.slice0 limit (Js.sort by_score_desc scoredProducts)).

Definition getContentBasedRecommendations (s : Store) (userPreferences : Preferences)
  (limit : Z) : Async (list Recommendation) :=
  try_catch (content_try s userPreferences limit) (fun _ => ret []).

(* ------------------------------------------------------------------ *)
(** ** getSeasonalRecommendations *)

Definition seasonalTags (currentMonth : Z) : list string :=
  if (3 <=? currentMonth)%Z && (currentMonth <=? 5)%Z then
    ["spring"; "outdoor"; "garden"; "fashion"]%string
  else if (6 <=? currentMonth)%Z && (currentMonth <=? 8)%Z then
    ["summer"; "outdoor"; "sports"; "vacation"; "swimwear"]%string
  else if (9 <=? currentMonth)%Z && (currentMonth <=? 11)%Z then
    ["fall"; "autumn"; "back-to-school"; "warm"; "cozy"]%string
  else
    ["winter"; "holiday"; "warm"; "indoor"; "gifts"]%string.

Definition getSeasonalCategories (month : Z) : list string :=
  if (3 <=? month)%Z && (month <=? 5)%Z then
    ["Home & Garden"; "Sports & Outdoors"; "Clothing & Fashion"]%string
  else if (6 <=? month)%Z && (month <=? 8)%Z then
    ["Sports & Outdoors"; "Clothing & Fashion"; "Electronics"]%string
  else if (9 <=? month)%Z && (month <=? 11)%Z then
    ["Clothing & Fashion"; "Electronics"; "Books & Media"]%string
  else
    ["Electronics"; "Toys & Games"; "Home & Garden"]%string.

Definition is_seasonal (currentMonth : Z) (p : Product) : bool :=
  is_active (status p)
  && (existsb (fun tag => str_mem tag (seasonalTags currentMonth)) (tags p)
      || str_mem (category p) (getSeasonalCategories currentMonth)).

(** [currentMonth] is [new Date().getMonth() + 1], read from the clock by
    the source and passed in here. *)
Definition getSeasonalRecommendations (s : Store) (currentMonth : Z) (limit : Z)
  : Async (list Product) :=
  await_read s
    (Returned (Mongo.limit limit
       (Mongo.sort_rating_sales (filter (is_seasonal currentMonth) (products s))))).

(* ------------------------------------------------------------------ *)
(** ** getCollaborativeRecommendations *)

Definition lift {A} (o : outcome A) : Async A := fun t => (o, t).

Module Mongoose.
(** [mongoose.Types.ObjectId(id)], written as a plain call.  The server
    depends on mongoose [^8.0.3] ([package.json]), where [Types.ObjectId]
    is the [ObjectId] class of the bson driver; a class called without
    [new] throws a [TypeError], whatever the argument. *)
Definition Types_ObjectId (id : ObjectId) : outcome ObjectId := Thrown TypeError.
End Mongoose.

(** [arr.map(f)] for a callback that may throw: the first throw wins. *)
Fixpoint map_throwing {A B} (f : A -> outcome B) (arr : list A) : outcome (list B) :=
  match arr with
  | [] => Returned []
  | x :: rest =>
      match f x with
      | Thrown e => Thrown e
      | Returned y =>
          match map_throwing f rest with
          | Thrown e => Thrown e
          | Returned ys => Returned (y :: ys)
          end
      end
  end.

(** [item.product.toString()]: a [null] reference has no [toString]. *)
Definition product_toString (item : Item.t ObjectId) : outcome ObjectId :=
  match Item.product item with
  | Some id => Returned id
  | None => Thrown TypeError
  end.

(** [userOrders.flatMap(order => order.orderItems.map(item => item.product.toString()))] *)
Definition purchased_ids (userOrders : list (Order ObjectId)) : outcome (list ObjectId) :=
  match map_throwing (fun order => map_throwing product_toString (orderItems order))
          userOrders with
  | Returned idss => Returned (concat idss)
  | Thrown e => Thrown e
  end.

Definition ref_in (ids : list ObjectId) (r : option ObjectId) : bool :=
  match r with
  | Some id => mem id ids
  | None => false
  end.

(** ['orderItems.product': { $in: ids }] on the array of line items: some
    element is in [ids]. *)
Definition match_in (ids : list ObjectId) (o : Order ObjectId) : bool :=
  existsb (fun it => ref_in ids (Item.product it)) (orderItems o).

(** ['orderItems.product': { $nin: ids }] on the array of line items: no
    element is in [ids]. *)
Definition match_nin (ids : list ObjectId) (o : Order ObjectId) : bool :=
  forallb (fun it => negb (ref_in ids (Item.product it))) (orderItems o).

Definition ref_eqb (a b : option ObjectId) : bool :=
  match a, b with
  | Some x, Some y => N.eqb x y
  | None, None => true
  | _, _ => false
  end.

Fixpoint refs_eqb (a b : list (option ObjectId)) : bool :=
  match a, b with
  | [], [] => true
  | x :: a', y :: b' => ref_eqb x y && refs_eqb a' b'
  | _, _ => false
  end.

Definition addToSet (v : list (option ObjectId)) (set : list (list (option ObjectId)))
  : list (list (option ObjectId)) :=
  if existsb (refs_eqb v) set then set else set ++ [v].

Module SimilarUser.
(** A document of the first [$group]: one per buyer. *)
Record t := {
  _id : ObjectId;
  commonProducts : list (list (option ObjectId));
  count : nat
}.
End SimilarUser.

Definition order_refs (o : Order ObjectId) : list (option ObjectId) :=
  map (fun it => Item.product it) (orderItems o).

(** [$group] by ['$user'] with [commonProducts: { $addToSet: ... }] and
    [count: { $sum: 1 }]. *)
Definition same_user (g : SimilarUser.t) (o : Order ObjectId) : bool :=
  N.eqb (SimilarUser._id g) (user o).

Definition open_user (o : Order ObjectId) : SimilarUser.t :=
  {| SimilarUser._id := user o;
     SimilarUser.commonProducts := [order_refs o];
     SimilarUser.count := 1 |}.

Definition add_order (g : SimilarUser.t) (o : Order ObjectId) : SimilarUser.t :=
  {| SimilarUser._id := SimilarUser._id g;
     SimilarUser.commonProducts := addToSet (order_refs o) (SimilarUser.commonProducts g);
     SimilarUser.count := S (SimilarUser.count g) |}.

Definition group_by_user (docs : list (Order ObjectId)) : list SimilarUser.t :=
  Mongo.group same_user open_user add_order docs.

Definition count_behind (x y : SimilarUser.t) : bool :=
  (SimilarUser.count x <? SimilarUser.count y)%nat.

(** The first aggregation: [$match], [$group], [$match], [$sort], [$limit]. *)
Definition similar_users_pipeline (s : Store) (userId : ObjectId)
  (userProductIds : list ObjectId) : outcome (list SimilarUser.t) :=
  let matched := filter (fun o => isPaid o && match_in userProductIds o) (orders s) in
  let grouped := group_by_user matched in
  let others := filter (fun g => negb (N.eqb (SimilarUser._id g) userId)) grouped in
  let sorted := Js.stable_sort count_behind others in
  Mongo.limit_stage 20 sorted.

Module Bought.
(** An accumulator of the second [$group]: one per product reference. *)
Record t := {
  _id : option ObjectId;
  score : nat;
  priceTotal : Js.number
}.
End Bought.

Module Scored.
(** A document of the second [$group]. *)
Record t := {
  _id : option ObjectId;
  score : nat;
  avgPrice : Js.number
}.
End Scored.

(** [$group] by ['$orderItems.product'] over the unwound line items,
    with [score: { $sum: 1 }] and the running total behind [$avg]. *)
Definition same_product (g : Bought.t) (item : Item.t ObjectId) : bool :=
  ref_eqb (Bought._id g) (Item.product item).

Definition open_product (item : Item.t ObjectId) : Bought.t :=
  {| Bought._id := Item.product item;
     Bought.score := 1;
     Bought.priceTotal := Item.price item |}.

Definition add_item (g : Bought.t) (item : Item.t ObjectId) : Bought.t :=
  {| Bought._id := Bought._id g;
     Bought.score := S (Bought.score g);
     Bought.priceTotal := (Bought.priceTotal g + Item.price item)%Qc |}.

Definition group_by_product (docs : list (Item.t ObjectId)) : list Bought.t :=
  Mongo.group same_product open_product add_item docs.

Definition finish_group (g : Bought.t) : Scored.t :=
  {| Scored._id := Bought._id g;
     Scored.score := Bought.score g;
     Scored.avgPrice := (Bought.priceTotal g / Js.num (Z.of_nat (Bought.score g)))%Qc |}.

Definition score_behind (x y : Scored.t) : bool :=
  (Scored.score x <? Scored.score y)%nat.

(** The second aggregation: [$match], [$unwind], [$group], [$sort], [$limit]. *)
Definition recommended_pipeline (s : Store) (similarUserIds userProductIds : list ObjectId)
  (limit : Z) : outcome (list Scored.t) :=
  let matched :=
    filter (fun o => mem (user o) similarUserIds && isPaid o && match_nin userProductIds o)
           (orders s) in
  let unwound := flat_map (fun o => orderItems o) matched in
  let grouped := map finish_group (group_by_product unwound) in
  let sorted := Js.stable_sort score_behind grouped in
  Mongo.limit_stage limit sorted.

(** [recommendedProducts.find(item => item._id.toString() === id)?.score || 0];
    the callback throws on a group whose [_id] is [null]. *)
Fixpoint find_score (recommendedProducts : list Scored.t) (id : ObjectId) : outcome nat :=
  match recommendedProducts with
  | [] => Returned 0%nat
  | item :: rest =>
      match Scored._id item with
      | None => Thrown TypeError
      | Some i => if N.eqb i id then Returned (Scored.score item) else find_score rest id
      end
  end.

Definition annotate (recommendedProducts : list Scored.t) (product : Product)
  : outcome Recommendation :=
  match find_score recommendedProducts (_id product) with
  | Thrown e => Thrown e
  | Returned n =>
      Returned {| doc := product;
                  recommendationScore := Some (Js.num (Z.of_nat n));
                  recommendationType := Some collaborative |}
  end.

Definition paid_orders_of (s : Store) (userId : ObjectId) : list (Order ObjectId) :=
  filter (fun o => N.eqb (user o) userId && isPaid o) (orders s).

(** The [try] block of [getCollaborativeRecommendations]. *)
Definition collaborative_try (s : Store) (userId : ObjectId) (limit : Z)
  : Async (list Recommendation) :=
  userOrders <- await_read s (Returned (paid_orders_of s userId)) ;;
  userProductIds <- lift (purchased_ids userOrders) ;;
  if (length userProductIds =? 0)%nat then ret []
  else
    (* the pipeline array is built, and its [ObjectId] calls made, before
       [Order.aggregate] is called *)
    inIds <- lift (map_throwing Mongoose.Types_ObjectId userProductIds) ;;
    self <- lift (Mongoose.Types_ObjectId userId) ;;
    similarUsers <- await_read s (similar_users_pipeline s self inIds) ;;
    let similarUserIds := map SimilarUser._id similarUsers in
    ninIds <- lift (map_throwing Mongoose.Types_ObjectId userProductIds) ;;
    recommendedProducts <-
      await_read s (recommended_pipeline s similarUserIds ninIds limit) ;;
    let productIds := map Scored._id recommendedProducts in
    found <- await_read s
      (Returned (filter (fun p => existsb (ref_eqb (Some (_id p))) productIds
                                  && is_active (status p))
                        (products s))) ;;
    lift (map_throwing (annotate recommendedProducts) found).

Definition getCollaborativeRecommendations (s : Store) (userId : ObjectId) (limit : Z)
  : Async (list Recommendation) :=
  try_catch (collaborative_try s userId limit) (fun _ => ret []).

(* ------------------------------------------------------------------ *)
(** ** GET /api/recommendations/personalized *)

Inductive Response :=
| Json200 (recommendations : list Recommendation)
          (categories brands : list string) (priceRange : PriceRange.t)
| Json500 (e : Error).

(** [parseInt(req.query.limit) || dflt]: [None] is [NaN]. *)
Definition parse_limit (param : option Z) (dflt : Z) : Z :=
  match param with
  | Some n => if (n =? 0)%Z then dflt else n
  | None => dflt
  end.

Definition personalized (s : Store) (userId : ObjectId) (limit_param : option Z)
  : Async Response :=
  try_catch
    (let limit := parse_limit limit_param 10 in
     userOrders <- await_read s
       (Returned (map (populate_order s) (paid_orders_of s userId))) ;;
     found <- await_read s
       (Returned (option_map (populate_user s)
                    (find (fun u => N.eqb (user_id u) userId) (users s)))) ;;
     userPreferences <-
       match found with
       | Some u => ret (getUserPreferences userId userOrders u)
       | None => throw TypeError   (* [user.wishlist] of [null] *)
       end ;;
     collaborativeRecs <- getCollaborativeRecommendations s userId limit ;;
     contentRecs <- getContentBasedRecommendations s userPreferences limit ;;
     let recommendations :=
       combineRecommendations collaborativeRecs contentRecs userPreferences limit in
     ret (Json200 recommendations (categories userPreferences)
            (brands userPreferences) (priceRange userPreferences)))
    (fun e => ret (Json500 e)).

Close Scope async_scope.

(* ------------------------------------------------------------------ *)
(** ** The specification's vocabulary *)

(** The score an item carries ([0] where the property is missing). *)
Definition score_of (r : Recommendation) : Js.number :=
  match recommendationScore r with
  | Some q => q
  | None => Js.num 0
  end.

(** [x] may stand before [y] in a list ranked by score, best first. *)
Definition score_desc (x y : Recommendation) : Prop := (score_of y <= score_of x)%Qc.

Definition same_id (i : ObjectId) (r : Recommendation) : bool := N.eqb (rec_id r) i.

Definition healthy (s : Store) : Prop := forall t, rejects s t = false.

(** *** Preference Extractor, in the words of the specification *)

Module PrefSpec.

(** The line items that have a product, each with that product. *)
Definition resolved (items : list (Item.t Product)) : list (Product * Item.t Product) :=
  flat_map (fun item => match Item.product item with
                        | Some p => [(p, item)]
                        | None => []
                        end) items.

(** The line items of the paid orders, each with its product. *)
Definition purchases (userOrders : list (Order Product))
  : list (Product * Item.t Product) :=
  flat_map (fun o => resolved (orderItems o)) userOrders.

Definition as_signal (pi : Product * Item.t Product) : Product * Js.number :=
  (fst pi, Item.quantity (snd pi)).

Definition spend (pi : Product * Item.t Product) : Js.number :=
  (Item.price (snd pi) * Item.quantity (snd pi))%Qc.

Definition units (pi : Product * Item.t Product) : Js.number :=
  Item.quantity (snd pi).

Definition wished (u : User Product) : list Product :=
  match wishlist u with Some w => w | None => [] end.

Definition carted (u : User Product) : list Product :=
  match cart u with
  | Some c => flat_map (fun entry => match Cart.product entry with
                                     | Some p => [p]
                                     | None => []
                                     end) c
  | None => []
  end.

(** What each signal adds: the quantity for a purchased line item, 0.5
    for a wishlist product, 0.3 for a cart product. *)
Definition signals (userOrders : list (Order Product)) (u : User Product)
  : list (Product * Js.number) :=
  map as_signal (purchases userOrders)
  ++ map (fun p => (p, Q2Qc (1 # 2))) (wished u)
  ++ map (fun p => (p, Q2Qc (3 # 10))) (carted u).

(** The weight accumulated for [k], a category or a brand name. *)
Fixpoint weight (key : Product -> string) (sig : list (Product * Js.number))
  (k : string) : Js.number :=
  match sig with
  | [] => 0%Qc
  | (p, w) :: rest =>
      if string_dec (key p) k then (w + weight key rest k)%Qc else weight key rest k
  end.

Definition seen (key : Product -> string) (sig : list (Product * Js.number))
  (k : string) : Prop :=
  exists p w, In (p, w) sig /\ key p = k.

Definition sum (l : list Js.number) : Js.number := fold_right Qcplus 0%Qc l.

Definition total_spend (userOrders : list (Order Product)) : Js.number :=
  sum (map spend (purchases userOrders)).

Definition total_items (userOrders : list (Order Product)) : Js.number :=
  sum (map units (purchases userOrders)).

(** A dictionary after a run of signals. *)
Definition absorb (key : Product -> string) (d : Dict.t)
  (sig : list (Product * Js.number)) : Dict.t :=
  fold_left (fun acc pw => Dict.bump acc (key (fst pw)) (snd pw)) sig d.

End PrefSpec.

(** *** Content Scorer, in the words of the specification *)

Module ContentSpec.

(** The 0-indexed rank of [x] in a ranked list. *)
Fixpoint rank (x : string) (ranked : list string) : option nat :=
  match ranked with
  | [] => None
  | y :: rest => if string_dec y x then Some 0%nat else option_map S (rank x rest)
  end.

Definition top3 (ranked : list string) : list string := firstn 3 ranked.

Definition maxQ (a b : Js.number) : Js.number := if Qclt_le_dec a b then b else a.
Definition minQ (a b : Js.number) : Js.number := if Qclt_le_dec b a then b else a.

Definition categoryBonus (prefs : Preferences) (p : Product) : Js.number :=
  match rank (category p) (top3 (categories prefs)) with
  | Some r => ((Js.num 3 - Js.num (Z.of_nat r)) * Js.num 3)%Qc
  | None => Js.num 0
  end.

Definition brandBonus (prefs : Preferences) (p : Product) : Js.number :=
  match rank (brand p) (top3 (brands prefs)) with
  | Some r => ((Js.num 3 - Js.num (Z.of_nat r)) * Js.num 2)%Qc
  | None => Js.num 0
  end.

Definition priceBonus (prefs : Preferences) (p : Product) : Js.number :=
  let avgPrice := PriceRange.avg (priceRange prefs) in
  if Qclt_le_dec (Js.num 0) avgPrice
  then maxQ (Js.num 0) (Js.num 2 - Qcabs (price p - avgPrice) / avgPrice)%Qc
  else Js.num 0.

Definition qualityBonus (p : Product) : Js.number :=
  (averageRating p + minQ (sales p / Js.num 100) (Js.num 2))%Qc.

Definition score (prefs : Preferences) (p : Product) : Js.number :=
  (categoryBonus prefs p + brandBonus prefs p + priceBonus prefs p + qualityBonus p)%Qc.

Definition candidate (prefs : Preferences) (p : Product) : Prop :=
  status p = active
  /\ (In (category p) (top3 (categories prefs)) \/ In (brand p) (top3 (brands prefs))).

Definition candidateb (prefs : Preferences) (p : Product) : bool :=
  match status p with
  | active =>
      if in_dec string_dec (category p) (top3 (categories prefs)) then true
      else if in_dec string_dec (brand p) (top3 (brands prefs)) then true
      else false
  | _ => false
  end.

Definition scored (prefs : Preferences) (p : Product) : Recommendation :=
  {| doc := p;
     recommendationScore := Some (score prefs p);
     recommendationType := Some content_based |}.

(** Highest rating first; among equal ratings, most sales first. *)
Definition popular_first (x y : Product) : Prop :=
  (averageRating y < averageRating x)%Qc
  \/ (averageRating y = averageRating x /\ (sales y <= sales x)%Qc).

End ContentSpec.

(** *** Seasonal Scorer, in the words of the specification *)

Module SeasonSpec.

Definition july_tags : list string :=
  ["summer"; "outdoor"; "sports"; "vacation"; "swimwear"]%string.

Definition july_categories : list string :=
  ["Sports & Outdoors"; "Clothing & Fashion"; "Electronics"]%string.

Definition july_match (p : Product) : Prop :=
  status p = active
  /\ ((exists tag, In tag (tags p) /\ In tag july_tags) \/ In (category p) july_categories).

Definition july_matchb (p : Product) : bool :=
  match status p with
  | active =>
      existsb (fun tag => if in_dec string_dec tag july_tags then true else false) (tags p)
      || (if in_dec string_dec (category p) july_categories then true else false)
  | _ => false
  end.

End SeasonSpec.

(* ------------------------------------------------------------------ *)
(** ** A small shop, for the examples *)

Module Sample.

Definition product (id : ObjectId) (c b : string) (pr rating sold : Z)
  (tgs : list string) (st : ProductStatus) : Product :=
  {| _id := id; category := c; brand := b; price := Js.num pr; tags := tgs;
     averageRating := Js.num rating; sales := Js.num sold; views := Js.num 0;
     status := st |}.

Definition laptop := product 1%N "Electronics" "Acme" 100 4 234 ["work"]%string active.
Definition novel := product 2%N "Books & Media" "Pen" 10 5 10 []%string active.
Definition phone := product 3%N "Electronics" "Pen" 50 3 1000 ["summer"]%string active.
Definition robot := product 4%N "Toys & Games" "Zed" 5 5 5 ["gifts"]%string inactive.
Definition tent := product 5%N "Sports & Outdoors" "Zed" 80 4 40 ["outdoor"]%string active.

Definition catalog : list Product := [laptop; novel; phone; robot; tent].

Definition line (r : option ObjectId) (pr qty : Z) : Item.t ObjectId :=
  {| Item.product := r; Item.price := Js.num pr; Item.quantity := Js.num qty |}.

Definition paid (u : ObjectId) (items : list (Item.t ObjectId)) : Order ObjectId :=
  {| user := u; orderItems := items; isPaid := true |}.

Definition ann : ObjectId := 7%N.
Definition bob : ObjectId := 8%N.
Definition eve : ObjectId := 9%N.

Definition ann_doc : User ObjectId :=
  {| user_id := ann; wishlist := Some [2%N]; cart := None |}.

(** Ann bought the laptop; Bob bought the laptop with the phone, and the
    novel on its own; Eve has an account and no order. *)
Definition shop : Store :=
  {| products := catalog;
     orders := [paid ann [line (Some 1%N) 100 2];
                paid bob [line (Some 1%N) 100 1; line (Some 3%N) 50 1];
                paid bob [line (Some 2%N) 10 1]];
     users := [ann_doc; {| user_id := eve; wishlist := None; cart := None |}];
     rejects := fun _ => false |}.

Definition ann_prefs : Preferences :=
  {| categories := ["Electronics"; "Books & Media"]%string;
     brands := ["Acme"; "Pen"]%string;
     priceRange := {| PriceRange.avg := Js.num 100; PriceRange.max := Js.Fin (Js.num 100) |};
     totalPurchases := Js.num 2 |}.

Definition cold_prefs : Preferences :=
  {| categories := []; brands := [];
     priceRange := {| PriceRange.avg := Js.num 0; PriceRange.max := Js.NegInfinity |};
     totalPurchases := Js.num 0 |}.

Definition pick (p : Product) (sc : Z) (ty : RecommendationType) : Recommendation :=
  {| doc := p; recommendationScore := Some (Js.num sc); recommendationType := Some ty |}.

Definition collab_picks : list Recommendation := [pick novel 1 collaborative].

Definition content_picks : list Recommendation :=
  [pick laptop 23 content_based; pick novel 7 content_based].

(** Ann's paid orders and her user document, populated. *)
Definition ann_history : list (Order Product) :=
  [{| user := ann;
      orderItems := [{| Item.product := Some laptop;
                        Item.price := Js.num 100;
                        Item.quantity := Js.num 2 |}];
      isPaid := true |}].

Definition ann_profile : User Product :=
  {| user_id := ann; wishlist := Some [novel]; cart := None |}.

(** The shop after a line item of Ann's order lost its product reference. *)
Definition flawed : Store :=
  {| products := catalog;
     orders := [paid ann [line (Some 1%N) 100 2; line None 300 1];
                paid bob [line (Some 1%N) 100 1; line (Some 3%N) 50 1];
                paid bob [line (Some 2%N) 10 1]];
     users := users shop;
     rejects := fun _ => false |}.

(** The shop when the store rejects the fourth read of a request. *)
Definition flaky : Store :=
  {| products := catalog;
     orders := orders shop;
     users := users shop;
     rejects := fun t => (t =? 3)%nat |}.

End Sample.

(** *** Collaborative Scorer, in the words of the specification *)

Module CollabSpec.

(** Does the order hold product [id]? *)
Definition holds (o : Order ObjectId) (id : ObjectId) : bool :=
  existsb (fun item => ref_eqb (Item.product item) (Some id)) (orderItems o).

(** Did user [u] buy product [id] in a paid order? *)
Definition bought (s : Store) (u id : ObjectId) : bool :=
  existsb (fun o => N.eqb (user o) u && isPaid o && holds o id) (orders s).

(** How many distinct products of the purchase set [ids] user [u] shares. *)
Definition shared_products (s : Store) (ids : list ObjectId) (u : ObjectId) : nat :=
  length (filter (bought s u) (nodup N.eq_dec ids)).

Definition neighbour_orders (s : Store) (neighbours : list ObjectId)
  : list (Order ObjectId) :=
  filter (fun o => mem (user o) neighbours && isPaid o) (orders s).

(** How many of the neighbours' paid orders hold product [id]. *)
Definition orders_holding (s : Store) (neighbours : list ObjectId) (id : ObjectId) : nat :=
  length (filter (fun o => holds o id) (neighbour_orders s neighbours)).

Definition buyers (s : Store) : list ObjectId :=
  nodup N.eq_dec (map (fun o => user o) (filter (fun o => isPaid o) (orders s))).

(** The claimed neighbours: the other users who share a product, the 20
    with the most shared products. *)
Definition neighbours (s : Store) (userId : ObjectId) (ids : list ObjectId)
  : list ObjectId :=
  firstn 20
    (Js.stable_sort
       (fun a b => (shared_products s ids a <? shared_products s ids b)%nat)
       (filter (fun u => negb (N.eqb u userId) && (1 <=? shared_products s ids u)%nat)
               (buyers s))).

(** The claimed ranking: the products of the neighbours' paid orders the
    target has not bought, each with the number of those orders holding
    it, best first, cut to [n]. *)
Definition recommended (s : Store) (userId : ObjectId) (ids : list ObjectId) (n : nat)
  : list (ObjectId * nat) :=
  let nb := neighbours s userId ids in
  let seen := flat_map (fun o => flat_map (fun item => match Item.product item with
                                                      | Some id => [id]
                                                      | None => []
                                                      end) (orderItems o))
                (neighbour_orders s nb) in
  let fresh := filter (fun id => negb (mem id ids)) (nodup N.eq_dec seen) in
  firstn n (Js.stable_sort (fun a b => (snd a <? snd b)%nat)
              (map (fun id => (id, orders_holding s nb id)) fresh)).

(** The claimed result: the ranking resolved to active products. *)
Definition resolved (s : Store) (userId : ObjectId) (ids : list ObjectId) (n : nat)
  : list (ObjectId * nat) :=
  filter (fun r => match lookup_product s (fst r) with
                   | Some p => is_active (status p)
                   | None => false
                   end) (recommended s userId ids n).

(** The item the scorer returns for product [p] when [p] is active and
    among [top], with the score held there. *)
Definition pick (top : list Scored.t) (p : Product) : list Recommendation :=
  match find (fun g => ref_eqb (Scored._id g) (Some (_id p))) top with
  | Some g =>
      if is_active (status p)
      then [{| doc := p;
               recommendationScore := Some (Js.num (Z.of_nat (Scored.score g)));
               recommendationType := Some collaborative |}]
      else []
  | None => []
  end.

End CollabSpec.

(** *** Malformed references, in the words of the specification *)

Definition well_formed {R} (item : Item.t R) : bool :=
  match Item.product item with Some _ => true | None => false end.

(** The order with the offending items skipped. *)
Definition drop_malformed {R} (o : Order R) : Order R :=
  {| user := user o;
     orderItems := filter well_formed (orderItems o);
     isPaid := isPaid o |}.

Definition without_malformed (s : Store) : Store :=
  {| products := products s;
     orders := map drop_malformed (orders s);
     users := users s;
     rejects := rejects s |}.

Definition find_user (s : Store) (userId : ObjectId) : option (User ObjectId) :=
  find (fun u => N.eqb (user_id u) userId) (users s).

(** The snapshot the handler builds for a user it found. *)
Definition snapshot (s : Store) (userId : ObjectId) (u : User ObjectId) : Preferences :=
  getUserPreferences userId (map (populate_order s) (paid_orders_of s userId))
    (populate_user s u).


(* ------------------------------------------------------------------ *)
(** ** The users router: documents and route handlers

    The routes of the first router of [server/routes/users.js] work on
    the document of the authenticated user ([req.user.id]) and on the
    [stock] and [price] of products.  A request body field is [None]
    when it is missing or fails its validator; a validated [quantity]
    is a JSON integer. *)

Module CartItem.
(** An element of [user.cart]: the product reference, as stored or as
    populated, and the quantity. *)
Record t (R : Type) := { product : option R; quantity : Z }.
End CartItem.

Module Address.
(** An element of [user.addresses]: its [_id], the properties taken from
    the request body, and [isDefault]. *)
Record t := {
  _id : ObjectId;
  fields : list (string * string);
  isDefault : bool
}.
End Address.

Module Account.
Record t := {
  cart : list (CartItem.t ObjectId);
  wishlist : list ObjectId;
  addresses : list Address.t
}.
End Account.

(** A product document with the [stock] the cart routes read. *)
Record Stocked := { item : Product; stock : Js.number }.

Record UserDb := {
  inventory : list Stocked;
  account : option Account.t;   (* [User.findById(req.user.id)] *)
  refuses : nat -> bool         (* is the operation at this tick rejected? *)
}.

Inductive Reply (P : Type) :=
| Json (payload : P)
| BadRequest (message : string)
| NotFound (message : string)
| ServerError (e : Error).
Arguments Json {P} payload.
Arguments BadRequest {P} message.
Arguments NotFound {P} message.
Arguments ServerError {P} e.

(** A step of a handler: go on with a value, [return res...] early, or
    throw. *)
Inductive step (P A : Type) :=
| Next (a : A)
| Respond (r : Reply P)
| Raise (e : Error).
Arguments Next {P A} a.
Arguments Respond {P A} r.
Arguments Raise {P A} e.

Definition Route (P A : Type) := UserDb -> nat -> step P A * UserDb * nat.

Definition pure {P A} (a : A) : Route P A := fun db t => (Next a, db, t).

Definition respond {P A} (r : Reply P) : Route P A := fun db t => (Respond r, db, t).

Definition raise {P A} (e : Error) : Route P A := fun db t => (Raise e, db, t).

Definition and_then {P A B} (m : Route P A) (k : A -> Route P B) : Route P B :=
  fun db t =>
    match m db t with
    | (Next a, db', t') => k a db' t'
    | (Respond r, db', t') => (Respond r, db', t')
    | (Raise e, db', t') => (Raise e, db', t')
    end.

(** [await] of a read. *)
Definition reading {P A} (answer : UserDb -> A) : Route P A :=
  fun db t =>
    if refuses db t then (Raise StoreError, db, S t)
    else (Next (answer db), db, S t).

(** [await user.save()]. *)
Definition saving {P} (u : Account.t) : Route P unit :=
  fun db t =>
    if refuses db t then (Raise StoreError, db, S t)
    else (Next tt,
          {| inventory := inventory db; account := Some u; refuses := refuses db |},
          S t).

Definition lifting {P A} (o : outcome A) : Route P A :=
  match o with
  | Returned a => pure a
  | Thrown e => raise e
  end.

(** [try { ... res.json(...) } catch (error) { res.status(500)... }] *)
Definition serve {P} (body : Route P (Reply P)) (db : UserDb) (t : nat)
  : Reply P * UserDb :=
  match body db t with
  | (Next r, db', _) => (r, db')
  | (Respond r, db', _) => (r, db')
  | (Raise e, db', _) => (ServerError e, db')
  end.

Declare Scope route_scope.
Delimit Scope route_scope with route.
Notation "x <~ m ;; k" := (and_then m (fun x => k))
  (at level 61, m at next level, right associativity) : route_scope.

Definition findById (id : ObjectId) (db : UserDb) : option Stocked :=
  find (fun sp => N.eqb (_id (item sp)) id) (inventory db).

(** [user.cart.find(item => item.product.toString() === productId)] *)
Fixpoint find_line (cart : list (CartItem.t ObjectId)) (productId : ObjectId)
  : outcome (option (CartItem.t ObjectId)) :=
  match cart with
  | [] => Returned None
  | line :: rest =>
      match CartItem.product line with
      | None => Thrown TypeError
      | Some p =>
          if N.eqb p productId then Returned (Some line) else find_line rest productId
      end
  end.

(** The cart after [line.quantity = q] on the element [find] returned:
    the first one that holds [productId]. *)
Fixpoint set_quantity (cart : list (CartItem.t ObjectId)) (productId : ObjectId) (q : Z)
  : list (CartItem.t ObjectId) :=
  match cart with
  | [] => []
  | line :: rest =>
      if ref_eqb (CartItem.product line) (Some productId)
      then {| CartItem.product := CartItem.product line; CartItem.quantity := q |} :: rest
      else line :: set_quantity rest productId q
  end.

(** [user.cart.filter(item => item.product.toString() !== productId)] *)
Fixpoint without_line (cart : list (CartItem.t ObjectId)) (productId : ObjectId)
  : outcome (list (CartItem.t ObjectId)) :=
  match cart with
  | [] => Returned []
  | line :: rest =>
      match CartItem.product line with
      | None => Thrown TypeError
      | Some p =>
          match without_line rest productId with
          | Thrown e => Thrown e
          | Returned kept => Returned (if N.eqb p productId then kept else line :: kept)
          end
      end
  end.

Definition populate_cart (db : UserDb) (cart : list (CartItem.t ObjectId))
  : list (CartItem.t Stocked) :=
  map (fun line =>
         {| CartItem.product := match CartItem.product line with
                                | Some id => findById id db
                                | None => None
                                end;
            CartItem.quantity := CartItem.quantity line |}) cart.

Definition with_cart (u : Account.t) (c : list (CartItem.t ObjectId)) : Account.t :=
  {| Account.cart := c;
     Account.wishlist := Account.wishlist u;
     Account.addresses := Account.addresses u |}.

Definition with_wishlist (u : Account.t) (w : list ObjectId) : Account.t :=
  {| Account.cart := Account.cart u;
     Account.wishlist := w;
     Account.addresses := Account.addresses u |}.

Definition with_addresses (u : Account.t) (a : list Address.t) : Account.t :=
  {| Account.cart := Account.cart u;
     Account.wishlist := Account.wishlist u;
     Account.addresses := a |}.

Open Scope route_scope.

(** [await User.findById(req.user.id)], then a property of the result is
    read: a missing document throws. *)
Definition the_user {P} : Route P Account.t :=
  found <~ reading account ;;
  match found with
  | Some u => pure u
  | None => raise TypeError
  end.

(** POST /api/users/cart *)
Definition post_cart (productId : option ObjectId) (quantity : option Z)
  : UserDb -> nat -> Reply (list (CartItem.t Stocked)) * UserDb :=
  serve
    (match productId, quantity with
     | Some productId, Some quantity =>
         if (quantity <? 1)%Z then respond (BadRequest "Validation failed")
         else
           product <~ reading (findById productId) ;;
           match product with
           | None => respond (NotFound "Product not found")
           | Some product =>
               if Js.gtb (Js.num quantity) (stock product)
               then respond (BadRequest "Insufficient stock available")
               else
                 u <~ the_user ;;
                 existingCartItem <~ lifting (find_line (Account.cart u) productId) ;;
                 cart' <~
                   match existingCartItem with
                   | Some line =>
                       let newQuantity := (CartItem.quantity line + quantity)%Z in
                       if Js.gtb (Js.num newQuantity) (stock product)
                       then respond (BadRequest
                              "Cannot add more items. Insufficient stock available")
                       else pure (set_quantity (Account.cart u) productId newQuantity)
                   | None =>
                       pure (Account.cart u
                             ++ [{| CartItem.product := Some productId;
                                    CartItem.quantity := quantity |}])
                   end ;;
                 _ <~ saving (with_cart u cart') ;;
                 populated <~ reading (fun db => populate_cart db cart') ;;
                 pure (Json populated)
           end
     | _, _ => respond (BadRequest "Validation failed")
     end).

Module CartSummary.
Record t := { totalItems : Z; subtotal : Js.number; itemCount : nat }.
End CartSummary.

Definition cart_total (cart : list (CartItem.t Stocked)) : Js.number :=
  fold_left (fun total line =>
               match CartItem.product line with
               | Some p => (total + price (item p) * Js.num (CartItem.quantity line))%Qc
               | None => total
               end) cart (Js.num 0).

Definition cart_items (cart : list (CartItem.t Stocked)) : Z :=
  fold_left (fun total line => (total + CartItem.quantity line)%Z) cart 0%Z.

(** GET /api/users/cart *)
Definition get_cart
  : UserDb -> nat -> Reply (list (CartItem.t Stocked) * CartSummary.t) * UserDb :=
  serve
    (found <~ reading (fun db => option_map (fun u => populate_cart db (Account.cart u))
                                   (account db)) ;;
     match found with
     | None => raise TypeError
     | Some cart =>
         let cartTotal := cart_total cart in
         let totalItems := cart_items cart in
         pure (Json (cart, {| CartSummary.totalItems := totalItems;
                              CartSummary.subtotal := cartTotal;
                              CartSummary.itemCount := length cart |}))
     end).

(** PUT /api/users/cart/:productId *)
Definition put_cart (productId : ObjectId) (quantity : option Z)
  : UserDb -> nat -> Reply (list (CartItem.t Stocked)) * UserDb :=
  serve
    (match quantity with
     | Some quantity =>
         if (quantity <? 1)%Z then respond (BadRequest "Validation failed")
         else
           product <~ reading (findById productId) ;;
           match product with
           | None => respond (NotFound "Product not found")
           | Some product =>
               if Js.gtb (Js.num quantity) (stock product)
               then respond (BadRequest "Insufficient stock available")
               else
                 u <~ the_user ;;
                 cartItem <~ lifting (find_line (Account.cart u) productId) ;;
                 match cartItem with
                 | None => respond (NotFound "Item not found in cart")
                 | Some _ =>
                     let cart' := set_quantity (Account.cart u) productId quantity in
                     _ <~ saving (with_cart u cart') ;;
                     populated <~ reading (fun db => populate_cart db cart') ;;
                     pure (Json populated)
                 end
           end
     | None => respond (BadRequest "Validation failed")
     end).

(** DELETE /api/users/cart/:productId *)
Definition delete_cart_item (productId : ObjectId)
  : UserDb -> nat -> Reply (list (CartItem.t Stocked)) * UserDb :=
  serve
    (u <~ the_user ;;
     cart' <~ lifting (without_line (Account.cart u) productId) ;;
     _ <~ saving (with_cart u cart') ;;
     populated <~ reading (fun db => populate_cart db cart') ;;
     pure (Json populated)).

(** [User.findByIdAndUpdate(req.user.id, { cart: [] })]: one write, which
    leaves a missing document missing. *)
Definition clearing {P} : Route P unit :=
  fun db t =>
    if refuses db t then (Raise StoreError, db, S t)
    else (Next tt,
          {| inventory := inventory db;
             account := option_map (fun u => with_cart u []) (account db);
             refuses := refuses db |},
          S t).

(** DELETE /api/users/cart *)
Definition delete_cart : UserDb -> nat -> Reply (list (CartItem.t Stocked)) * UserDb :=
  serve (_ <~ clearing ;; pure (Json [])).

(** Populating the array [wishlist] drops references to missing products. *)
Definition populate_wishlist (db : UserDb) (w : list ObjectId) : list Stocked :=
  flat_map (fun id => match findById id db with
                      | Some p => [p]
                      | None => []
                      end) w.

(** POST /api/users/wishlist/:productId *)
Definition post_wishlist (productId : ObjectId)
  : UserDb -> nat -> Reply (list Stocked) * UserDb :=
  serve
    (product <~ reading (findById productId) ;;
     match product with
     | None => respond (NotFound "Product not found")
     | Some _ =>
         u <~ the_user ;;
         if mem productId (Account.wishlist u)
         then respond (BadRequest "Product already in wishlist")
         else
           let wishlist' := Account.wishlist u ++ [productId] in
           _ <~ saving (with_wishlist u wishlist') ;;
           populated <~ reading (fun db => populate_wishlist db wishlist') ;;
           pure (Json populated)
     end).

(** DELETE /api/users/wishlist/:productId *)
Definition delete_wishlist (productId : ObjectId)
  : UserDb -> nat -> Reply (list Stocked) * UserDb :=
  serve
    (u <~ the_user ;;
     let wishlist' := filter (fun id => negb (N.eqb id productId)) (Account.wishlist u) in
     _ <~ saving (with_wishlist u wishlist') ;;
     populated <~ reading (fun db => populate_wishlist db wishlist') ;;
     pure (Json populated)).

Module AddressBody.
(** The body of an address request: the properties other than
    [isDefault], and [isDefault] when the body has it.  A body's
    [isDefault] is taken to be a JSON boolean, and a body is taken not
    to carry an [_id] of its own. *)
Record t := { fields : list (string * string); isDefault : option bool }.
End AddressBody.

Definition field (name : string) (fs : list (string * string)) : string :=
  match find (fun kv => String.eqb (fst kv) name) fs with
  | Some kv => snd kv
  | None => EmptyString
  end.

(** The five [notEmpty] validators of POST /addresses. *)
Definition address_valid (body : AddressBody.t) : bool :=
  forallb (fun name => negb (String.eqb (field name (AddressBody.fields body)) EmptyString))
    ["street"; "city"; "state"; "zipCode"; "country"]%string.

Definition truthy (b : option bool) : bool :=
  match b with Some true => true | _ => false end.

(** [user.addresses.forEach(address => { address.isDefault = false })] *)
Definition clear_default (addresses : list Address.t) : list Address.t :=
  map (fun a => {| Address._id := Address._id a;
                   Address.fields := Address.fields a;
                   Address.isDefault := false |}) addresses.

(** POST /api/users/addresses; [fresh] is the [_id] the new element gets. *)
Definition post_address (fresh : ObjectId) (body : AddressBody.t)
  : UserDb -> nat -> Reply (list Address.t) * UserDb :=
  serve
    (if negb (address_valid body) then respond (BadRequest "Validation failed")
     else
       u <~ the_user ;;
       let isDefault :=
         truthy (AddressBody.isDefault body)
         || (length (Account.addresses u) =? 0)%nat in
       let addresses := if isDefault then clear_default (Account.addresses u)
                        else Account.addresses u in
       let addresses' :=
         addresses ++ [{| Address._id := fresh;
                          Address.fields := AddressBody.fields body;
                          Address.isDefault := isDefault |}] in
       _ <~ saving (with_addresses u addresses') ;;
       pure (Json addresses')).

(** [Object.assign(address, req.body)] on the element [addresses.id(id)]
    returned: the first one with that [_id]. *)
Fixpoint assign_fields (old new : list (string * string)) : list (string * string) :=
  match new with
  | [] => old
  | (k, v) :: rest =>
      assign_fields
        (if existsb (fun kv => String.eqb (fst kv) k) old
         then map (fun kv => if String.eqb (fst kv) k then (k, v) else kv) old
         else old ++ [(k, v)])
        rest
  end.

Definition assign (a : Address.t) (body : AddressBody.t) : Address.t :=
  {| Address._id := Address._id a;
     Address.fields := assign_fields (Address.fields a) (AddressBody.fields body);
     Address.isDefault := match AddressBody.isDefault body with
                          | Some b => b
                          | None => Address.isDefault a
                          end |}.

Fixpoint assign_at (addresses : list Address.t) (id : ObjectId) (body : AddressBody.t)
  : list Address.t :=
  match addresses with
  | [] => []
  | a :: rest =>
      if N.eqb (Address._id a) id then assign a body :: rest
      else a :: assign_at rest id body
  end.

Definition address_by_id (addresses : list Address.t) (id : ObjectId) : option Address.t :=
  find (fun a => N.eqb (Address._id a) id) addresses.

(** PUT /api/users/addresses/:addressId *)
Definition put_address (addressId : ObjectId) (body : AddressBody.t)
  : UserDb -> nat -> Reply (list Address.t) * UserDb :=
  serve
    (u <~ the_user ;;
     match address_by_id (Account.addresses u) addressId with
     | None => respond (NotFound "Address not found")
     | Some _ =>
         let addresses := if truthy (AddressBody.isDefault body)
                          then clear_default (Account.addresses u)
                          else Account.addresses u in
         let addresses' := assign_at addresses addressId body in
         _ <~ saving (with_addresses u addresses') ;;
         pure (Json addresses')
     end).

(** [user.addresses[0].isDefault = true] *)
Definition default_first (addresses : list Address.t) : list Address.t :=
  match addresses with
  | [] => []
  | a :: rest => {| Address._id := Address._id a;
                    Address.fields := Address.fields a;
                    Address.isDefault := true |} :: rest
  end.

(** DELETE /api/users/addresses/:addressId *)
Definition delete_address (addressId : ObjectId)
  : UserDb -> nat -> Reply (list Address.t) * UserDb :=
  serve
    (u <~ the_user ;;
     match address_by_id (Account.addresses u) addressId with
     | None => respond (NotFound "Address not found")
     | Some address =>
         let wasDefault := Address.isDefault address in
         let pulled := filter (fun a => negb (N.eqb (Address._id a) addressId))
                         (Account.addresses u) in
         let addresses' :=
           if wasDefault && (0 <? length pulled)%nat then default_first pulled
           else pulled in
         _ <~ saving (with_addresses u addresses') ;;
         pure (Json addresses')
     end).

Close Scope route_scope.

(** *** The users router: vocabulary of its properties *)

Module CartSpec.

(** The quantity the cart holds for a product: that of the first line
    with the product, [0] without one. *)
Definition quantity_of (cart : list (CartItem.t ObjectId)) (id : ObjectId) : Z :=
  match find (fun line => ref_eqb (CartItem.product line) (Some id)) cart with
  | Some line => CartItem.quantity line
  | None => 0%Z
  end.

Definition products_of (cart : list (CartItem.t ObjectId)) : list (option ObjectId) :=
  map (fun line => CartItem.product line) cart.

Definition well_formed (cart : list (CartItem.t ObjectId)) : Prop :=
  forall line, In line cart -> CartItem.product line <> None.

Definition cart_of (db : UserDb) : list (CartItem.t ObjectId) :=
  match account db with
  | Some u => Account.cart u
  | None => []
  end.

Definition answers (db : UserDb) : Prop := forall t, refuses db t = false.

Definition defaults (addresses : list Address.t) : nat :=
  length (filter (fun a => Address.isDefault a) addresses).

Definition addresses_of (db : UserDb) : list Address.t :=
  match account db with
  | Some u => Account.addresses u
  | None => []
  end.

Definition wishlist_of (db : UserDb) : list ObjectId :=
  match account db with
  | Some u => Account.wishlist u
  | None => []
  end.

End CartSpec.

(* ------------------------------------------------------------------ *)
(** ** getSimilarProducts and getFrequentlyBoughtTogether *)



(** ['orderItems.product': id] on the array of line items: some element
    is [id]. *)
Definition match_eq (id : ObjectId) (o : Order ObjectId) : bool :=
  existsb (fun it => ref_eqb (Item.product it) (Some id)) (orderItems o).

Module Together.
(** A document of the [$group] of [getFrequentlyBoughtTogether]. *)
Record t := { _id : option ObjectId; frequency : nat }.
End Together.

Definition same_companion (g : Together.t) (item : Item.t ObjectId) : bool :=
  ref_eqb (Together._id g) (Item.product item).

Definition open_companion (item : Item.t ObjectId) : Together.t :=
  {| Together._id := Item.product item; Together.frequency := 1 |}.

Definition add_companion (g : Together.t) (item : Item.t ObjectId) : Together.t :=
  {| Together._id := Together._id g; Together.frequency := S (Together.frequency g) |}.

Definition frequency_behind (x y : Together.t) : bool :=
  (Together.frequency x <? Together.frequency y)%nat.

(** The aggregation: [$match], [$unwind], [$match], [$group], [$sort],
    [$limit]. *)
Definition together_pipeline (s : Store) (bought other : ObjectId) (limit : Z)
  : outcome (list Together.t) :=
  let matched := filter (fun o => isPaid o && match_eq bought o) (orders s) in
  let unwound := flat_map (fun o => orderItems o) matched in
  let others := filter (fun it => negb (ref_eqb (Item.product it) (Some other)))
                  unwound in
  let grouped := Mongo.group same_companion open_companion add_companion others in
  let sorted := Js.stable_sort frequency_behind grouped in
  Mongo.limit_stage limit sorted.

Open Scope async_scope.

Definition together_try (s : Store) (productId : ObjectId) (limit : Z)
  : Async (list Product) :=
  (* the pipeline array is built, and its two [ObjectId] calls made,
     before [Order.aggregate] is called *)
  bought <- lift (Mongoose.Types_ObjectId productId) ;;
  other <- lift (Mongoose.Types_ObjectId productId) ;;
  frequentlyBought <- await_read s (together_pipeline s bought other limit) ;;
  let productIds := map Together._id frequentlyBought in
  found <- await_read s
    (Returned (filter (fun p => existsb (ref_eqb (Some (_id p))) productIds
                                && is_active (status p))
                      (products s))) ;;
  ret found.

Definition getFrequentlyBoughtTogether (s : Store) (productId : ObjectId) (limit : Z)
  : Async (list Product) :=
  try_catch (together_try s productId limit) (fun _ => ret []).

Close Scope async_scope.

(** *** The season table, row by row *)

Module SeasonTable.

Definition rows : list (list string * list string) :=
  [(["spring"; "outdoor"; "garden"; "fashion"],
    ["Home & Garden"; "Sports & Outdoors"; "Clothing & Fashion"]);
   (["summer"; "outdoor"; "sports"; "vacation"; "swimwear"],
    ["Sports & Outdoors"; "Clothing & Fashion"; "Electronics"]);
   (["fall"; "autumn"; "back-to-school"; "warm"; "cozy"],
    ["Clothing & Fashion"; "Electronics"; "Books & Media"]);
   (["winter"; "holiday"; "warm"; "indoor"; "gifts"],
    ["Electronics"; "Toys & Games"; "Home & Garden"])]%string.

End SeasonTable.

(** *** Scores and ranks *)

(** The score the Content Scorer gives [p] under the snapshot [prefs]. *)
Definition content_score (prefs : Preferences) (p : Product) : Js.number :=
  score_of (score_product (Js.slice0 3 (categories prefs)) (Js.slice0 3 (brands prefs))
              (priceRange prefs) p).

(** [combineRecommendations] would not swap [x] and [y]. *)
Definition fused_order (x y : Recommendation) : Prop :=
  Js.front (fun a b => Js.positive_result (by_score_desc a b)) x y.

(** *** The users router as a whole

    [router.post('/cart', ...)], [router.get('/cart', ...)] and so on:
    the requests to the cart, wishlist and address routes modelled above
    (the routes that only read the wishlist or the addresses, and the
    preferences route, are left out), and the HTTP status of a reply. *)

Inductive Request :=
| PostCart (productId : option ObjectId) (quantity : option Z)
| GetCart
| PutCart (productId : ObjectId) (quantity : option Z)
| DeleteCartItem (productId : ObjectId)
| DeleteCart
| PostWishlist (productId : ObjectId)
| DeleteWishlist (productId : ObjectId)
| PostAddress (fresh : ObjectId) (body : AddressBody.t)
| PutAddress (addressId : ObjectId) (body : AddressBody.t)
| DeleteAddress (addressId : ObjectId).

(** [res.json] answers 200; [res.status(n).json] answers [n]. *)
Definition status_code {P} (r : Reply P) : Z :=
  match r with
  | Json _ => 200
  | BadRequest _ => 400
  | NotFound _ => 404
  | ServerError _ => 500
  end.

Definition answered {P} (r : Reply P * UserDb) : Z * UserDb :=
  (status_code (fst r), snd r).

Definition router (req : Request) (db : UserDb) (t : nat) : Z * UserDb :=
  match req with
  | PostCart productId quantity => answered (post_cart productId quantity db t)
  | GetCart => answered (get_cart db t)
  | PutCart productId quantity => answered (put_cart productId quantity db t)
  | DeleteCartItem productId => answered (delete_cart_item productId db t)
  | DeleteCart => answered (delete_cart db t)
  | PostWishlist productId => answered (post_wishlist productId db t)
  | DeleteWishlist productId => answered (delete_wishlist productId db t)
  | PostAddress fresh body => answered (post_address fresh body db t)
  | PutAddress addressId body => answered (put_address addressId body db t)
  | DeleteAddress addressId => answered (delete_address addressId db t)
  end.

(** The part of the user document a request is about. *)
Inductive Part := CartPart | WishlistPart | AddressPart.

Definition part_of (req : Request) : Part :=
  match req with
  | PostCart _ _ | GetCart | PutCart _ _ | DeleteCartItem _ | DeleteCart => CartPart
  | PostWishlist _ | DeleteWishlist _ => WishlistPart
  | PostAddress _ _ | PutAddress _ _ | DeleteAddress _ => AddressPart
  end.

(** A sample till: three laptops and ten novels in stock; the user has
    one laptop in the cart, the novel on the wishlist and one address. *)
Module Till.

Definition stocked (p : Product) (n : Z) : Stocked := {| item := p; stock := Js.num n |}.

Definition home : Address.t :=
  {| Address._id := 50%N;
     Address.fields := [("street", "1 Main St"); ("city", "Pune"); ("state", "MH");
                        ("zipCode", "411001"); ("country", "IN")]%string;
     Address.isDefault := true |}.

Definition office : AddressBody.t :=
  {| AddressBody.fields := [("street", "2 Side St"); ("city", "Pune"); ("state", "MH");
                            ("zipCode", "411002"); ("country", "IN")]%string;
     AddressBody.isDefault := None |}.

Definition user : Account.t :=
  {| Account.cart := [{| CartItem.product := Some 1%N; CartItem.quantity := 1 |}];
     Account.wishlist := [2%N];
     Account.addresses := [home] |}.

Definition db : UserDb :=
  {| inventory := [stocked Sample.laptop 3; stocked Sample.novel 10];
     account := Some user;
     refuses := fun _ => false |}.

(** The same till when the store rejects the fourth operation of a
    request. *)
Definition flaky : UserDb :=
  {| inventory := inventory db; account := account db;
     refuses := fun t => (t =? 3)%nat |}.

Definition not_default : AddressBody.t :=
  {| AddressBody.fields := []; AddressBody.isDefault := Some false |}.

(** The till after a novel went into the cart, after the
    quantity of the laptop was set to three, after the laptop left the
    cart, after the laptop went onto the wishlist, after the novel left
    the wishlist. *)
Definition after_add : UserDb := snd (post_cart (Some 2%N) (Some 1%Z) db 0).
Definition after_update : UserDb := snd (put_cart 1%N (Some 3%Z) db 0).
Definition after_remove : UserDb := snd (delete_cart_item 1%N db 0).
Definition after_wish : UserDb := snd (post_wishlist 1%N db 0).
Definition after_unwish : UserDb := snd (delete_wishlist 2%N db 0).

End Till.

(** The stored data after [u.save()]. *)
Definition saved (db : UserDb) (u : Account.t) : UserDb :=
  {| inventory := inventory db; account := Some u; refuses := refuses db |}.

(** Is the line one of product [id]? *)
Definition holds_product (id : ObjectId) (line : CartItem.t ObjectId) : bool :=
  ref_eqb (CartItem.product line) (Some id).

(** *** Fusion & Ranker, in the words of the specification *)

Module FusionSpec.

(** The first occurrence of every product identity, in order of
    appearance; [seen] holds the identities met so far. *)
Fixpoint first_occurrences (seen : list ObjectId) (l : list Recommendation)
  : list Recommendation :=
  match l with
  | [] => []
  | x :: rest =>
      if mem (rec_id x) seen then first_occurrences seen rest
      else x :: first_occurrences (seen ++ [rec_id x]) rest
  end.

(** Both lists concatenated, collaborative first, and deduplicated. *)
Definition deduplicated (collab content : list Recommendation) : list Recommendation :=
  first_occurrences [] (collab ++ content).

End FusionSpec.

(* ================================================================== *)
(** * Properties *)

(* ------------------------------------------------------------------ *)
(** ** Numbers *)

Lemma gtb_lt (a b : Js.number) : Js.gtb a b = true <-> (b < a)%Qc.
Proof.
  unfold Js.gtb. pose proof (Qcgt_alt a b) as H. simpl in H. rewrite H.
  destruct (a ?= b)%Qc; split; congruence.
Qed.

Lemma gtb_le (a b : Js.number) : Js.gtb a b = false <-> (a <= b)%Qc.
Proof.
  unfold Js.gtb. rewrite Qcle_alt.
  destruct (a ?= b)%Qc; split; congruence.
Qed.

Lemma eqb_eq (a b : Js.number) : Js.eqb a b = true <-> a = b.
Proof.
  unfold Js.eqb. rewrite Qceq_alt.
  destruct (a ?= b)%Qc; split; congruence.
Qed.

Lemma or_zero_id (x : Js.number) : Js.or_zero x = x.
Proof.
  unfold Js.or_zero. destruct (Js.eqb x (Js.num 0)) eqn:E; [|reflexivity].
  apply eqb_eq in E. congruence.
Qed.

Lemma gtb_sub_zero (a b : Js.number) : Js.gtb (b - a)%Qc (Js.num 0) = Js.gtb b a.
Proof.
  destruct (Js.gtb b a) eqn:E.
  - apply gtb_lt. apply gtb_lt in E.
    apply Qclt_minus_iff in E. exact E.
  - apply gtb_le. apply gtb_le in E.
    apply Qcle_minus_iff in E.
    apply Qcopp_le_compat in E.
    replace (- (a + - b))%Qc with (b - a)%Qc in E by ring.
    exact E.
Qed.

Lemma gtb_asym (a b : Js.number) : Js.gtb a b = true -> Js.gtb b a = false.
Proof.
  intros H. apply gtb_lt in H. apply gtb_le. apply Qclt_le_weak. exact H.
Qed.

(* ------------------------------------------------------------------ *)
(** ** Arrays: lists cut at the front *)

Lemma In_firstn {A} (n : nat) (l : list A) (x : A) : In x (firstn n l) -> In x l.
Proof.
  revert l; induction n as [|n IH]; intros [|y l]; simpl; try tauto.
  intros [E|H]; [left; exact E | right; apply IH; exact H].
Qed.

Lemma NoDup_firstn {A} (n : nat) (l : list A) : NoDup l -> NoDup (firstn n l).
Proof.
  revert l; induction n as [|n IH]; intros [|y l] H; simpl; try constructor.
  - inversion H; subst. intros Hin. apply In_firstn in Hin. contradiction.
  - inversion H; subst. apply IH. assumption.
Qed.

Lemma StronglySorted_firstn {A} (R : A -> A -> Prop) (n : nat) (l : list A) :
  StronglySorted R l -> StronglySorted R (firstn n l).
Proof.
  revert l; induction n as [|n IH]; intros [|y l] H; simpl; try constructor.
  - apply IH. inversion H; assumption.
  - inversion H; subst. apply Forall_forall. intros z Hz.
    apply In_firstn in Hz. eapply Forall_forall; eauto.
Qed.

Lemma slice0_firstn {A} (n : Z) (l : list A) :
  (0 <= n)%Z -> Js.slice0 n l = firstn (Z.to_nat n) l.
Proof.
  intros Hn. unfold Js.slice0.
  destruct (n <? 0)%Z eqn:E; [apply Z.ltb_lt in E; lia|].
  destruct (Z.le_gt_cases n (Z.of_nat (length l))) as [Hle|Hgt].
  - rewrite Z.min_l by exact Hle. reflexivity.
  - rewrite Z.min_r by lia. rewrite Nat2Z.id.
    rewrite firstn_all. symmetry. apply firstn_all2. lia.
Qed.

(* ------------------------------------------------------------------ *)
(** ** Arrays: the stable sort *)

Section StableSort.

Variable A : Type.
Variable behind : A -> A -> bool.

Lemma sort_insert_perm (x : A) (l : list A) :
  Permutation (Js.sort_insert behind x l) (x :: l).
Proof.
  induction l as [|y l IH]; simpl; [reflexivity|].
  destruct (behind x y); [|reflexivity].
  rewrite IH. apply perm_swap.
Qed.

Lemma NoDup_map_filter {D K} (key : D -> K) (keep : D -> bool) :
  forall docs, NoDup (map key docs) -> NoDup (map key (filter keep docs)).
Proof.
  intros docs. induction docs as [|d docs IH]; simpl; intros H; [constructor|].
  inversion H as [|? ? Hd Hrest]; subst.
  destruct (keep d); simpl; [|apply IH; exact Hrest].
  constructor; [|apply IH; exact Hrest].
  intros Hin. apply Hd. apply in_map_iff in Hin. destruct Hin as [y [Hy Hin]].
  apply filter_In in Hin. rewrite <- Hy. apply in_map. tauto.
Qed.

Lemma stable_sort_perm (l : list A) : Permutation (Js.stable_sort behind l) l.
Proof.
  induction l as [|x l IH]; simpl; [reflexivity|].
  unfold Js.stable_sort in IH. rewrite sort_insert_perm. constructor. exact IH.
Qed.

Lemma stable_sort_In (l : list A) (x : A) : In x (Js.stable_sort behind l) <-> In x l.
Proof.
  split; apply Permutation_in;
    [apply stable_sort_perm | symmetry; apply stable_sort_perm].
Qed.

Local Abbreviation front := (Js.front behind).

Hypothesis behind_asym : forall x y, behind x y = true -> behind y x = false.
Hypothesis front_trans : forall x y z, front x y -> front y z -> front x z.

Lemma sort_insert_sorted (x : A) (l : list A) :
  StronglySorted front l -> StronglySorted front (Js.sort_insert behind x l).
Proof.
  induction l as [|y l IH]; simpl; intros H.
  - repeat constructor.
  - apply StronglySorted_inv in H. destruct H as [Hl Hy].
    destruct (behind x y) eqn:E.
    + constructor; [apply IH; exact Hl|].
      apply Permutation_Forall with (x :: l);
        [symmetry; apply sort_insert_perm|].
      constructor; [apply behind_asym; exact E | exact Hy].
    + constructor; [constructor; assumption|].
      constructor; [exact E|].
      apply Forall_forall. intros z Hz.
      apply front_trans with y; [exact E|].
      eapply Forall_forall; eauto.
Qed.

Lemma stable_sort_sorted (l : list A) : StronglySorted front (Js.stable_sort behind l).
Proof.
  induction l as [|x l IH]; simpl; [constructor|].
  apply sort_insert_sorted. exact IH.
Qed.

End StableSort.

(** Two orders that agree on the elements of a list sort it alike. *)
Lemma sort_insert_ext {A} (b1 b2 : A -> A -> bool) (x : A) (l : list A) :
  (forall y, In y l -> b1 x y = b2 x y) ->
  Js.sort_insert b1 x l = Js.sort_insert b2 x l.
Proof.
  induction l as [|y l IH]; simpl; intros H; [reflexivity|].
  rewrite (H y) by (left; reflexivity).
  rewrite IH by (intros z Hz; apply H; right; exact Hz).
  reflexivity.
Qed.

Lemma stable_sort_ext {A} (b1 b2 : A -> A -> bool) (l : list A) :
  (forall x y, In x l -> In y l -> b1 x y = b2 x y) ->
  Js.stable_sort b1 l = Js.stable_sort b2 l.
Proof.
  induction l as [|x l IH]; intros H; [reflexivity|].
  change (Js.sort_insert b1 x (Js.stable_sort b1 l)
          = Js.sort_insert b2 x (Js.stable_sort b2 l)).
  rewrite IH by (intros; apply H; right; assumption).
  apply sort_insert_ext. intros y Hy. apply H; [left; reflexivity|].
  right. exact (proj1 (stable_sort_In b2 l y) Hy).
Qed.

Lemma StronglySorted_weaken {A} (R S : A -> A -> Prop) (l : list A) :
  (forall x y, R x y -> S x y) -> StronglySorted R l -> StronglySorted S l.
Proof.
  intros HRS. induction 1 as [|x l Hl IH Hx]; constructor; [exact IH|].
  eapply Forall_impl; [|exact Hx]. intros y; apply HRS.
Qed.

(* ------------------------------------------------------------------ *)
(** ** Ranking by recommendation score *)

Lemma by_score_desc_defined (a b : Recommendation) :
  recommendationScore a <> None -> recommendationScore b <> None ->
  Js.positive_result (by_score_desc a b) = Js.gtb (score_of b) (score_of a).
Proof.
  unfold by_score_desc, score_of.
  destruct (recommendationScore a) as [sa|]; [|congruence].
  destruct (recommendationScore b) as [sb|]; [|congruence].
  intros _ _. simpl. apply gtb_sub_zero.
Qed.

Lemma sort_by_score_perm (l : list Recommendation) :
  Permutation (Js.sort by_score_desc l) l.
Proof. apply stable_sort_perm. Qed.

Lemma sort_by_score_sorted (l : list Recommendation) :
  (forall x, In x l -> recommendationScore x <> None) ->
  StronglySorted score_desc (Js.sort by_score_desc l).
Proof.
  intros Hdef. unfold Js.sort.
  rewrite (stable_sort_ext _ (fun a b => Js.gtb (score_of b) (score_of a)))
    by (intros x y Hx Hy; apply by_score_desc_defined; auto).
  eapply StronglySorted_weaken; [|apply stable_sort_sorted].
  - intros x y H. apply gtb_le in H. exact H.
  - intros x y H. apply gtb_asym. exact H.
  - intros x y z Hxy Hyz. apply gtb_le. apply gtb_le in Hxy, Hyz.
    eapply Qcle_trans; eauto.
Qed.

(* ------------------------------------------------------------------ *)
(** ** combineRecommendations: the reducer keeps first occurrences *)

Lemma find_app {A} (f : A -> bool) (l1 l2 : list A) :
  find f (l1 ++ l2) = match find f l1 with Some x => Some x | None => find f l2 end.
Proof.
  induction l1 as [|x l1 IH]; simpl; [reflexivity|].
  destruct (f x); [reflexivity | exact IH].
Qed.

Lemma find_none_not_in (i : ObjectId) (l : list Recommendation) :
  find (same_id i) l = None -> ~ In i (map rec_id l).
Proof.
  intros H Hin. apply in_map_iff in Hin. destruct Hin as [x [Hx Hin]].
  apply (find_none _ _ H) in Hin. unfold same_id in Hin.
  rewrite Hx, N.eqb_refl in Hin. discriminate.
Qed.

Lemma find_unique (l : list Recommendation) (x : Recommendation) :
  NoDup (map rec_id l) -> In x l -> find (same_id (rec_id x)) l = Some x.
Proof.
  induction l as [|y l IH]; simpl; intros Hnd Hin; [contradiction|].
  inversion Hnd as [|? ? Hy Hl]; subst.
  unfold same_id at 1. destruct (N.eqb (rec_id y) (rec_id x)) eqn:E.
  - destruct Hin as [->|Hin]; [reflexivity|].
    apply N.eqb_eq in E. exfalso. apply Hy. rewrite E.
    apply in_map. exact Hin.
  - destruct Hin as [->|Hin]; [rewrite N.eqb_refl in E; discriminate|].
    apply IH; assumption.
Qed.

Lemma push_unique_find (acc : list Recommendation) (p : Recommendation) (i : ObjectId) :
  find (same_id i) (push_unique acc p) = find (same_id i) (acc ++ [p]).
Proof.
  unfold push_unique.
  change (fun q => N.eqb (rec_id q) (rec_id p)) with (same_id (rec_id p)).
  destruct (find (same_id (rec_id p)) acc) as [q|] eqn:E; [|reflexivity].
  rewrite find_app. destruct (find (same_id i) acc) eqn:F; [reflexivity|].
  simpl. unfold same_id at 1. destruct (N.eqb (rec_id p) i) eqn:G; [|reflexivity].
  apply N.eqb_eq in G. subst i. congruence.
Qed.

Lemma push_unique_NoDup (acc : list Recommendation) (p : Recommendation) :
  NoDup (map rec_id acc) -> NoDup (map rec_id (push_unique acc p)).
Proof.
  intros H. unfold push_unique.
  change (fun q => N.eqb (rec_id q) (rec_id p)) with (same_id (rec_id p)).
  destruct (find (same_id (rec_id p)) acc) eqn:E; [exact H|].
  rewrite map_app. simpl.
  apply (Permutation_NoDup (l := rec_id p :: map rec_id acc)).
  - apply Permutation_cons_append.
  - constructor; [apply find_none_not_in; exact E | exact H].
Qed.

Lemma push_unique_In (acc : list Recommendation) (p x : Recommendation) :
  In x (push_unique acc p) -> In x acc \/ x = p.
Proof.
  unfold push_unique. destruct (find _ acc); [tauto|].
  intros H. apply in_app_or in H. simpl in H. intuition.
Qed.

Lemma reduce_find (l acc : list Recommendation) (i : ObjectId) :
  find (same_id i) (fold_left push_unique l acc) = find (same_id i) (acc ++ l).
Proof.
  revert acc; induction l as [|p l IH]; intros acc; simpl.
  - rewrite app_nil_r. reflexivity.
  - rewrite IH. rewrite find_app, push_unique_find, <- find_app.
    rewrite <- app_assoc. reflexivity.
Qed.

Lemma reduce_NoDup (l acc : list Recommendation) :
  NoDup (map rec_id acc) -> NoDup (map rec_id (fold_left push_unique l acc)).
Proof.
  revert acc; induction l as [|p l IH]; intros acc H; simpl; [exact H|].
  apply IH. apply push_unique_NoDup. exact H.
Qed.

Lemma reduce_In (l acc : list Recommendation) (x : Recommendation) :
  In x (fold_left push_unique l acc) -> In x acc \/ In x l.
Proof.
  revert acc; induction l as [|p l IH]; intros acc H; simpl in *; [tauto|].
  apply IH in H. destruct H as [H|H]; [|tauto].
  apply push_unique_In in H. intuition.
Qed.

(** Sorting a list that is in order already moves nothing. *)
Lemma stable_sort_fixed {A} (behind : A -> A -> bool) (l : list A) :
  StronglySorted (Js.front behind) l -> Js.stable_sort behind l = l.
Proof.
  induction 1 as [|x l Hl IH Hx]; [reflexivity|].
  change (Js.sort_insert behind x (Js.stable_sort behind l) = x :: l).
  rewrite IH. destruct l as [|y l]; [reflexivity|]. simpl.
  inversion Hx as [|? ? Hy _]; subst. unfold Js.front in Hy. rewrite Hy. reflexivity.
Qed.

(** The reducer keeps a list that names every product once. *)
Lemma reduce_fixed (l acc : list Recommendation) :
  NoDup (map rec_id (acc ++ l)) -> fold_left push_unique l acc = acc ++ l.
Proof.
  revert acc; induction l as [|p l IH]; intros acc H; simpl.
  - rewrite app_nil_r. reflexivity.
  - assert (E : push_unique acc p = acc ++ [p]).
    { unfold push_unique.
      destruct (find (fun q => N.eqb (rec_id q) (rec_id p)) acc) as [q|] eqn:F;
        [|reflexivity].
      apply find_some in F. destruct F as [Hq Eq]. apply N.eqb_eq in Eq.
      rewrite map_app in H. simpl in H. apply NoDup_remove_2 in H.
      exfalso. apply H. apply in_or_app. left. rewrite <- Eq. apply in_map. exact Hq. }
    rewrite E, IH; rewrite <- app_assoc; [reflexivity | exact H].
Qed.

Lemma StronglySorted_pairwise {A} (R S : A -> A -> Prop) (l : list A) :
  (forall x y, In x l -> In y l -> R x y -> S x y) ->
  StronglySorted R l -> StronglySorted S l.
Proof.
  intros HRS H. induction H as [|x l Hl IH Hx]; constructor.
  - apply IH. intros a b Ha Hb. apply HRS; right; assumption.
  - apply Forall_forall. intros y Hy. apply HRS; [left; reflexivity | right; exact Hy|].
    eapply Forall_forall; eauto.
Qed.

Lemma combine_fixed (Prefs : Type) (l : list Recommendation) (prefs : Prefs) (N : Z) :
  NoDup (map rec_id l) ->
  StronglySorted fused_order l ->
  (Z.of_nat (length l) <= N)%Z ->
  combineRecommendations [] l prefs N = l.
Proof.
  intros Hnd Hs Hlen. unfold combineRecommendations. simpl.
  rewrite (reduce_fixed l []) by exact Hnd. simpl.
  unfold Js.sort. rewrite stable_sort_fixed by exact Hs.
  rewrite slice0_firstn by lia. apply firstn_all2. lia.
Qed.

(** With nothing from the Collaborative Scorer, a list that names every
    product once and is in the order the fusion sorts by is only cut. *)
Lemma combine_alone (Prefs : Type) (l : list Recommendation) (prefs : Prefs) (N : Z) :
  NoDup (map rec_id l) ->
  StronglySorted fused_order l ->
  combineRecommendations [] l prefs N = Js.slice0 N l.
Proof.
  intros Hnd Hs. unfold combineRecommendations. simpl.
  rewrite (reduce_fixed l []) by exact Hnd. simpl.
  unfold Js.sort. rewrite stable_sort_fixed by exact Hs. reflexivity.
Qed.


Lemma find_same_id_mem (acc : list Recommendation) (i : ObjectId) :
  mem i (map rec_id acc) = match find (same_id i) acc with Some _ => true | None => false end.
Proof.
  unfold mem. induction acc as [|y acc IH]; simpl; [reflexivity|].
  unfold same_id at 1. rewrite (N.eqb_sym i (rec_id y)).
  destruct (N.eqb (rec_id y) i); simpl; [reflexivity | exact IH].
Qed.

(** The reducer of the code keeps the first occurrences. *)
Lemma reduce_first_occurrences (l acc : list Recommendation) :
  fold_left push_unique l acc
  = acc ++ FusionSpec.first_occurrences (map rec_id acc) l.
Proof.
  revert acc; induction l as [|x l IH]; intros acc; simpl.
  - rewrite app_nil_r. reflexivity.
  - rewrite IH. unfold push_unique.
    change (fun p => N.eqb (rec_id p) (rec_id x)) with (same_id (rec_id x)).
    rewrite find_same_id_mem.
    destruct (find (same_id (rec_id x)) acc); [reflexivity|].
    rewrite map_app, <- app_assoc. reflexivity.
Qed.

(** A list none of whose items carries a score is left in its order. *)
Lemma sort_unscored (l : list Recommendation) :
  (forall x, In x l -> recommendationScore x = None) ->
  Js.sort by_score_desc l = l.
Proof.
  intros H. unfold Js.sort. apply stable_sort_fixed.
  apply StronglySorted_pairwise with (R := fun _ _ => True).
  - intros x y Hx _ _. unfold Js.front, by_score_desc. rewrite (H x Hx).
    destruct (recommendationScore y); reflexivity.
  - clear H. induction l; constructor; [assumption|]. apply Forall_forall. tauto.
Qed.

(** C3. For every pair of input lists and every limit [N >= 0], the
    output of the Fusion & Ranker is the first [N] items of a ranking of
    the deduplicated list: both inputs concatenated, collaborative first,
    with the first occurrence of every product identity kept.  So the
    output has [min N d] items for [d] distinct identities, holds every
    identity at most once and only items of the inputs, and for a
    product of the collaborative list it holds the collaborative item
    with its score.  When every input item carries a score, the ranking
    is by score, highest first; when none does, it is the order of the
    deduplicated list. *)
Theorem combineRecommendations_fuses (Prefs : Type)
  (collab content : list Recommendation) (prefs : Prefs) (N : Z) :
  (0 <= N)%Z ->
  exists ranked,
    combineRecommendations collab content prefs N = firstn (Z.to_nat N) ranked
    /\ Permutation ranked (FusionSpec.deduplicated collab content)
    /\ length (combineRecommendations collab content prefs N)
       = Nat.min (Z.to_nat N) (length (FusionSpec.deduplicated collab content))
    /\ NoDup (map rec_id ranked)
    /\ (forall x, In x ranked -> In x collab \/ In x content)
    /\ (forall i, In i (map rec_id (collab ++ content)) -> In i (map rec_id ranked))
    /\ (forall x, In x ranked -> find (same_id (rec_id x)) (collab ++ content) = Some x)
    /\ (forall x c, In x ranked -> In c collab -> rec_id c = rec_id x ->
          find (same_id (rec_id x)) collab = Some x /\ In x collab)
    /\ ((forall x, In x (collab ++ content) -> recommendationScore x <> None) ->
          StronglySorted score_desc ranked)
    /\ ((forall x, In x (collab ++ content) -> recommendationScore x = None) ->
          ranked = FusionSpec.deduplicated collab content).
Proof.
  intros HN.
  set (D := fold_left push_unique (collab ++ content) []).
  assert (HD : D = FusionSpec.deduplicated collab content)
    by (unfold D; rewrite reduce_first_occurrences; reflexivity).
  exists (Js.sort by_score_desc D).
  assert (Hperm : Permutation (Js.sort by_score_desc D) D) by apply sort_by_score_perm.
  assert (Hin : forall x, In x (Js.sort by_score_desc D) -> In x (collab ++ content)).
  { intros x Hx. apply (Permutation_in _ Hperm) in Hx.
    apply reduce_In in Hx. destruct Hx as [[]|Hx]. exact Hx. }
  assert (Hnd : NoDup (map rec_id D)) by (apply reduce_NoDup; constructor).
  assert (Hfirst : forall x, In x (Js.sort by_score_desc D) ->
            find (same_id (rec_id x)) (collab ++ content) = Some x).
  { intros x Hx. apply (Permutation_in _ Hperm) in Hx.
    pose proof (reduce_find (collab ++ content) [] (rec_id x)) as R.
    simpl in R. rewrite <- R. apply find_unique; assumption. }
  assert (Hcut : combineRecommendations collab content prefs N
                 = firstn (Z.to_nat N) (Js.sort by_score_desc D)).
  { unfold combineRecommendations. apply slice0_firstn. exact HN. }
  split; [exact Hcut|]. split; [rewrite <- HD; exact Hperm|].
  split; [rewrite Hcut, length_firstn, <- HD, (Permutation_length Hperm); reflexivity|].
  split; [apply (Permutation_NoDup (l := map rec_id D));
          [apply Permutation_map; symmetry; exact Hperm | exact Hnd]|].
  split; [intros x Hx; apply in_app_or; apply Hin; exact Hx|].
  split.
  { intros i Hi. apply in_map_iff in Hi. destruct Hi as [y [Ey Hy]].
    pose proof (reduce_find (collab ++ content) [] i) as R. simpl in R.
    destruct (find (same_id i) (collab ++ content)) as [z|] eqn:F.
    - fold D in R. apply find_some in R. destruct R as [Hz Ez].
      unfold same_id in Ez. apply N.eqb_eq in Ez. rewrite <- Ez.
      apply in_map. apply (Permutation_in _ (Permutation_sym Hperm)). exact Hz.
    - exfalso. apply (find_none _ _ F) in Hy. unfold same_id in Hy.
      rewrite Ey, N.eqb_refl in Hy. discriminate. }
  split; [exact Hfirst|]. split.
  { intros x c Hx Hc Hid. specialize (Hfirst x Hx). rewrite find_app in Hfirst.
    destruct (find (same_id (rec_id x)) collab) as [y|] eqn:E.
    - inversion Hfirst; subst y. split; [reflexivity|].
      apply find_some in E. tauto.
    - exfalso. apply (find_none _ _ E) in Hc. unfold same_id in Hc.
      rewrite Hid, N.eqb_refl in Hc. discriminate. }
  split.
  - intros Hdef. apply sort_by_score_sorted. intros x Hx. apply Hdef.
    apply reduce_In in Hx. destruct Hx as [[]|Hx]. exact Hx.
  - intros Hnone. rewrite <- HD. apply sort_unscored. intros x Hx. apply Hnone.
    apply reduce_In in Hx. destruct Hx as [[]|Hx]. exact Hx.
Qed.

Lemma combineRecommendations_fuses_witness :
  exists ranked,
    combineRecommendations Sample.collab_picks Sample.content_picks tt 5
    = firstn (Z.to_nat 5) ranked
    /\ Permutation ranked (FusionSpec.deduplicated Sample.collab_picks Sample.content_picks)
    /\ length (combineRecommendations Sample.collab_picks Sample.content_picks tt 5)
       = Nat.min (Z.to_nat 5)
           (length (FusionSpec.deduplicated Sample.collab_picks Sample.content_picks))
    /\ NoDup (map rec_id ranked)
    /\ (forall x, In x ranked -> In x Sample.collab_picks \/ In x Sample.content_picks)
    /\ (forall i, In i (map rec_id (Sample.collab_picks ++ Sample.content_picks)) ->
                  In i (map rec_id ranked))
    /\ (forall x, In x ranked ->
          find (same_id (rec_id x)) (Sample.collab_picks ++ Sample.content_picks) = Some x)
    /\ (forall x c, In x ranked -> In c Sample.collab_picks -> rec_id c = rec_id x ->
          find (same_id (rec_id x)) Sample.collab_picks = Some x /\ In x Sample.collab_picks)
    /\ ((forall x, In x (Sample.collab_picks ++ Sample.content_picks) ->
                   recommendationScore x <> None) ->
          StronglySorted score_desc ranked)
    /\ ((forall x, In x (Sample.collab_picks ++ Sample.content_picks) ->
                   recommendationScore x = None) ->
          ranked = FusionSpec.deduplicated Sample.collab_picks Sample.content_picks).
Proof.
  apply (@combineRecommendations_fuses unit Sample.collab_picks Sample.content_picks tt 5%Z).
  lia.
Defined.

(** The fused list of the example: the novel is kept once, with the
    collaborative score [1], and ranks below the laptop. *)
Example combine_example :
  map (fun r => (rec_id r, recommendationType r))
      (combineRecommendations Sample.collab_picks Sample.content_picks tt 5)
  = [(1%N, Some content_based); (2%N, Some collaborative)].
Proof. vm_compute. reflexivity. Qed.

(** C3 as stated fails for a negative limit, which [?limit=-1] passes
    down unchecked: [slice(0, -1)] drops the last item instead of
    bounding the length, so two products give one item, more than [-1]. *)
Lemma fusion_exceeds_negative_limit :
  length (combineRecommendations [Sample.pick Sample.novel 1 collaborative]
            [Sample.pick Sample.laptop 23 content_based] tt (-1)) = 1%nat
  /\ ~ (Z.of_nat (length (combineRecommendations
                            [Sample.pick Sample.novel 1 collaborative]
                            [Sample.pick Sample.laptop 23 content_based] tt (-1)))
        <= -1)%Z.
Proof. split; [vm_compute; reflexivity | vm_compute; intros H; apply H; reflexivity]. Qed.

(* ------------------------------------------------------------------ *)
(** ** Awaited reads *)

Lemma await_read_ok {A} (s : Store) (answer : outcome A) (t : nat) :
  rejects s t = false -> await_read s answer t = (answer, S t).
Proof. intros H. unfold await_read. rewrite H. reflexivity. Qed.

Lemma await_read_rejected {A} (s : Store) (answer : outcome A) (t : nat) :
  rejects s t = true -> await_read s answer t = (Thrown StoreError, S t).
Proof. intros H. unfold await_read. rewrite H. reflexivity. Qed.

(* ------------------------------------------------------------------ *)
(** ** Content Scorer: the score, term by term *)

Lemma str_mem_In (x : string) (l : list string) : str_mem x l = true <-> In x l.
Proof.
  unfold str_mem. rewrite existsb_exists. split.
  - intros [y [Hy E]]. apply String.eqb_eq in E. subst. exact Hy.
  - intros H. exists x. split; [exact H | apply String.eqb_refl].
Qed.

Lemma indexOf_rank (x : string) (l : list string) :
  Js.indexOf x l = match ContentSpec.rank x l with
                   | Some r => Z.of_nat r
                   | None => (-1)%Z
                   end.
Proof.
  induction l as [|y l IH]; simpl; [reflexivity|].
  destruct (string_dec y x) as [->|Hne].
  - rewrite String.eqb_refl. reflexivity.
  - apply String.eqb_neq in Hne. rewrite Hne. rewrite IH.
    destruct (ContentSpec.rank x l) as [r|]; simpl; [|reflexivity].
    destruct (Z.of_nat r =? -1)%Z eqn:E; [apply Z.eqb_eq in E; lia|].
    lia.
Qed.

Lemma Math_max_maxQ (a b : Js.number) : Js.Math_max a b = ContentSpec.maxQ a b.
Proof.
  unfold Js.Math_max, ContentSpec.maxQ.
  destruct (Qclt_le_dec a b) as [H|H].
  - apply gtb_lt in H. rewrite H. reflexivity.
  - apply gtb_le in H. rewrite H. reflexivity.
Qed.

Lemma Math_min_minQ (a b : Js.number) : Js.Math_min a b = ContentSpec.minQ a b.
Proof.
  unfold Js.Math_min, ContentSpec.minQ.
  destruct (Qclt_le_dec b a) as [H|H].
  - apply gtb_lt in H. rewrite H. reflexivity.
  - apply gtb_le in H. rewrite H. reflexivity.
Qed.

Lemma top3_slice (l : list string) : Js.slice0 3 l = ContentSpec.top3 l.
Proof. apply slice0_firstn. lia. Qed.

Lemma score_product_spec (prefs : Preferences) (p : Product) :
  score_product (Js.slice0 3 (categories prefs)) (Js.slice0 3 (brands prefs))
    (priceRange prefs) p
  = ContentSpec.scored prefs p.
Proof.
  unfold score_product, ContentSpec.scored. f_equal. f_equal.
  unfold ContentSpec.score, ContentSpec.categoryBonus, ContentSpec.brandBonus,
    ContentSpec.priceBonus, ContentSpec.qualityBonus.
  rewrite !top3_slice, !indexOf_rank, or_zero_id, Math_min_minQ, Math_max_maxQ.
  unfold Js.Math_abs.
  assert (Hc : forall (r : option nat) (k acc : Js.number),
             (if negb (match r with Some n => Z.of_nat n | None => (-1)%Z end =? -1)%Z
              then (acc + (Js.num 3 - Js.num (match r with
                                               | Some n => Z.of_nat n
                                               | None => (-1)%Z
                                               end)) * k)%Qc
              else acc)
             = (acc + match r with
                      | Some n => (Js.num 3 - Js.num (Z.of_nat n)) * k
                      | None => Js.num 0
                      end)%Qc).
  { intros [n|] k acc; simpl.
    - destruct (Z.of_nat n =? -1)%Z eqn:E; [apply Z.eqb_eq in E; lia|]. reflexivity.
    - change (Js.num 0) with 0%Qc. ring. }
  rewrite !Hc.
  set (cb := match ContentSpec.rank (category p) _ with Some n => _ | None => _ end).
  set (bb := match ContentSpec.rank (brand p) _ with Some n => _ | None => _ end).
  destruct (Qclt_le_dec (Js.num 0) (PriceRange.avg (priceRange prefs))) as [H|H].
  - apply gtb_lt in H. rewrite H. change (Js.num 0) with 0%Qc. ring.
  - apply gtb_le in H. rewrite H. change (Js.num 0) with 0%Qc. ring.
Qed.

Lemma candidateb_candidate (prefs : Preferences) (p : Product) :
  ContentSpec.candidateb prefs p = true <-> ContentSpec.candidate prefs p.
Proof.
  unfold ContentSpec.candidateb, ContentSpec.candidate.
  destruct (status p); try (split; [discriminate | intros [H _]; discriminate]).
  destruct (in_dec string_dec (category p) _) as [Hc|Hc]; [tauto|].
  destruct (in_dec string_dec (brand p) _) as [Hb|Hb]; [tauto|].
  split; [discriminate | tauto].
Qed.

(* ------------------------------------------------------------------ *)
(** ** Ranking by rating, then sales *)

Lemma behind_rating_sales_asym (x y : Product) :
  Mongo.behind_rating_sales x y = true -> Mongo.behind_rating_sales y x = false.
Proof.
  unfold Mongo.behind_rating_sales. intros H.
  apply orb_true_iff in H. destruct H as [H|H].
  - assert (Hlt := proj1 (gtb_lt _ _) H).
    rewrite (gtb_asym _ _ H). simpl.
    destruct (Js.eqb (averageRating x) (averageRating y)) eqn:E; [|reflexivity].
    apply eqb_eq in E. rewrite E in Hlt.
    exfalso. exact (Qclt_not_eq _ _ Hlt eq_refl).
  - apply andb_true_iff in H. destruct H as [E G].
    apply eqb_eq in E. rewrite E.
    assert (Hrefl : Js.gtb (averageRating x) (averageRating x) = false)
      by (apply gtb_le; apply Qcle_refl).
    rewrite Hrefl. simpl. rewrite (gtb_asym _ _ G). apply andb_false_r.
Qed.

Lemma front_popular_first (x y : Product) :
  Js.front Mongo.behind_rating_sales x y <-> ContentSpec.popular_first x y.
Proof.
  unfold Js.front, Mongo.behind_rating_sales, ContentSpec.popular_first.
  rewrite orb_false_iff, andb_false_iff, !gtb_le. split.
  - intros [Hle Hor]. apply Qcle_lt_or_eq in Hle. destruct Hle as [Hlt|Heq]; [left; exact Hlt|].
    right. split; [exact Heq|]. destruct Hor as [Hne|Hs]; [|exact Hs].
    destruct (Js.eqb (averageRating y) (averageRating x)) eqn:E; [discriminate|].
    exfalso. assert (E' : Js.eqb (averageRating y) (averageRating x) = true)
      by (apply eqb_eq; exact Heq). congruence.
  - intros [Hlt|[Heq Hs]].
    + split; [apply Qclt_le_weak; exact Hlt|]. left.
      destruct (Js.eqb (averageRating y) (averageRating x)) eqn:E; [|reflexivity].
      apply eqb_eq in E. exfalso. exact (Qclt_not_eq _ _ Hlt E).
    + split; [rewrite Heq; apply Qcle_refl | right; exact Hs].
Qed.

Lemma popular_first_trans (x y z : Product) :
  ContentSpec.popular_first x y -> ContentSpec.popular_first y z ->
  ContentSpec.popular_first x z.
Proof.
  unfold ContentSpec.popular_first.
  intros [Hxy|[Exy Sxy]] [Hyz|[Eyz Syz]].
  - left. eapply Qclt_trans; eauto.
  - left. rewrite Eyz. exact Hxy.
  - left. rewrite <- Exy. exact Hyz.
  - right. split; [congruence | eapply Qcle_trans; eauto].
Qed.

Lemma sort_rating_sales_sorted (docs : list Product) :
  StronglySorted ContentSpec.popular_first (Mongo.sort_rating_sales docs).
Proof.
  unfold Mongo.sort_rating_sales.
  eapply StronglySorted_weaken; [|apply stable_sort_sorted].
  - intros x y. apply front_popular_first.
  - apply behind_rating_sales_asym.
  - intros x y z Hxy Hyz. apply front_popular_first.
    apply front_popular_first in Hxy, Hyz. eapply popular_first_trans; eauto.
Qed.

Lemma sort_rating_sales_perm (docs : list Product) :
  Permutation (Mongo.sort_rating_sales docs) docs.
Proof. apply stable_sort_perm. Qed.

Lemma mongo_limit_positive {A} (n : Z) (docs : list A) :
  (0 < n)%Z -> Mongo.limit n docs = firstn (Z.to_nat n) docs.
Proof.
  intros Hn. unfold Mongo.limit.
  destruct (n =? 0)%Z eqn:E; [apply Z.eqb_eq in E; lia|].
  rewrite Zabs2Nat.abs_nat_nonneg by lia. reflexivity.
Qed.

Lemma firstn_nonempty {A} (n : nat) (l : list A) :
  (0 < n)%nat -> l <> [] -> firstn n l <> [].
Proof.
  destruct n; [lia|]. destruct l; [congruence|]. simpl. discriminate.
Qed.

(* ------------------------------------------------------------------ *)
(** ** Content Scorer: the cold-start path *)

(** C6. Without a category signal the Content Scorer returns the active
    products, highest rating first and most sales first among equal
    ratings, cut to [N]; this list is not empty when the catalogue holds
    an active product. *)
Theorem cold_start_fallback (s : Store) (prefs : Preferences) (N : Z) (t : nat) :
  rejects s t = false ->
  categories prefs = [] ->
  (0 < N)%Z ->
  exists ranked,
    fst (getContentBasedRecommendations s prefs N t)
      = Returned (map bare (firstn (Z.to_nat N) ranked))
    /\ Permutation ranked (filter (fun p => is_active (status p)) (products s))
    /\ (forall p, In p ranked <-> In p (products s) /\ status p = active)
    /\ StronglySorted ContentSpec.popular_first ranked
    /\ ((exists p, In p (products s) /\ status p = active) ->
        map bare (firstn (Z.to_nat N) ranked) <> []).
Proof.
  intros Hread Hcat HN.
  set (actives := filter (fun p => is_active (status p)) (products s)).
  exists (Mongo.sort_rating_sales actives).
  assert (Hin : forall p, In p (Mongo.sort_rating_sales actives)
                          <-> In p (products s) /\ status p = active).
  { intros p. unfold Mongo.sort_rating_sales. rewrite stable_sort_In.
    unfold actives. rewrite filter_In.
    destruct (status p); simpl; intuition congruence. }
  split; [|split; [|split; [|split]]].
  - unfold getContentBasedRecommendations, try_catch, content_try.
    rewrite Hcat. simpl. unfold bind. rewrite await_read_ok by exact Hread.
    unfold ret. simpl. rewrite mongo_limit_positive by exact HN. reflexivity.
  - apply sort_rating_sales_perm.
  - exact Hin.
  - apply sort_rating_sales_sorted.
  - intros [p Hp]. apply Hin in Hp. intros Hnil.
    apply map_eq_nil in Hnil. revert Hnil. apply firstn_nonempty; [lia|].
    intros E. rewrite E in Hp. exact Hp.
Qed.

Lemma cold_start_fallback_witness :
  exists ranked,
    fst (getContentBasedRecommendations Sample.shop Sample.cold_prefs 2 0)
      = Returned (map bare (firstn (Z.to_nat 2) ranked))
    /\ Permutation ranked (filter (fun p => is_active (status p)) (products Sample.shop))
    /\ (forall p, In p ranked <-> In p (products Sample.shop) /\ status p = active)
    /\ StronglySorted ContentSpec.popular_first ranked
    /\ ((exists p, In p (products Sample.shop) /\ status p = active) ->
        map bare (firstn (Z.to_nat 2) ranked) <> []).
Proof.
  apply cold_start_fallback; [reflexivity | reflexivity | lia].
Defined.

Example cold_start_example :
  map rec_id
      (match fst (getContentBasedRecommendations Sample.shop Sample.cold_prefs 3 0) with
       | Returned l => l
       | Thrown _ => []
       end)
  = [2%N; 1%N; 5%N].
Proof. vm_compute. reflexivity. Qed.

(* ------------------------------------------------------------------ *)
(** ** Seasonal Scorer *)

Lemma str_mem_in_dec (x : string) (l : list string) :
  str_mem x l = if in_dec string_dec x l then true else false.
Proof.
  destruct (in_dec string_dec x l) as [H|H].
  - apply str_mem_In. exact H.
  - destruct (str_mem x l) eqn:E; [apply str_mem_In in E; contradiction | reflexivity].
Qed.

Lemma existsb_pointwise {A} (f g : A -> bool) (l : list A) :
  (forall x, f x = g x) -> existsb f l = existsb g l.
Proof.
  intros H. induction l as [|x l IH]; simpl; [reflexivity|].
  rewrite H, IH. reflexivity.
Qed.

Lemma is_seasonal_in_july (p : Product) : is_seasonal 7 p = SeasonSpec.july_matchb p.
Proof.
  unfold is_seasonal, SeasonSpec.july_matchb.
  change (seasonalTags 7) with SeasonSpec.july_tags.
  change (getSeasonalCategories 7) with SeasonSpec.july_categories.
  destruct (status p); try reflexivity.
  cbn [is_active andb]. f_equal.
  - apply existsb_pointwise. intros tag. apply str_mem_in_dec.
  - apply str_mem_in_dec.
Qed.

Lemma july_matchb_match (p : Product) :
  SeasonSpec.july_matchb p = true <-> SeasonSpec.july_match p.
Proof.
  unfold SeasonSpec.july_matchb, SeasonSpec.july_match.
  destruct (status p); try (split; [discriminate | intros [H _]; discriminate]).
  rewrite orb_true_iff, existsb_exists. split.
  - intros [[tag [Ht Hd]]|Hc]; (split; [reflexivity|]).
    + left. exists tag. split; [exact Ht|].
      destruct (in_dec string_dec tag SeasonSpec.july_tags); [assumption | discriminate].
    + right. destruct (in_dec string_dec (category p) SeasonSpec.july_categories);
        [assumption | discriminate].
  - intros [_ [[tag [Ht Hj]]|Hc]].
    + left. exists tag. split; [exact Ht|].
      destruct (in_dec string_dec tag SeasonSpec.july_tags); [reflexivity | contradiction].
    + right. destruct (in_dec string_dec (category p) SeasonSpec.july_categories);
        [reflexivity | contradiction].
Qed.

(** C8. In July (month 7) the Seasonal Scorer returns only active
    products that carry one of the tags summer, outdoor, sports,
    vacation, swimwear or belong to one of the categories Sports &
    Outdoors, Clothing & Fashion, Electronics; they are ranked by
    rating, then sales, highest first, and at most [N] are returned. *)
Theorem seasonal_july (s : Store) (N : Z) (t : nat) :
  rejects s t = false ->
  (0 < N)%Z ->
  exists ranked,
    fst (getSeasonalRecommendations s 7 N t) = Returned (firstn (Z.to_nat N) ranked)
    /\ Permutation ranked (filter SeasonSpec.july_matchb (products s))
    /\ (forall p, In p ranked <-> In p (products s) /\ SeasonSpec.july_match p)
    /\ StronglySorted ContentSpec.popular_first ranked
    /\ (Z.of_nat (length (firstn (Z.to_nat N) ranked)) <= N)%Z.
Proof.
  intros Hread HN.
  exists (Mongo.sort_rating_sales (filter SeasonSpec.july_matchb (products s))).
  split; [|split; [|split; [|split]]].
  - unfold getSeasonalRecommendations. rewrite await_read_ok by exact Hread.
    simpl. rewrite mongo_limit_positive by exact HN.
    rewrite (filter_ext _ _ is_seasonal_in_july). reflexivity.
  - apply sort_rating_sales_perm.
  - intros p. unfold Mongo.sort_rating_sales. rewrite stable_sort_In, filter_In.
    rewrite july_matchb_match. reflexivity.
  - apply sort_rating_sales_sorted.
  - rewrite length_firstn. lia.
Qed.

Lemma seasonal_july_witness :
  exists ranked,
    fst (getSeasonalRecommendations Sample.shop 7 2 0) = Returned (firstn (Z.to_nat 2) ranked)
    /\ Permutation ranked (filter SeasonSpec.july_matchb (products Sample.shop))
    /\ (forall p, In p ranked <-> In p (products Sample.shop) /\ SeasonSpec.july_match p)
    /\ StronglySorted ContentSpec.popular_first ranked
    /\ (Z.of_nat (length (firstn (Z.to_nat 2) ranked)) <= 2)%Z.
Proof.
  apply seasonal_july; [reflexivity | lia].
Defined.

(** In the example shop the July list holds the laptop and the phone
    (Electronics) and the tent (tag "outdoor"), not the novel and not the
    inactive robot. *)
Example seasonal_example :
  match fst (getSeasonalRecommendations Sample.shop 7 10 0) with
  | Returned l => map _id l
  | Thrown _ => []
  end = [1%N; 5%N; 3%N].
Proof. vm_compute. reflexivity. Qed.

(* ------------------------------------------------------------------ *)
(** ** Preference Extractor: the maximum price of an empty history *)

(** C5, the code at a user without paid orders: [priceRange.max] is
    [Math.max()] of no argument, that is [-Infinity]; no branch of
    [getUserPreferences] replaces it, unlike [priceRange.avg], which is
    guarded by [itemCount > 0]. *)
Theorem max_price_without_orders (userId : ObjectId) (u : User Product) :
  PriceRange.max (priceRange (getUserPreferences userId [] u)) = Js.NegInfinity
  /\ PriceRange.avg (priceRange (getUserPreferences userId [] u)) = Js.num 0.
Proof.
  split; [reflexivity|].
  unfold getUserPreferences, tally_all. simpl fold_left.
  assert (Hcount : forall acc, Tally.itemCount
            (match cart u with
             | Some c => fold_left tally_cart_item c
                 (match wishlist u with
                  | Some w => fold_left (tally_signal Js.lit_0_5) w acc
                  | None => acc
                  end)
             | None => match wishlist u with
                       | Some w => fold_left (tally_signal Js.lit_0_5) w acc
                       | None => acc
                       end
             end) = Tally.itemCount acc).
  { intros acc.
    assert (Hw : forall w a, Tally.itemCount (fold_left (tally_signal Js.lit_0_5) w a)
                             = Tally.itemCount a).
    { induction w as [|p w IH]; intros a; simpl; [reflexivity|]. rewrite IH. reflexivity. }
    assert (Hc : forall c a, Tally.itemCount (fold_left tally_cart_item c a)
                             = Tally.itemCount a).
    { induction c as [|i c IH]; intros a; simpl; [reflexivity|]. rewrite IH.
      unfold tally_cart_item. destruct (Cart.product i); reflexivity. }
    destruct (cart u), (wishlist u); rewrite ?Hc, ?Hw; reflexivity. }
  simpl PriceRange.avg. rewrite Hcount. reflexivity.
Qed.

(* ------------------------------------------------------------------ *)
(** ** The target user's paid orders *)

Lemma paid_orders_of_In (s : Store) (uid : ObjectId) (o : Order ObjectId) :
  In o (paid_orders_of s uid) <-> In o (orders s) /\ user o = uid /\ isPaid o = true.
Proof.
  unfold paid_orders_of. rewrite filter_In, andb_true_iff, N.eqb_eq. tauto.
Qed.



(* ------------------------------------------------------------------ *)
(** ** The scorers contain their failures *)

Lemma try_catch_default {A} (body : Async A) (dflt : A) (t : nat) :
  exists v,
    try_catch body (fun _ => ret dflt) t = (Returned v, snd (body t))
    /\ (forall e, fst (body t) = Thrown e -> v = dflt)
    /\ (forall a, fst (body t) = Returned a -> v = a).
Proof.
  unfold try_catch. destruct (body t) as [[a|e] t']; simpl.
  - exists a. repeat split; congruence.
  - exists dflt. repeat split; congruence.
Qed.

Lemma bind_returned {A B} (m : Async A) (k : A -> Async B) (t t' : nat) (a : A) :
  m t = (Returned a, t') -> bind m k t = k a t'.
Proof. intros H. unfold bind. rewrite H. reflexivity. Qed.

(** The handler, once its own two reads succeeded and the user exists:
    both scorers return, and the response fuses what they returned. *)
Lemma personalized_runs (s : Store) (uid : ObjectId) (q : option Z) (t : nat)
  (u : User ObjectId) :
  rejects s t = false ->
  rejects s (S t) = false ->
  find_user s uid = Some u ->
  let limit := parse_limit q 10 in
  let prefs := snapshot s uid u in
  exists collab content t1,
    getCollaborativeRecommendations s uid limit (S (S t)) = (Returned collab, t1)
    /\ (forall e, fst (collaborative_try s uid limit (S (S t))) = Thrown e -> collab = [])
    /\ fst (getContentBasedRecommendations s prefs limit t1) = Returned content
    /\ (forall e, fst (content_try s prefs limit t1) = Thrown e -> content = [])
    /\ fst (personalized s uid q t)
       = Returned (Json200 (combineRecommendations collab content prefs limit)
                     (categories prefs) (brands prefs) (priceRange prefs)).
Proof.
  intros R0 R1 Hu limit prefs.
  destruct (try_catch_default (collaborative_try s uid limit) [] (S (S t)))
    as [collab [Ec [Hc _]]].
  set (t1 := snd (collaborative_try s uid limit (S (S t)))) in *.
  destruct (try_catch_default (content_try s prefs limit) [] t1)
    as [content [Eb [Hb _]]].
  exists collab, content, t1.
  fold (getCollaborativeRecommendations s uid limit) in Ec.
  fold (getContentBasedRecommendations s prefs limit) in Eb.
  split; [exact Ec|]. split; [exact Hc|].
  split; [rewrite Eb; reflexivity|]. split; [exact Hb|].
  unfold personalized. unfold try_catch at 1.
  rewrite (bind_returned _ _ _ (await_read_ok s _ t R0)).
  rewrite (bind_returned _ _ _ (await_read_ok s _ (S t) R1)).
  fold (find_user s uid). rewrite Hu. cbn [option_map].
  rewrite (bind_returned (ret (snapshot s uid u)) _ (S (S t)) eq_refl).
  fold limit. fold (snapshot s uid u). fold prefs.
  rewrite (bind_returned _ _ _ Ec).
  rewrite (bind_returned _ _ _ Eb).
  reflexivity.
Qed.

Lemma scorers_return (s : Store) (uid : ObjectId) (prefs : Preferences) (N : Z)
  (t : nat) :
  (exists l, fst (getCollaborativeRecommendations s uid N t) = Returned l)
  /\ (exists l, fst (getContentBasedRecommendations s prefs N t) = Returned l).
Proof.
  split.
  - destruct (try_catch_default (collaborative_try s uid N) [] t) as [v [E _]].
    exists v. unfold getCollaborativeRecommendations. rewrite E. reflexivity.
  - destruct (try_catch_default (content_try s prefs N) [] t) as [v [E _]].
    exists v. unfold getContentBasedRecommendations. rewrite E. reflexivity.
Qed.

(** What the Collaborative Scorer does for everyone: one read, and the
    empty list.  A rejected read, a line item without product and the
    [ObjectId] call made while the first pipeline is built all end in the
    [catch]. *)
Lemma collaborative_empty (s : Store) (uid : ObjectId) (N : Z) (t : nat) :
  getCollaborativeRecommendations s uid N t = (Returned [], S t).
Proof.
  unfold getCollaborativeRecommendations, try_catch, collaborative_try, bind.
  destruct (rejects s t) eqn:R.
  - rewrite await_read_rejected by exact R. reflexivity.
  - rewrite await_read_ok by exact R. unfold lift.
    destruct (purchased_ids (paid_orders_of s uid)) as [ids|e]; [|reflexivity].
    destruct ids as [|id ids]; reflexivity.
Qed.

Lemma mongo_limit_firstn {A} (n : Z) (docs : list A) :
  exists k, Mongo.limit n docs = firstn k docs.
Proof.
  unfold Mongo.limit. destruct (n =? 0)%Z.
  - exists (length docs). symmetry. apply firstn_all.
  - eexists. reflexivity.
Qed.

(** What the Content Scorer returns names no product twice and is in the
    order the fusion sorts by, whatever the limit. *)
Lemma content_output_ranked (s : Store) (prefs : Preferences) (N : Z) (t : nat)
  (content : list Recommendation) :
  NoDup (map _id (products s)) ->
  fst (getContentBasedRecommendations s prefs N t) = Returned content ->
  NoDup (map rec_id content) /\ StronglySorted fused_order content.
Proof.
  intros Hids.
  unfold getContentBasedRecommendations, try_catch, content_try.
  destruct (rejects s t) eqn:R.
  - destruct (length (categories prefs) =? 0)%nat; unfold bind;
      rewrite await_read_rejected by exact R; simpl; intros E; inversion E; subst;
      simpl; split; constructor.
  - destruct (length (categories prefs) =? 0)%nat; unfold bind;
      rewrite await_read_ok by exact R; simpl; intros E; inversion E; subst; clear E.
    + destruct (mongo_limit_firstn N
                  (Mongo.sort_rating_sales
                     (filter (fun p => is_active (status p)) (products s)))) as [k ->].
      split.
      * unfold rec_id. rewrite map_map. simpl. rewrite <- firstn_map.
        apply NoDup_firstn.
        apply (Permutation_NoDup
                 (l := map _id (filter (fun p => is_active (status p)) (products s)))).
        { apply Permutation_map. symmetry. apply sort_rating_sales_perm. }
        apply NoDup_map_filter. exact Hids.
      * apply StronglySorted_pairwise with (R := fun _ _ => True).
        { intros x y Hx Hy _. apply in_map_iff in Hx. destruct Hx as [p [<- _]].
          unfold fused_order, Js.front, by_score_desc. simpl.
          destruct (recommendationScore y); reflexivity. }
        generalize (firstn k
                      (Mongo.sort_rating_sales
                         (filter (fun p => is_active (status p)) (products s)))).
        intros l. induction l; simpl; constructor; [assumption|].
        apply Forall_forall. tauto.
    + unfold Js.slice0.
      set (cw := Js.slice0 3 (categories prefs)).
      set (bw := Js.slice0 3 (brands prefs)).
      set (found := filter (is_candidate cw bw) (products s)).
      set (scored := map (score_product cw bw (priceRange prefs)) found).
      set (k := Z.to_nat _).
      assert (Hdef : forall x, In x (Js.sort by_score_desc scored) ->
                               recommendationScore x <> None).
      { intros x Hx. apply (Permutation_in _ (sort_by_score_perm _)) in Hx.
        apply in_map_iff in Hx. destruct Hx as [p [<- _]]. discriminate. }
      split.
      * rewrite <- firstn_map. apply NoDup_firstn.
        apply (Permutation_NoDup (l := map rec_id scored)).
        { apply Permutation_map. symmetry. apply sort_by_score_perm. }
        unfold scored. rewrite map_map. simpl.
        apply NoDup_map_filter. exact Hids.
      * apply StronglySorted_firstn.
        apply StronglySorted_pairwise with (R := score_desc).
        { intros x y Hx Hy Hxy. unfold fused_order, Js.front.
          rewrite by_score_desc_defined by (apply Hdef; assumption).
          apply gtb_le. exact Hxy. }
        apply sort_by_score_sorted.
        intros x Hx. apply in_map_iff in Hx. destruct Hx as [p [<- _]]. discriminate.
Qed.

Lemma content_output_shape (s : Store) (prefs : Preferences) (N : Z) (t : nat)
  (content : list Recommendation) :
  NoDup (map _id (products s)) ->
  (0 < N)%Z ->
  fst (getContentBasedRecommendations s prefs N t) = Returned content ->
  NoDup (map rec_id content)
  /\ StronglySorted fused_order content
  /\ (Z.of_nat (length content) <= N)%Z.
Proof.
  intros Hids HN.
  assert (Hlen : forall A (l : list A), (Z.of_nat (length (firstn (Z.to_nat N) l)) <= N)%Z).
  { intros A l. rewrite length_firstn. lia. }
  unfold getContentBasedRecommendations, try_catch, content_try.
  destruct (rejects s t) eqn:R.
  - destruct (length (categories prefs) =? 0)%nat; unfold bind;
      rewrite await_read_rejected by exact R; simpl; intros E; inversion E; subst;
      simpl; repeat split; try constructor; lia.
  - destruct (length (categories prefs) =? 0)%nat; unfold bind;
      rewrite await_read_ok by exact R; simpl; intros E; inversion E; subst; clear E.
    + rewrite mongo_limit_positive by exact HN. split; [|split].
      * unfold rec_id. rewrite map_map. simpl. rewrite <- firstn_map.
        apply NoDup_firstn.
        apply (Permutation_NoDup
                 (l := map _id (filter (fun p => is_active (status p)) (products s)))).
        { apply Permutation_map. symmetry. apply sort_rating_sales_perm. }
        apply NoDup_map_filter. exact Hids.
      * apply StronglySorted_pairwise with (R := fun _ _ => True).
        { intros x y Hx Hy _. apply in_map_iff in Hx. destruct Hx as [p [<- _]].
          unfold fused_order, Js.front, by_score_desc. simpl.
          destruct (recommendationScore y); reflexivity. }
        generalize (firstn (Z.to_nat N)
                      (Mongo.sort_rating_sales
                         (filter (fun p => is_active (status p)) (products s)))).
        intros l. induction l; simpl; constructor; [assumption|].
        apply Forall_forall. tauto.
      * rewrite length_map. apply Hlen.
    + rewrite slice0_firstn by lia.
      set (cw := Js.slice0 3 (categories prefs)).
      set (bw := Js.slice0 3 (brands prefs)).
      set (found := filter (is_candidate cw bw) (products s)).
      set (scored := map (score_product cw bw (priceRange prefs)) found).
      assert (Hdef : forall x, In x (Js.sort by_score_desc scored) ->
                               recommendationScore x <> None).
      { intros x Hx. apply (Permutation_in _ (sort_by_score_perm _)) in Hx.
        apply in_map_iff in Hx. destruct Hx as [p [<- _]]. discriminate. }
      split; [|split].
      * rewrite <- firstn_map. apply NoDup_firstn.
        apply (Permutation_NoDup (l := map rec_id scored)).
        { apply Permutation_map. symmetry. apply sort_by_score_perm. }
        unfold scored. rewrite map_map. simpl.
        apply NoDup_map_filter. exact Hids.
      * apply StronglySorted_firstn.
        apply StronglySorted_pairwise with (R := score_desc).
        { intros x y Hx Hy Hxy. unfold fused_order, Js.front.
          rewrite by_score_desc_defined by (apply Hdef; assumption).
          apply gtb_le. exact Hxy. }
        apply sort_by_score_sorted.
        intros x Hx. apply in_map_iff in Hx. destruct Hx as [p [<- _]]. discriminate.
      * apply Hlen.
Qed.

(** C10. Both scorers always return: an error inside the [try] block of
    a scorer makes that scorer return the empty list.  The request then
    still completes with status 200 and recommends the other scorer's
    results: when the Collaborative Scorer fails, exactly the list the
    Content Scorer returned, cut by the fusion to the limit (the whole
    list when the limit is positive); when the Content Scorer fails,
    exactly the list the Collaborative Scorer returned (product ids
    unique in the catalogue). *)
Theorem scorer_failure_contained (s : Store) (uid : ObjectId) (q : option Z) (t : nat)
  (u : User ObjectId) :
  rejects s t = false ->
  rejects s (S t) = false ->
  find_user s uid = Some u ->
  NoDup (map _id (products s)) ->
  let limit := parse_limit q 10 in
  let prefs := snapshot s uid u in
  (forall uid' prefs' N t',
      (exists l, fst (getCollaborativeRecommendations s uid' N t') = Returned l)
      /\ (exists l, fst (getContentBasedRecommendations s prefs' N t') = Returned l))
  /\ exists collab content t1 recommendations,
       getCollaborativeRecommendations s uid limit (S (S t)) = (Returned collab, t1)
       /\ fst (getContentBasedRecommendations s prefs limit t1) = Returned content
       /\ fst (personalized s uid q t)
          = Returned (Json200 recommendations
                        (categories prefs) (brands prefs) (priceRange prefs))
       /\ (forall e, fst (collaborative_try s uid limit (S (S t))) = Thrown e ->
             collab = []
             /\ recommendations = Js.slice0 limit content
             /\ ((0 < limit)%Z -> recommendations = content))
       /\ (forall e, fst (content_try s prefs limit t1) = Thrown e ->
             content = [] /\ recommendations = collab).
Proof.
  intros R0 R1 Hu Hids limit prefs. split.
  - intros uid' prefs' N t'. apply scorers_return.
  - destruct (@personalized_runs s uid q t u R0 R1 Hu)
      as [collab [content [t1 [Ec [Hc [Eb [Hb Hres]]]]]]].
    fold limit prefs in Ec, Hc, Eb, Hb, Hres.
    exists collab, content, t1, (combineRecommendations collab content prefs limit).
    split; [exact Ec|]. split; [exact Eb|]. split; [exact Hres|].
    destruct (@content_output_ranked s prefs limit t1 content Hids Eb) as [Hnd Hs].
    split.
    + intros e He. specialize (Hc e He). subst collab.
      split; [reflexivity|]. split; [apply combine_alone; assumption|].
      intros Hpos.
      destruct (@content_output_shape s prefs limit t1 content Hids Hpos Eb)
        as [H1 [H2 H3]].
      apply combine_fixed; assumption.
    + intros e He. specialize (Hb e He). subst content.
      split; [reflexivity|].
      rewrite collaborative_empty in Ec. inversion Ec; subst.
      rewrite combine_alone by constructor. unfold Js.slice0. apply firstn_nil.
Qed.

Lemma scorer_failure_contained_witness :
  (forall uid' prefs' N t',
      (exists l, fst (getCollaborativeRecommendations Sample.flawed uid' N t') = Returned l)
      /\ (exists l, fst (getContentBasedRecommendations Sample.flawed prefs' N t')
                    = Returned l))
  /\ exists collab content t1 recommendations,
       getCollaborativeRecommendations Sample.flawed Sample.ann (parse_limit None 10) 2
         = (Returned collab, t1)
       /\ fst (getContentBasedRecommendations Sample.flawed
                 (snapshot Sample.flawed Sample.ann Sample.ann_doc)
                 (parse_limit None 10) t1)
          = Returned content
       /\ fst (personalized Sample.flawed Sample.ann None 0)
          = Returned (Json200 recommendations
                        (categories (snapshot Sample.flawed Sample.ann Sample.ann_doc))
                        (brands (snapshot Sample.flawed Sample.ann Sample.ann_doc))
                        (priceRange (snapshot Sample.flawed Sample.ann Sample.ann_doc)))
       /\ (forall e,
             fst (collaborative_try Sample.flawed Sample.ann (parse_limit None 10) 2)
             = Thrown e ->
             collab = []
             /\ recommendations = Js.slice0 (parse_limit None 10) content
             /\ ((0 < parse_limit None 10)%Z -> recommendations = content))
       /\ (forall e,
             fst (content_try Sample.flawed
                    (snapshot Sample.flawed Sample.ann Sample.ann_doc)
                    (parse_limit None 10) t1)
             = Thrown e ->
             content = [] /\ recommendations = collab).
Proof.
  apply (@scorer_failure_contained Sample.flawed Sample.ann None 0%nat Sample.ann_doc);
    try reflexivity.
  simpl. repeat (constructor; [simpl; intuition discriminate|]). constructor.
Defined.

(** On the flawed shop the collaborative [try] block throws; the request
    answers 200 with the three items of the Content Scorer. *)
Example flawed_request :
  fst (collaborative_try Sample.flawed Sample.ann 10 2) = Thrown TypeError
  /\ match fst (personalized Sample.flawed Sample.ann None 0) with
     | Returned (Json200 recs _ _ _) =>
         Some (map (fun r => (rec_id r, recommendationType r)) recs)
     | _ => None
     end
     = Some [(1%N, Some content_based); (3%N, Some content_based);
             (2%N, Some content_based)].
Proof. split; vm_compute; reflexivity. Qed.

(** On the flaky shop the read of the Content Scorer is rejected; the
    request answers 200 with what the Collaborative Scorer returned,
    which is nothing. *)
Example flaky_request :
  fst (content_try Sample.flaky (snapshot Sample.flaky Sample.ann Sample.ann_doc) 10 3)
  = Thrown StoreError
  /\ getCollaborativeRecommendations Sample.flaky Sample.ann 10 2 = (Returned [], 3%nat)
  /\ match fst (personalized Sample.flaky Sample.ann None 0) with
     | Returned (Json200 recs _ _ _) => Some (map rec_id recs)
     | _ => None
     end
     = Some [].
Proof. repeat split; vm_compute; reflexivity. Qed.

(* ------------------------------------------------------------------ *)
(** ** A malformed product reference inside an order *)

Lemma Math_max_bounds (a b : Js.number) :
  (a <= Js.Math_max a b)%Qc /\ (b <= Js.Math_max a b)%Qc
  /\ (Js.Math_max a b = a \/ Js.Math_max a b = b).
Proof.
  unfold Js.Math_max. destruct (Js.gtb b a) eqn:E.
  - apply gtb_lt in E. repeat split; [apply Qclt_le_weak; exact E | apply Qcle_refl | tauto].
  - apply gtb_le in E. repeat split; [apply Qcle_refl | exact E | tauto].
Qed.

Lemma max_spread_from (xs : list Js.number) (a : Js.number) :
  exists m, fold_left Js.ext_max xs (Js.Fin a) = Js.Fin m
            /\ In m (a :: xs)
            /\ forall x, In x (a :: xs) -> (x <= m)%Qc.
Proof.
  revert a; induction xs as [|x xs IH]; intros a; simpl.
  - exists a. repeat split; [tauto | intros y [<-|[]]; apply Qcle_refl].
  - destruct (IH (Js.Math_max a x)) as [m [Em [Hin Hle]]].
    destruct (Math_max_bounds a x) as [Ha [Hx Hor]].
    exists m. split; [exact Em|]. split.
    + destruct Hin as [Hm|Hm]; [|tauto].
      destruct Hor as [E|E]; rewrite E in Hm; tauto.
    + intros y [<-|[<-|Hy]].
      * eapply Qcle_trans; [exact Ha|]. apply Hle. left. reflexivity.
      * eapply Qcle_trans; [exact Hx|]. apply Hle. left. reflexivity.
      * apply Hle. right. exact Hy.
Qed.

Lemma max_spread_spec (xs : list Js.number) :
  (xs = [] -> Js.Math_max_spread xs = Js.NegInfinity)
  /\ (xs <> [] ->
      exists m, Js.Math_max_spread xs = Js.Fin m
                /\ In m xs /\ forall x, In x xs -> (x <= m)%Qc).
Proof.
  split; [intros ->; reflexivity|].
  destruct xs as [|x xs]; [congruence|]. intros _.
  unfold Js.Math_max_spread. simpl. apply max_spread_from.
Qed.











(** On the flawed shop Ann's order holds a line of 300 without product
    beside two laptops at 100.  The request completes with the
    recommendations, preferences and average price it has without the
    line, and a maximum price of 300 instead of 100. *)
Example malformed_line_counts_for_max :
  match fst (personalized Sample.flawed Sample.ann None 0),
        fst (personalized (without_malformed Sample.flawed) Sample.ann None 0) with
  | Returned (Json200 recs cs bs range), Returned (Json200 recs' cs' bs' range') =>
      recs = recs' /\ cs = cs' /\ bs = bs'
      /\ PriceRange.avg range = PriceRange.avg range'
      /\ PriceRange.max range = Js.Fin (Js.num 300)
      /\ PriceRange.max range' = Js.Fin (Js.num 100)
  | _, _ => False
  end.
Proof. vm_compute. repeat split; reflexivity. Qed.

(* ------------------------------------------------------------------ *)
(** ** Preference Extractor: what the tally holds *)

Lemma absorb_app (key : Product -> string) (s1 s2 : list (Product * Js.number))
  (d : Dict.t) :
  PrefSpec.absorb key d (s1 ++ s2) = PrefSpec.absorb key (PrefSpec.absorb key d s1) s2.
Proof. unfold PrefSpec.absorb. apply fold_left_app. Qed.

Lemma sum_app (l1 l2 : list Js.number) :
  PrefSpec.sum (l1 ++ l2) = (PrefSpec.sum l1 + PrefSpec.sum l2)%Qc.
Proof.
  induction l1 as [|x l1 IH]; simpl; [ring|]. rewrite IH. ring.
Qed.

Lemma tally_items_spec (items : list (Item.t Product)) (acc : Tally.t) :
  let acc' := fold_left tally_item items acc in
  let bought := PrefSpec.resolved items in
  Tally.categories acc'
    = PrefSpec.absorb category (Tally.categories acc) (map PrefSpec.as_signal bought)
  /\ Tally.brands acc'
     = PrefSpec.absorb brand (Tally.brands acc) (map PrefSpec.as_signal bought)
  /\ Tally.totalSpent acc'
     = (Tally.totalSpent acc + PrefSpec.sum (map PrefSpec.spend bought))%Qc
  /\ Tally.itemCount acc'
     = (Tally.itemCount acc + PrefSpec.sum (map PrefSpec.units bought))%Qc.
Proof.
  revert acc; induction items as [|item items IH]; intros acc; simpl.
  - repeat split; ring.
  - destruct (IH (tally_item acc item)) as [Hc [Hb [Hs Hn]]].
    rewrite Hc, Hb, Hs, Hn. unfold tally_item, PrefSpec.resolved. simpl.
    destruct (Item.product item) as [p|]; simpl.
    + repeat split; try reflexivity; unfold PrefSpec.spend, PrefSpec.units; simpl; ring.
    + repeat split; reflexivity.
Qed.

Lemma tally_orders_spec (os : list (Order Product)) (acc : Tally.t) :
  let acc' := fold_left tally_order os acc in
  let bought := PrefSpec.purchases os in
  Tally.categories acc'
    = PrefSpec.absorb category (Tally.categories acc) (map PrefSpec.as_signal bought)
  /\ Tally.brands acc'
     = PrefSpec.absorb brand (Tally.brands acc) (map PrefSpec.as_signal bought)
  /\ Tally.totalSpent acc'
     = (Tally.totalSpent acc + PrefSpec.sum (map PrefSpec.spend bought))%Qc
  /\ Tally.itemCount acc'
     = (Tally.itemCount acc + PrefSpec.sum (map PrefSpec.units bought))%Qc.
Proof.
  revert acc; induction os as [|o os IH]; intros acc; simpl.
  - repeat split; ring.
  - destruct (IH (tally_order acc o)) as [Hc [Hb [Hs Hn]]].
    destruct (tally_items_spec (orderItems o) acc) as [Hc' [Hb' [Hs' Hn']]].
    fold (tally_order acc o) in Hc', Hb', Hs', Hn'.
    rewrite Hc, Hb, Hs, Hn, Hc', Hb', Hs', Hn'.
    unfold PrefSpec.purchases. simpl. rewrite !map_app, !absorb_app, !sum_app.
    repeat split; try reflexivity; ring.
Qed.

Lemma tally_signals_spec (w : Js.number) (ps : list Product) (acc : Tally.t) :
  let acc' := fold_left (tally_signal w) ps acc in
  Tally.categories acc'
    = PrefSpec.absorb category (Tally.categories acc) (map (fun p => (p, w)) ps)
  /\ Tally.brands acc'
     = PrefSpec.absorb brand (Tally.brands acc) (map (fun p => (p, w)) ps)
  /\ Tally.totalSpent acc' = Tally.totalSpent acc
  /\ Tally.itemCount acc' = Tally.itemCount acc.
Proof.
  revert acc; induction ps as [|p ps IH]; intros acc; simpl.
  - repeat split; reflexivity.
  - destruct (IH (tally_signal w acc p)) as [Hc [Hb [Hs Hn]]].
    rewrite Hc, Hb, Hs, Hn. repeat split; reflexivity.
Qed.

Lemma tally_cart_spec (c : list (Cart.t Product)) (acc : Tally.t) :
  let acc' := fold_left tally_cart_item c acc in
  let ps := flat_map (fun entry => match Cart.product entry with
                                   | Some p => [p]
                                   | None => []
                                   end) c in
  Tally.categories acc'
    = PrefSpec.absorb category (Tally.categories acc) (map (fun p => (p, Js.lit_0_3)) ps)
  /\ Tally.brands acc'
     = PrefSpec.absorb brand (Tally.brands acc) (map (fun p => (p, Js.lit_0_3)) ps)
  /\ Tally.totalSpent acc' = Tally.totalSpent acc
  /\ Tally.itemCount acc' = Tally.itemCount acc.
Proof.
  revert acc; induction c as [|entry c IH]; intros acc; simpl.
  - repeat split; reflexivity.
  - destruct (IH (tally_cart_item acc entry)) as [Hc [Hb [Hs Hn]]].
    rewrite Hc, Hb, Hs, Hn. unfold tally_cart_item.
    destruct (Cart.product entry); repeat split; reflexivity.
Qed.

(** The four locals of [getUserPreferences] once the three loops ran. *)
Lemma tally_all_spec (os : list (Order Product)) (u : User Product) :
  let acc := tally_all os u in
  Tally.categories acc = PrefSpec.absorb category [] (PrefSpec.signals os u)
  /\ Tally.brands acc = PrefSpec.absorb brand [] (PrefSpec.signals os u)
  /\ Tally.totalSpent acc = PrefSpec.total_spend os
  /\ Tally.itemCount acc = PrefSpec.total_items os.
Proof.
  unfold tally_all, PrefSpec.signals, PrefSpec.wished, PrefSpec.carted.
  rewrite !absorb_app.
  destruct (tally_orders_spec os Tally.empty) as [Hc0 [Hb0 [Hs0 Hn0]]].
  set (a0 := fold_left tally_order os Tally.empty) in *.
  assert (Hs0' : Tally.totalSpent a0 = PrefSpec.total_spend os).
  { rewrite Hs0. unfold PrefSpec.total_spend. simpl. change (Js.num 0) with 0%Qc. ring. }
  assert (Hn0' : Tally.itemCount a0 = PrefSpec.total_items os).
  { rewrite Hn0. unfold PrefSpec.total_items. simpl. change (Js.num 0) with 0%Qc. ring. }
  simpl in Hc0, Hb0. rewrite <- Hc0, <- Hb0, <- Hs0', <- Hn0'.
  set (a1 := match wishlist u with
             | Some w => fold_left (tally_signal Js.lit_0_5) w a0
             | None => a0
             end).
  assert (H1 : Tally.categories a1
               = PrefSpec.absorb category (Tally.categories a0)
                   (map (fun p => (p, Js.lit_0_5))
                        match wishlist u with Some w => w | None => [] end)
               /\ Tally.brands a1
                  = PrefSpec.absorb brand (Tally.brands a0)
                      (map (fun p => (p, Js.lit_0_5))
                           match wishlist u with Some w => w | None => [] end)
               /\ Tally.totalSpent a1 = Tally.totalSpent a0
               /\ Tally.itemCount a1 = Tally.itemCount a0).
  { unfold a1. destruct (wishlist u) as [w|].
    - apply tally_signals_spec.
    - repeat split; reflexivity. }
  destruct H1 as [Hc1 [Hb1 [Hs1 Hn1]]].
  change (Q2Qc (1 # 2)) with Js.lit_0_5. change (Q2Qc (3 # 10)) with Js.lit_0_3.
  rewrite <- Hc1, <- Hb1, <- Hs1, <- Hn1.
  destruct (cart u) as [c|].
  - apply tally_cart_spec.
  - repeat split; reflexivity.
Qed.

(** Ann bought two laptops at 100 and wishes for the novel. *)
Example preferences_example :
  let prefs := getUserPreferences Sample.ann Sample.ann_history Sample.ann_profile in
  categories prefs = ["Electronics"; "Books & Media"]%string
  /\ brands prefs = ["Acme"; "Pen"]%string
  /\ PriceRange.avg (priceRange prefs) = Js.num 100
  /\ PriceRange.max (priceRange prefs) = Js.Fin (Js.num 100)
  /\ totalPurchases prefs = Js.num 2.
Proof.
  repeat split; try (vm_compute; reflexivity);
    try (apply Qc_is_canon; vm_compute; reflexivity).
Qed.

(* ------------------------------------------------------------------ *)
(** ** Object ids *)

Lemma ref_eqb_eq (a b : option ObjectId) : ref_eqb a b = true <-> a = b.
Proof.
  destruct a as [x|], b as [y|]; simpl; try (split; [discriminate | discriminate]).
  - rewrite N.eqb_eq. split; congruence.
  - tauto.
Qed.

Lemma mem_In (x : ObjectId) (l : list ObjectId) : mem x l = true <-> In x l.
Proof.
  unfold mem. rewrite existsb_exists. split.
  - intros [y [Hy E]]. apply N.eqb_eq in E. subst. exact Hy.
  - intros H. exists x. split; [exact H | apply N.eqb_refl].
Qed.

(* ------------------------------------------------------------------ *)
(** ** Collaborative Scorer *)

Lemma purchased_ids_In (os : list (Order ObjectId)) (ids : list ObjectId) (id : ObjectId) :
  purchased_ids os = Returned ids ->
  (In id ids <-> exists o item, In o os /\ In item (orderItems o)
                                /\ Item.product item = Some id).
Proof.
  unfold purchased_ids.
  assert (Hitems : forall items l, map_throwing product_toString items = Returned l ->
            (In id l <-> exists item, In item items /\ Item.product item = Some id)).
  { induction items as [|item items IH]; simpl; intros l Hl.
    - inversion Hl; subst. simpl. split; [tauto | intros [x [[] _]]].
    - unfold product_toString at 1 in Hl.
      destruct (Item.product item) as [i|] eqn:E; [|discriminate].
      destruct (map_throwing product_toString items) as [l'|] eqn:E'; [|discriminate].
      inversion Hl; subst. simpl. rewrite (IH l' eq_refl). split.
      + intros [->|[x [Hx Hp]]]; [exists item; tauto | exists x; tauto].
      + intros [x [[->|Hx] Hp]]; [left; congruence | right; exists x; tauto]. }
  revert ids. induction os as [|o os IH]; simpl; intros ids H.
  - inversion H; subst. simpl. split; [tauto | intros [o [x [[] _]]]].
  - destruct (map_throwing product_toString (orderItems o)) as [l|] eqn:El; [|discriminate].
    destruct (map_throwing
                (fun order => map_throwing product_toString (orderItems order)) os)
      as [ls|] eqn:Els; [|discriminate].
    inversion H; subst. simpl. rewrite in_app_iff, (Hitems _ _ El), (IH (concat ls) eq_refl).
    split.
    + intros [[x [Hx Hp]]|[o' [x [Ho' [Hx Hp]]]]].
      * exists o, x. tauto.
      * exists o', x. tauto.
    + intros [o' [x [[->|Ho'] [Hx Hp]]]].
      * left. exists x. tauto.
      * right. exists o', x. tauto.
Qed.

Lemma bought_spec (s : Store) (uid : ObjectId) (ids : list ObjectId) (id : ObjectId) :
  purchased_ids (paid_orders_of s uid) = Returned ids ->
  (In id ids <-> CollabSpec.bought s uid id = true).
Proof.
  intros H. rewrite (purchased_ids_In _ id H).
  unfold CollabSpec.bought, CollabSpec.holds. rewrite existsb_exists. split.
  - intros [o [item [Ho [Hitem Hp]]]]. apply paid_orders_of_In in Ho.
    destruct Ho as [Ho [Hu Hpaid]]. exists o. split; [exact Ho|].
    rewrite Hu, N.eqb_refl, Hpaid. simpl. apply existsb_exists.
    exists item. split; [exact Hitem | apply ref_eqb_eq; exact Hp].
  - intros [o [Ho Hb]]. apply andb_true_iff in Hb. destruct Hb as [Hb Hh].
    apply andb_true_iff in Hb. destruct Hb as [Hu Hpaid].
    apply existsb_exists in Hh. destruct Hh as [item [Hitem Hp]].
    exists o, item. split; [|split; [exact Hitem | apply ref_eqb_eq; exact Hp]].
    apply paid_orders_of_In. apply N.eqb_eq in Hu. tauto.
Qed.

(** C7. For a user who bought no product in a paid order, the
    Collaborative Scorer returns the empty list, whatever the store does:
    a rejected read and a malformed line item end in the [catch], which
    returns the empty list as well, so nothing is thrown. *)
Theorem collaborative_without_purchases (s : Store) (uid : ObjectId) (N : Z) (t : nat) :
  (forall id, CollabSpec.bought s uid id = false) ->
  fst (getCollaborativeRecommendations s uid N t) = Returned [].
Proof.
  intros Hnone.
  unfold getCollaborativeRecommendations, try_catch, collaborative_try, bind.
  destruct (rejects s t) eqn:R.
  - rewrite await_read_rejected by exact R. reflexivity.
  - rewrite await_read_ok by exact R. unfold lift.
    destruct (purchased_ids (paid_orders_of s uid)) as [ids|e] eqn:E; [|reflexivity].
    destruct ids as [|id ids]; [reflexivity|].
    assert (Hb : CollabSpec.bought s uid id = true)
      by (apply (bought_spec s uid id E); left; reflexivity).
    rewrite Hnone in Hb. discriminate.
Qed.

Lemma collaborative_without_purchases_witness :
  fst (getCollaborativeRecommendations Sample.shop Sample.eve 10 0) = Returned [].
Proof.
  apply collaborative_without_purchases.
  intros id. unfold CollabSpec.bought. reflexivity.
Defined.

Lemma purchased_ids_throws (os : list (Order ObjectId)) (e : Error) :
  purchased_ids os = Thrown e -> e = TypeError.
Proof.
  unfold purchased_ids.
  assert (Hitems : forall items e', map_throwing product_toString items = Thrown e' ->
                                    e' = TypeError).
  { induction items as [|item items IH]; simpl; intros e' H; [discriminate|].
    unfold product_toString at 1 in H.
    destruct (Item.product item); [|congruence].
    destruct (map_throwing product_toString items) eqn:E; [discriminate|].
    inversion H; subst. apply IH. reflexivity. }
  induction os as [|o os IH]; simpl; intros H; [discriminate|].
  destruct (map_throwing product_toString (orderItems o)) as [ids|e0] eqn:E0.
  - destruct (map_throwing
                (fun order => map_throwing product_toString (orderItems order)) os)
      as [idss|e1]; [discriminate|].
    inversion H; subst. apply IH. reflexivity.
  - inversion H; subst. apply (Hitems _ _ E0).
Qed.

(** C2. For a target user with a paid purchase the Collaborative Scorer
    selects no neighbour and scores no product: once the read of the
    user's orders has succeeded, building the first pipeline calls
    [mongoose.Types.ObjectId] without [new], the [try] block throws a
    [TypeError] before [Order.aggregate] is called, and the scorer
    returns the empty list after this one read. *)
Theorem collaborative_scorer_returns_nothing (s : Store) (uid id : ObjectId) (N : Z)
  (t : nat) :
  rejects s t = false ->
  CollabSpec.bought s uid id = true ->
  collaborative_try s uid N t = (Thrown TypeError, S t)
  /\ getCollaborativeRecommendations s uid N t = (Returned [], S t).
Proof.
  intros R Hb. split; [|apply collaborative_empty].
  unfold collaborative_try, bind. rewrite await_read_ok by exact R. unfold lift.
  destruct (purchased_ids (paid_orders_of s uid)) as [ids|e] eqn:E.
  - destruct ids as [|i ids]; [|reflexivity].
    apply (bought_spec s uid id E) in Hb. contradiction.
  - rewrite (purchased_ids_throws _ E). reflexivity.
Qed.

Lemma collaborative_scorer_returns_nothing_witness :
  collaborative_try Sample.shop Sample.ann 10 0 = (Thrown TypeError, 1%nat)
  /\ getCollaborativeRecommendations Sample.shop Sample.ann 10 0 = (Returned [], 1%nat).
Proof.
  apply (@collaborative_scorer_returns_nothing Sample.shop Sample.ann 1%N 10%Z 0%nat);
    reflexivity.
Defined.

(** In the shop Ann bought the laptop, and Bob bought the laptop together
    with the phone, which is active and which Ann has not bought: the
    specification has the phone recommended with score 1.  The code
    returns nothing. *)
Example collaborative_request :
  CollabSpec.bought Sample.shop Sample.ann 1%N = true
  /\ CollabSpec.bought Sample.shop Sample.bob 1%N = true
  /\ CollabSpec.bought Sample.shop Sample.bob 3%N = true
  /\ CollabSpec.bought Sample.shop Sample.ann 3%N = false
  /\ status Sample.phone = active
  /\ fst (getCollaborativeRecommendations Sample.shop Sample.ann 10 0) = Returned [].
Proof. repeat split; vm_compute; reflexivity. Qed.

(* ================================================================== *)
(** * Further properties of the recommendation router *)

(* ------------------------------------------------------------------ *)
(** ** getSimilarProducts *)




(* ------------------------------------------------------------------ *)
(** ** getFrequentlyBoughtTogether *)

(** X2. [getFrequentlyBoughtTogether] returns the empty list for every
    product, store and limit, and never reads the store: building the
    pipeline calls [mongoose.Types.ObjectId] without [new], which throws
    before [Order.aggregate] is reached, and the [catch] answers [[]]. *)
Theorem bought_together_returns_nothing (s : Store) (productId : ObjectId) (N : Z)
  (t : nat) :
  together_try s productId N t = (Thrown TypeError, t)
  /\ getFrequentlyBoughtTogether s productId N t = (Returned [], t).
Proof. split; reflexivity. Qed.

(* ------------------------------------------------------------------ *)
(** ** The seasons *)

(** X3. Whatever the month, the tags of [getSeasonalRecommendations] and
    the categories of [getSeasonalCategories] come from the same row of
    the season table: the two chains of comparisons never disagree. *)
Theorem season_tags_and_categories_agree (month : Z) :
  In (seasonalTags month, getSeasonalCategories month) SeasonTable.rows.
Proof.
  unfold seasonalTags, getSeasonalCategories, SeasonTable.rows.
  destruct ((3 <=? month)%Z && (month <=? 5)%Z); [left; reflexivity|].
  destruct ((6 <=? month)%Z && (month <=? 8)%Z); [right; left; reflexivity|].
  destruct ((9 <=? month)%Z && (month <=? 11)%Z); [right; right; left; reflexivity|].
  right; right; right; left; reflexivity.
Qed.

(* ------------------------------------------------------------------ *)
(** ** Content Scorer: how large a score is *)

Lemma num_le (a b : Z) : (a <= b)%Z -> (Js.num a <= Js.num b)%Qc.
Proof.
  intros H. unfold Qcle, Js.num. cbn [this Q2Qc]. rewrite !Qred_correct.
  unfold Qle. simpl. lia.
Qed.

Lemma num_lt (a b : Z) : (a < b)%Z -> (Js.num a < Js.num b)%Qc.
Proof.
  intros H. unfold Qclt, Js.num. cbn [this Q2Qc]. rewrite !Qred_correct.
  unfold Qlt. simpl. lia.
Qed.

Lemma num_sub (a b : Z) : (Js.num a - Js.num b)%Qc = Js.num (a - b).
Proof.
  apply Qc_is_canon. unfold Js.num, Qcminus, Qcplus, Qcopp. cbn [this Q2Qc].
  rewrite !Qred_correct. unfold Qeq. simpl. lia.
Qed.

Lemma num_mul (a b : Z) : (Js.num a * Js.num b)%Qc = Js.num (a * b).
Proof.
  apply Qc_is_canon. unfold Js.num, Qcmult. cbn [this Q2Qc].
  rewrite !Qred_correct. unfold Qeq. simpl. lia.
Qed.

Lemma num_add (a b : Z) : (Js.num a + Js.num b)%Qc = Js.num (a + b).
Proof.
  apply Qc_is_canon. unfold Js.num, Qcplus. cbn [this Q2Qc].
  rewrite !Qred_correct. unfold Qeq. simpl. lia.
Qed.

Lemma div_nonneg (a b : Qc) : (0 <= a)%Qc -> (0 < b)%Qc -> (0 <= a / b)%Qc.
Proof.
  intros Ha Hb. apply Qcmult_lt_0_le_reg_r with b; [exact Hb|].
  rewrite Qcmult_0_l. rewrite Qcmult_comm, Qcmult_div_r; [exact Ha|].
  intros E. rewrite E in Hb. exact (Qclt_not_eq _ _ Hb eq_refl).
Qed.

Lemma rank_bound (x : string) (l : list string) (r : nat) :
  ContentSpec.rank x l = Some r -> (r < length l)%nat.
Proof.
  revert r; induction l as [|y l IH]; simpl; intros r H; [discriminate|].
  destruct (string_dec y x); [inversion H; lia|].
  destruct (ContentSpec.rank x l) as [r'|]; [|discriminate].
  inversion H; subst. specialize (IH r' eq_refl). lia.
Qed.

Lemma rank_In (x : string) (l : list string) :
  In x l -> exists r, ContentSpec.rank x l = Some r.
Proof.
  induction l as [|y l IH]; simpl; intros H; [contradiction|].
  destruct (string_dec y x) as [E|E]; [exists 0%nat; reflexivity|].
  destruct H as [H|H]; [contradiction|].
  destruct (IH H) as [r Hr]. rewrite Hr. exists (S r). reflexivity.
Qed.

Lemma rank_top3 (x : string) (l : list string) (r : nat) :
  ContentSpec.rank x (ContentSpec.top3 l) = Some r -> (r <= 2)%nat.
Proof.
  intros H. apply rank_bound in H. unfold ContentSpec.top3 in H.
  rewrite length_firstn in H. lia.
Qed.

Lemma bonus_range (k : Z) (r : nat) :
  (0 <= k)%Z -> (r <= 2)%nat ->
  (Js.num k <= (Js.num 3 - Js.num (Z.of_nat r)) * Js.num k <= Js.num (3 * k))%Qc.
Proof.
  intros Hk Hr. rewrite num_sub, num_mul. split; apply num_le; nia.
Qed.

Lemma price_bonus_range (prefs : Preferences) (p : Product) :
  (Js.num 0 <= ContentSpec.priceBonus prefs p <= Js.num 2)%Qc.
Proof.
  unfold ContentSpec.priceBonus, ContentSpec.maxQ.
  destruct (Qclt_le_dec (Js.num 0) (PriceRange.avg (priceRange prefs))) as [Hpos|Hneg].
  - set (d := (Qcabs (price p - PriceRange.avg (priceRange prefs))
               / PriceRange.avg (priceRange prefs))%Qc).
    assert (Hd : (0 <= d)%Qc) by (apply div_nonneg; [apply Qcabs_nonneg | exact Hpos]).
    destruct (Qclt_le_dec (Js.num 0) (Js.num 2 - d)) as [H|H].
    + split; [apply Qclt_le_weak; exact H|].
      apply Qcle_minus_iff. replace (Js.num 2 + - (Js.num 2 - d))%Qc with d by ring.
      exact Hd.
    + split; [apply Qcle_refl | apply num_le; lia].
  - split; [apply Qcle_refl | apply num_le; lia].
Qed.

Lemma quality_bonus_range (p : Product) :
  (Js.num 0 <= averageRating p <= Js.num 5)%Qc -> (Js.num 0 <= sales p)%Qc ->
  (Js.num 0 <= ContentSpec.qualityBonus p <= Js.num 7)%Qc.
Proof.
  intros [Hr0 Hr5] Hs. unfold ContentSpec.qualityBonus, ContentSpec.minQ.
  assert (Hq : (0 <= sales p / Js.num 100)%Qc)
    by (apply div_nonneg; [exact Hs | apply (@num_lt 0 100); lia]).
  replace (Js.num 0) with (Js.num 0 + Js.num 0)%Qc by (rewrite num_add; reflexivity).
  replace (Js.num 7) with (Js.num 5 + Js.num 2)%Qc by (rewrite num_add; reflexivity).
  destruct (Qclt_le_dec (Js.num 2) (sales p / Js.num 100)) as [H|H].
  - split; apply Qcplus_le_compat; try assumption;
      [apply (@num_le 0 2); lia | apply Qcle_refl].
  - split; apply Qcplus_le_compat; assumption.
Qed.

Lemma content_score_spec (prefs : Preferences) (p : Product) :
  content_score prefs p = ContentSpec.score prefs p.
Proof. unfold content_score. rewrite score_product_spec. reflexivity. Qed.

(** X5. Every candidate the Content Scorer scores gets between 2 and 24
    points when its rating lies between 0 and 5 and its sales are not
    negative: at least the brand bonus of the third rank, at most
    9 + 6 + 2 + 5 + 2. *)
Theorem content_score_bounded (prefs : Preferences) (p : Product) :
  (Js.num 0 <= averageRating p <= Js.num 5)%Qc ->
  (Js.num 0 <= sales p)%Qc ->
  ContentSpec.candidateb prefs p = true ->
  (Js.num 2 <= content_score prefs p <= Js.num 24)%Qc.
Proof.
  intros Hr Hs Hc. rewrite content_score_spec. unfold ContentSpec.score.
  pose proof (price_bonus_range prefs p) as [Hp0 Hp2].
  pose proof (@quality_bonus_range p Hr Hs) as [Hq0 Hq7].
  assert (Hcat : (Js.num 0 <= ContentSpec.categoryBonus prefs p <= Js.num 9)%Qc
                 /\ (In (category p) (ContentSpec.top3 (categories prefs)) ->
                     (Js.num 3 <= ContentSpec.categoryBonus prefs p)%Qc)).
  { unfold ContentSpec.categoryBonus.
    destruct (ContentSpec.rank (category p) (ContentSpec.top3 (categories prefs)))
      as [r|] eqn:E.
    - pose proof (@bonus_range 3 r ltac:(lia) (@rank_top3 _ _ _ E)) as [Hlo Hhi].
      split; [split; [|exact Hhi]|intros _; exact Hlo].
      eapply Qcle_trans; [|exact Hlo]. apply num_le; lia.
    - split; [split; [apply Qcle_refl | apply num_le; lia]|].
      intros Hin. apply rank_In in Hin. destruct Hin as [r Hr']. congruence. }
  assert (Hbr : (Js.num 0 <= ContentSpec.brandBonus prefs p <= Js.num 6)%Qc
                /\ (In (brand p) (ContentSpec.top3 (brands prefs)) ->
                    (Js.num 2 <= ContentSpec.brandBonus prefs p)%Qc)).
  { unfold ContentSpec.brandBonus.
    destruct (ContentSpec.rank (brand p) (ContentSpec.top3 (brands prefs)))
      as [r|] eqn:E.
    - pose proof (@bonus_range 2 r ltac:(lia) (@rank_top3 _ _ _ E)) as [Hlo Hhi].
      split; [split; [|exact Hhi]|intros _; exact Hlo].
      eapply Qcle_trans; [|exact Hlo]. apply num_le; lia.
    - split; [split; [apply Qcle_refl | apply num_le; lia]|].
      intros Hin. apply rank_In in Hin. destruct Hin as [r Hr']. congruence. }
  destruct Hcat as [[Hc0 Hc9] Hc3]. destruct Hbr as [[Hb0 Hb6] Hb2].
  split.
  - apply candidateb_candidate in Hc. destruct Hc as [_ [Hin|Hin]].
    + replace (Js.num 2) with (Js.num 2 + Js.num 0 + Js.num 0 + Js.num 0)%Qc
        by (rewrite !num_add; reflexivity).
      repeat apply Qcplus_le_compat; try assumption.
      eapply Qcle_trans; [|apply Hc3; exact Hin]. apply num_le; lia.
    + replace (Js.num 2) with (Js.num 0 + Js.num 2 + Js.num 0 + Js.num 0)%Qc
        by (rewrite !num_add; reflexivity).
      repeat apply Qcplus_le_compat; try assumption. apply Hb2. exact Hin.
  - replace (Js.num 24) with (Js.num 9 + Js.num 6 + Js.num 2 + Js.num 7)%Qc
      by (rewrite !num_add; reflexivity).
    repeat apply Qcplus_le_compat; assumption.
Qed.

Lemma content_score_bounded_witness :
  (Js.num 2 <= content_score Sample.ann_prefs Sample.laptop <= Js.num 24)%Qc.
Proof.
  apply content_score_bounded.
  - split; vm_compute; discriminate.
  - vm_compute. discriminate.
  - reflexivity.
Defined.

(* ------------------------------------------------------------------ *)
(** ** Preference Extractor: the maximum price *)

Lemma item_prices_In (os : list (Order Product)) (x : Js.number) :
  In x (item_prices os)
  <-> exists o item, In o os /\ In item (orderItems o) /\ Item.price item = x.
Proof.
  unfold item_prices. rewrite in_flat_map. split.
  - intros [o [Ho Hx]]. apply in_map_iff in Hx. destruct Hx as [item [E Hi]].
    exists o, item. tauto.
  - intros [o [item [Ho [Hi E]]]]. exists o. split; [exact Ho|].
    apply in_map_iff. exists item. tauto.
Qed.

(** X7. The maximum price of the preference snapshot is [-Infinity]
    exactly when no paid order holds a line item; otherwise it is the
    price of a line item of a paid order (with or without product) that
    no other line item exceeds. *)
Theorem max_price_is_largest (uid : ObjectId) (os : list (Order Product))
  (u : User Product) :
  (PriceRange.max (priceRange (getUserPreferences uid os u)) = Js.NegInfinity
   <-> forall o, In o os -> orderItems o = [])
  /\ (forall m,
        PriceRange.max (priceRange (getUserPreferences uid os u)) = Js.Fin m
        <-> (exists o item, In o os /\ In item (orderItems o) /\ Item.price item = m)
            /\ (forall o item, In o os -> In item (orderItems o) ->
                               (Item.price item <= m)%Qc)).
Proof.
  change (PriceRange.max (priceRange (getUserPreferences uid os u)))
    with (Js.Math_max_spread (item_prices os)).
  destruct (max_spread_spec (item_prices os)) as [Hnil Hcons].
  assert (Hempty : item_prices os = [] <-> forall o, In o os -> orderItems o = []).
  { split.
    - intros E o Ho. destruct (orderItems o) as [|item items] eqn:Ei; [reflexivity|].
      exfalso. assert (Hin : In (Item.price item) (item_prices os)).
      { apply item_prices_In. exists o, item. rewrite Ei. simpl. tauto. }
      rewrite E in Hin. exact Hin.
    - intros H. destruct (item_prices os) as [|x xs] eqn:E; [reflexivity|].
      exfalso. assert (Hin : In x (item_prices os)) by (rewrite E; left; reflexivity).
      apply item_prices_In in Hin. destruct Hin as [o [item [Ho [Hi _]]]].
      rewrite (H o Ho) in Hi. exact Hi. }
  split.
  - rewrite <- Hempty. split; [|exact Hnil].
    intros H. destruct (item_prices os) as [|x xs] eqn:E; [reflexivity|].
    destruct Hcons as [m [Hm _]]; [discriminate|]. congruence.
  - intros m. split.
    + intros Hm. assert (Hne : item_prices os <> []).
      { intros E. rewrite (Hnil E) in Hm. discriminate. }
      destruct (Hcons Hne) as [m' [Hm' [Hin Hle]]].
      assert (m' = m) by congruence. subst m'. split.
      * apply item_prices_In. exact Hin.
      * intros o item Ho Hi. apply Hle. apply item_prices_In. exists o, item. tauto.
    + intros [Hin Hle]. apply item_prices_In in Hin.
      assert (Hne : item_prices os <> []).
      { intros E. rewrite E in Hin. exact Hin. }
      destruct (Hcons Hne) as [m' [Hm' [Hin' Hle']]].
      rewrite Hm'. f_equal. apply Qcle_antisym.
      * apply item_prices_In in Hin'. destruct Hin' as [o [item [Ho [Hi <-]]]].
        exact (Hle o item Ho Hi).
      * apply Hle'. exact Hin.
Qed.


(* ------------------------------------------------------------------ *)
(** ** Fusion & Ranker: what it leaves as it is *)

(** X8. When the Collaborative Scorer has nothing to offer, the Fusion &
    Ranker passes the Content Scorer's list on as it is: that list names
    no product twice, is in the order the fusion sorts by and has at most
    [N] items, so neither the deduplication, nor the sort, nor the cut
    changes it (product ids unique in the catalogue, [N > 0]). *)
Theorem fusion_keeps_content_alone (s : Store) (prefs : Preferences) (N : Z) (t : nat) :
  NoDup (map _id (products s)) ->
  (0 < N)%Z ->
  exists content,
    fst (getContentBasedRecommendations s prefs N t) = Returned content
    /\ NoDup (map rec_id content)
    /\ (Z.of_nat (length content) <= N)%Z
    /\ combineRecommendations [] content prefs N = content.
Proof.
  intros Hids HN.
  destruct (scorers_return s 0%N prefs N t) as [_ [content E]].
  exists content.
  destruct (@content_output_shape s prefs N t content Hids HN E) as [H1 [H2 H3]].
  split; [exact E|]. split; [exact H1|]. split; [exact H3|].
  apply combine_fixed; assumption.
Qed.

Lemma fusion_keeps_content_alone_witness :
  exists content,
    fst (getContentBasedRecommendations Sample.shop Sample.ann_prefs 3 0) = Returned content
    /\ NoDup (map rec_id content)
    /\ (Z.of_nat (length content) <= 3)%Z
    /\ combineRecommendations [] content Sample.ann_prefs 3 = content.
Proof.
  apply (@fusion_keeps_content_alone Sample.shop Sample.ann_prefs 3 0).
  - simpl. repeat (constructor; [simpl; intuition discriminate|]). constructor.
  - lia.
Defined.

(* ------------------------------------------------------------------ *)
(** ** The personalized route, end to end *)

Lemma collaborative_no_orders (s : Store) (uid : ObjectId) (N : Z) (t : nat) :
  paid_orders_of s uid = [] ->
  fst (getCollaborativeRecommendations s uid N t) = Returned [].
Proof.
  intros Hno.
  unfold getCollaborativeRecommendations, try_catch, collaborative_try, bind.
  destruct (rejects s t) eqn:R.
  - rewrite await_read_rejected by exact R. reflexivity.
  - rewrite await_read_ok by exact R. rewrite Hno. reflexivity.
Qed.

Lemma content_cold_value (s : Store) (prefs : Preferences) (N : Z) (t : nat) :
  rejects s t = false ->
  categories prefs = [] ->
  (0 < N)%Z ->
  fst (getContentBasedRecommendations s prefs N t)
  = Returned (map bare (firstn (Z.to_nat N)
                          (Mongo.sort_rating_sales
                             (filter (fun p => is_active (status p)) (products s))))).
Proof.
  intros Hread Hcat HN.
  unfold getContentBasedRecommendations, try_catch, content_try.
  rewrite Hcat. simpl. unfold bind. rewrite await_read_ok by exact Hread.
  unfold ret. simpl. rewrite mongo_limit_positive by exact HN. reflexivity.
Qed.

Lemma snapshot_no_signal (s : Store) (uid : ObjectId) (u : User ObjectId) :
  paid_orders_of s uid = [] ->
  PrefSpec.wished (populate_user s u) = [] ->
  PrefSpec.carted (populate_user s u) = [] ->
  snapshot s uid u
  = {| categories := []; brands := [];
       priceRange := {| PriceRange.avg := Js.num 0; PriceRange.max := Js.NegInfinity |};
       totalPurchases := Js.num 0 |}.
Proof.
  intros Hno Hw Hc. unfold snapshot. rewrite Hno. simpl map.
  destruct (tally_all_spec [] (populate_user s u)) as [Ec [Eb [Es En]]].
  unfold getUserPreferences. cbv zeta in *.
  rewrite Ec, Eb, En, Es.
  unfold PrefSpec.signals. rewrite Hw, Hc. reflexivity.
Qed.

(** X9. A user with an account and no paid order, no wishlist product and
    no cart product gets the popular list from the personalized route:
    the active products, best rating first and most sales first among
    equal ratings, cut to the limit, as bare documents without score;
    the preferences of the response are empty, the average price is [0]
    and the maximum price is [-Infinity] (healthy store, unique ids). *)
Theorem new_user_gets_popular (s : Store) (uid : ObjectId) (q : option Z) (t : nat)
  (u : User ObjectId) :
  healthy s ->
  NoDup (map _id (products s)) ->
  find_user s uid = Some u ->
  paid_orders_of s uid = [] ->
  PrefSpec.wished (populate_user s u) = [] ->
  PrefSpec.carted (populate_user s u) = [] ->
  (0 < parse_limit q 10)%Z ->
  exists ranked,
    fst (personalized s uid q t)
    = Returned (Json200 (map bare (firstn (Z.to_nat (parse_limit q 10)) ranked)) [] []
                  {| PriceRange.avg := Js.num 0; PriceRange.max := Js.NegInfinity |})
    /\ Permutation ranked (filter (fun p => is_active (status p)) (products s))
    /\ StronglySorted ContentSpec.popular_first ranked.
Proof.
  intros Hs Hids Hu Hno Hw Hc HN.
  exists (Mongo.sort_rating_sales (filter (fun p => is_active (status p)) (products s))).
  split; [|split; [apply sort_rating_sales_perm | apply sort_rating_sales_sorted]].
  destruct (@personalized_runs s uid q t u (Hs t) (Hs (S t)) Hu)
    as [collab [content [t1 [Ecol [_ [Econ [_ Ep]]]]]]].
  rewrite Ep. clear Ep.
  pose proof (collaborative_no_orders s uid (parse_limit q 10) (S (S t)) Hno) as E1.
  rewrite Ecol in E1. simpl in E1. inversion E1; subst collab. clear E1.
  pose proof (@content_output_shape s _ _ t1 content Hids HN Econ) as [H1 [H2 H3]].
  rewrite (@combine_fixed _ content _ _ H1 H2 H3).
  rewrite (snapshot_no_signal s uid u Hno Hw Hc) in *.
  rewrite content_cold_value in Econ by (try apply Hs; try reflexivity; exact HN).
  inversion Econ; subst content. reflexivity.
Qed.

Lemma new_user_gets_popular_witness :
  exists ranked,
    fst (personalized Sample.shop Sample.eve (Some 2%Z) 0)
    = Returned (Json200 (map bare (firstn (Z.to_nat (parse_limit (Some 2%Z) 10)) ranked))
                  [] []
                  {| PriceRange.avg := Js.num 0; PriceRange.max := Js.NegInfinity |})
    /\ Permutation ranked (filter (fun p => is_active (status p)) (products Sample.shop))
    /\ StronglySorted ContentSpec.popular_first ranked.
Proof.
  apply (@new_user_gets_popular Sample.shop Sample.eve (Some 2%Z) 0%nat
           {| user_id := Sample.eve; wishlist := None; cart := None |}).
  - intros t. reflexivity.
  - simpl. repeat (constructor; [simpl; intuition discriminate|]). constructor.
  - reflexivity.
  - reflexivity.
  - reflexivity.
  - reflexivity.
  - reflexivity.
Defined.

(** X10. The personalized route never throws, and what it answers tells
    what happened: a 200 exactly when its own two reads succeeded and
    the user document exists; a 500 with the store's error when one of
    these two reads was rejected; a 500 with a [TypeError] when both
    reads succeeded and no user document was found.  Nothing the two
    scorers do changes the status. *)
Theorem personalized_status (s : Store) (uid : ObjectId) (q : option Z) (t : nat) :
  match fst (personalized s uid q t) with
  | Returned (Json200 _ _ _ _) =>
      rejects s t = false /\ rejects s (S t) = false /\ find_user s uid <> None
  | Returned (Json500 e) =>
      (e = StoreError /\ (rejects s t = true \/ rejects s (S t) = true))
      \/ (e = TypeError /\ rejects s t = false /\ rejects s (S t) = false
          /\ find_user s uid = None)
  | Thrown _ => False
  end.
Proof.
  destruct (rejects s t) eqn:R0.
  { unfold personalized, try_catch, bind.
    rewrite await_read_rejected by exact R0. simpl. left. tauto. }
  destruct (rejects s (S t)) eqn:R1.
  { unfold personalized, try_catch, bind.
    rewrite await_read_ok by exact R0.
    rewrite await_read_rejected by exact R1. simpl. left. tauto. }
  destruct (find_user s uid) as [u|] eqn:Hu.
  - destruct (@personalized_runs s uid q t u R0 R1 Hu)
      as [collab [content [t1 [_ [_ [_ [_ Ep]]]]]]].
    rewrite Ep. repeat split; congruence.
  - unfold personalized, try_catch, bind.
    rewrite await_read_ok by exact R0.
    rewrite await_read_ok by exact R1.
    fold (find_user s uid). rewrite Hu. simpl. right. tauto.
Qed.

(* ================================================================== *)
(** * Properties of the users router *)

(* ------------------------------------------------------------------ *)
(** ** The users router *)

Ltac route_unfold :=
  unfold router, answered, post_cart, get_cart, put_cart, delete_cart_item, delete_cart,
    post_wishlist, delete_wishlist, post_address, put_address, delete_address,
    serve, the_user, and_then, reading, saving, clearing, lifting, respond, pure, raise
    in *.

Ltac route_split :=
  repeat (cbn [fst snd status_code];
          match goal with
          | |- context [match ?x with _ => _ end] =>
              lazymatch x with
              | context [match _ with _ => _ end] => fail
              | _ => destruct x eqn:?
              end
          end).

(** X11. A request that is answered with a 400 or a 404 has changed
    nothing: the stored data after it is the stored data before it. *)
Theorem client_error_changes_nothing (req : Request) (db : UserDb) (t : nat) :
  (fst (router req db t) = 400%Z \/ fst (router req db t) = 404%Z) ->
  snd (router req db t) = db.
Proof.
  destruct req; route_unfold; route_split; cbn [fst snd status_code];
    intros [H|H]; try discriminate H; reflexivity.
Qed.

Lemma client_error_changes_nothing_witness :
  snd (router (PostCart (Some 1%N) (Some 5%Z)) Till.db 0) = Till.db.
Proof.
  apply (@client_error_changes_nothing (PostCart (Some 1%N) (Some 5%Z)) Till.db 0%nat).
  left. vm_compute. reflexivity.
Defined.


(* ------------------------------------------------------------------ *)
(** ** The cart routes *)

Ltac route_done :=
  try discriminate;
  let H := fresh "H" in
  intros H; inversion H; subst; clear H.

(** What a 200 of POST /cart went through. *)
Lemma post_cart_json (pid : ObjectId) (q : Z) (db : UserDb) (t : nat)
  (payload : list (CartItem.t Stocked)) (db' : UserDb) :
  post_cart (Some pid) (Some q) db t = (Json payload, db') ->
  exists u sp cart',
    (1 <= q)%Z
    /\ findById pid db = Some sp
    /\ Js.gtb (Js.num q) (stock sp) = false
    /\ account db = Some u
    /\ ((exists line, find_line (Account.cart u) pid = Returned (Some line)
                      /\ Js.gtb (Js.num (CartItem.quantity line + q)) (stock sp) = false
                      /\ cart' = set_quantity (Account.cart u) pid
                                   (CartItem.quantity line + q)%Z)
        \/ (find_line (Account.cart u) pid = Returned None
            /\ cart' = Account.cart u ++ [{| CartItem.product := Some pid;
                                             CartItem.quantity := q |}]))
    /\ db' = saved db (with_cart u cart')
    /\ payload = populate_cart db' cart'.
Proof.
  route_unfold. route_split; route_done.
  all: match goal with Hq : (_ <? 1)%Z = false |- _ => apply Z.ltb_ge in Hq end.
  all: eexists _, _, _; split; [assumption|]; split; [reflexivity|];
    split; [eassumption|]; split; [reflexivity|]; split; [|split; reflexivity].
  - left. eexists. repeat split; eassumption.
  - right. split; [eassumption | reflexivity].
Qed.


Lemma quantity_of_find (cart : list (CartItem.t ObjectId)) (id : ObjectId) :
  CartSpec.quantity_of cart id
  = match find (holds_product id) cart with
    | Some line => CartItem.quantity line
    | None => 0%Z
    end.
Proof. reflexivity. Qed.

Lemma find_line_spec (cart : list (CartItem.t ObjectId)) (id : ObjectId)
  (found : option (CartItem.t ObjectId)) :
  find_line cart id = Returned found ->
  find (holds_product id) cart = found
  /\ (found = None -> CartSpec.well_formed cart
                      /\ ~ In (Some id) (CartSpec.products_of cart)).
Proof.
  induction cart as [|line cart IH]; simpl; intros H.
  - inversion H; subst. split; [reflexivity|]. intros _. split; [intros l []|tauto].
  - unfold holds_product at 1. destruct (CartItem.product line) as [p|] eqn:Ep;
      [|discriminate]. simpl.
    destruct (N.eqb p id) eqn:E.
    + inversion H; subst. split; [reflexivity | discriminate].
    + destruct (IH H) as [Hf Hn]. split; [exact Hf|].
      intros Hnone. destruct (Hn Hnone) as [Hwf Hnot]. split.
      * intros l [<-|Hl]; [congruence | apply Hwf; exact Hl].
      * intros [Heq|Hin]; [|contradiction].
        inversion Heq; subst. rewrite N.eqb_refl in E. discriminate.
Qed.

Lemma holds_product_other (id id' : ObjectId) (line : CartItem.t ObjectId) :
  holds_product id line = true -> id' <> id -> holds_product id' line = false.
Proof.
  unfold holds_product. intros H Hne. apply ref_eqb_eq in H. rewrite H. simpl.
  apply N.eqb_neq. congruence.
Qed.

(** [set_quantity] changes the quantity of one product and nothing else. *)
Lemma set_quantity_spec (cart : list (CartItem.t ObjectId)) (id : ObjectId) (q : Z) :
  CartSpec.products_of (set_quantity cart id q) = CartSpec.products_of cart
  /\ (forall id', id' <> id ->
        CartSpec.quantity_of (set_quantity cart id q) id' = CartSpec.quantity_of cart id')
  /\ (find (holds_product id) cart <> None ->
      CartSpec.quantity_of (set_quantity cart id q) id = q).
Proof.
  induction cart as [|line cart [IH1 [IH2 IH3]]]; simpl.
  - repeat split; try reflexivity. congruence.
  - fold (holds_product id line). destruct (holds_product id line) eqn:E.
    + split; [reflexivity|]. split.
      * intros id' Hne. rewrite !quantity_of_find. simpl.
        rewrite (holds_product_other _ E Hne).
        unfold holds_product at 1. simpl. fold (holds_product id' line).
        rewrite (holds_product_other _ E Hne). reflexivity.
      * intros _. rewrite quantity_of_find. simpl.
        unfold holds_product at 1. simpl. fold (holds_product id line).
        rewrite E. reflexivity.
    + split; [simpl; rewrite IH1; reflexivity|]. split.
      * intros id' Hne. rewrite !quantity_of_find. simpl.
        destruct (holds_product id' line); [reflexivity|].
        rewrite <- !quantity_of_find. apply IH2. exact Hne.
      * intros Hf. rewrite quantity_of_find. simpl. rewrite E.
        rewrite <- quantity_of_find. apply IH3. exact Hf.
Qed.

Lemma push_line_spec (cart : list (CartItem.t ObjectId)) (id : ObjectId) (q : Z) :
  find (holds_product id) cart = None ->
  CartSpec.quantity_of (cart ++ [{| CartItem.product := Some id; CartItem.quantity := q |}]) id
  = q
  /\ forall id', id' <> id ->
       CartSpec.quantity_of
         (cart ++ [{| CartItem.product := Some id; CartItem.quantity := q |}]) id'
       = CartSpec.quantity_of cart id'.
Proof.
  intros Hf. split.
  - rewrite quantity_of_find, find_app, Hf. simpl.
    unfold holds_product. simpl. rewrite N.eqb_refl. reflexivity.
  - intros id' Hne. rewrite !quantity_of_find, find_app.
    destruct (find (holds_product id') cart); [reflexivity|]. simpl.
    unfold holds_product. simpl.
    destruct (N.eqb id id') eqn:E; [apply N.eqb_eq in E; congruence | reflexivity].
Qed.

(** X12. A 200 of POST /cart for a product the cart did not hold: the
    product exists, the quantity is at least 1 and at most the stock,
    and the stored cart is the old one with one line for the product and
    this quantity at its end; every other product keeps its quantity, a
    cart with one line per product stays so, stock, wishlist and
    addresses are as before, and the reply is the stored cart,
    populated. *)
Theorem cart_add_new_product (pid : ObjectId) (q : Z) (db : UserDb) (t : nat)
  (payload : list (CartItem.t Stocked)) (db' : UserDb) :
  ~ In (Some pid) (CartSpec.products_of (CartSpec.cart_of db)) ->
  post_cart (Some pid) (Some q) db t = (Json payload, db') ->
  exists sp,
    findById pid db = Some sp
    /\ (1 <= q)%Z
    /\ (Js.num q <= stock sp)%Qc
    /\ CartSpec.cart_of db'
       = CartSpec.cart_of db ++ [{| CartItem.product := Some pid; CartItem.quantity := q |}]
    /\ CartSpec.quantity_of (CartSpec.cart_of db') pid = q
    /\ (forall id', id' <> pid ->
          CartSpec.quantity_of (CartSpec.cart_of db') id'
          = CartSpec.quantity_of (CartSpec.cart_of db) id')
    /\ (NoDup (CartSpec.products_of (CartSpec.cart_of db)) ->
        NoDup (CartSpec.products_of (CartSpec.cart_of db')))
    /\ inventory db' = inventory db
    /\ CartSpec.wishlist_of db' = CartSpec.wishlist_of db
    /\ CartSpec.addresses_of db' = CartSpec.addresses_of db
    /\ payload = populate_cart db' (CartSpec.cart_of db').
Proof.
  intros Hnot H. apply post_cart_json in H.
  destruct H as [u [sp [cart' [Hq [Hsp [Hstock [Hu [Hcase [Hdb Hpay]]]]]]]]].
  exists sp. subst db'.
  unfold CartSpec.cart_of, CartSpec.wishlist_of, CartSpec.addresses_of in *.
  rewrite Hu in *.
  cbn [saved account inventory with_cart Account.cart Account.wishlist
       Account.addresses] in *.
  split; [exact Hsp|]. split; [exact Hq|]. split; [apply gtb_le; exact Hstock|].
  destruct Hcase as [[line [Hl _]] | [Hl ->]].
  { destruct (@find_line_spec _ _ _ Hl) as [Hf _].
    apply find_some in Hf. destruct Hf as [Hin Hh]. apply ref_eqb_eq in Hh.
    exfalso. apply Hnot. rewrite <- Hh. unfold CartSpec.products_of.
    apply (in_map (fun l => CartItem.product l)). exact Hin. }
  destruct (@find_line_spec _ _ _ Hl) as [Hf _].
  destruct (@push_line_spec (Account.cart u) pid q Hf) as [P1 P2].
  split; [reflexivity|]. split; [exact P1|]. split; [exact P2|].
  split.
  { intros Hnd. unfold CartSpec.products_of. rewrite map_app. simpl.
    apply (Permutation_NoDup (l := Some pid :: map (fun l => CartItem.product l)
                                                (Account.cart u))).
    - apply Permutation_cons_append.
    - constructor; assumption. }
  repeat split; try reflexivity. exact Hpay.
Qed.

Lemma cart_add_new_product_witness :
  exists sp,
    findById 2%N Till.db = Some sp
    /\ (1 <= 1)%Z
    /\ (Js.num 1 <= stock sp)%Qc
    /\ CartSpec.cart_of Till.after_add
       = CartSpec.cart_of Till.db
         ++ [{| CartItem.product := Some 2%N; CartItem.quantity := 1 |}]
    /\ CartSpec.quantity_of (CartSpec.cart_of Till.after_add) 2%N = 1%Z
    /\ (forall id', id' <> 2%N ->
          CartSpec.quantity_of (CartSpec.cart_of Till.after_add) id'
          = CartSpec.quantity_of (CartSpec.cart_of Till.db) id')
    /\ (NoDup (CartSpec.products_of (CartSpec.cart_of Till.db)) ->
        NoDup (CartSpec.products_of (CartSpec.cart_of Till.after_add)))
    /\ inventory Till.after_add = inventory Till.db
    /\ CartSpec.wishlist_of Till.after_add = CartSpec.wishlist_of Till.db
    /\ CartSpec.addresses_of Till.after_add = CartSpec.addresses_of Till.db
    /\ populate_cart Till.after_add (CartSpec.cart_of Till.after_add)
       = populate_cart Till.after_add (CartSpec.cart_of Till.after_add).
Proof.
  apply (@cart_add_new_product 2%N 1%Z Till.db 0%nat
           (populate_cart Till.after_add (CartSpec.cart_of Till.after_add))
           Till.after_add).
  - simpl. intros [H|[]]. discriminate H.
  - vm_compute. reflexivity.
Defined.

Lemma put_cart_json (pid : ObjectId) (q : Z) (db : UserDb) (t : nat)
  (payload : list (CartItem.t Stocked)) (db' : UserDb) :
  put_cart pid (Some q) db t = (Json payload, db') ->
  exists u sp line,
    (1 <= q)%Z
    /\ findById pid db = Some sp
    /\ Js.gtb (Js.num q) (stock sp) = false
    /\ account db = Some u
    /\ find_line (Account.cart u) pid = Returned (Some line)
    /\ db' = saved db (with_cart u (set_quantity (Account.cart u) pid q))
    /\ payload = populate_cart db' (set_quantity (Account.cart u) pid q).
Proof.
  route_unfold. route_split; route_done.
  match goal with Hq : (_ <? 1)%Z = false |- _ => apply Z.ltb_ge in Hq end.
  eexists _, _, _; split; [assumption|]; split; [reflexivity|];
    split; [eassumption|]; split; [reflexivity|]; split; [eassumption|].
  split; reflexivity.
Qed.

(** X13. A 200 of PUT /cart/:productId: the cart had a line for the
    product, and the stored cart then holds exactly the quantity asked
    for, at least 1 and at most the stock; the lines are the same
    products in the same order and every other product keeps its
    quantity. *)
Theorem cart_update_sets_quantity (pid : ObjectId) (q : Z) (db : UserDb) (t : nat)
  (payload : list (CartItem.t Stocked)) (db' : UserDb) :
  put_cart pid (Some q) db t = (Json payload, db') ->
  exists sp,
    findById pid db = Some sp
    /\ In (Some pid) (CartSpec.products_of (CartSpec.cart_of db))
    /\ CartSpec.quantity_of (CartSpec.cart_of db') pid = q
    /\ (1 <= q)%Z
    /\ (Js.num q <= stock sp)%Qc
    /\ CartSpec.products_of (CartSpec.cart_of db') = CartSpec.products_of (CartSpec.cart_of db)
    /\ (forall id', id' <> pid ->
          CartSpec.quantity_of (CartSpec.cart_of db') id'
          = CartSpec.quantity_of (CartSpec.cart_of db) id')
    /\ payload = populate_cart db' (CartSpec.cart_of db').
Proof.
  intros H. apply put_cart_json in H.
  destruct H as [u [sp [line [Hq [Hsp [Hstock [Hu [Hl [Hdb Hpay]]]]]]]]].
  exists sp. subst db'. unfold CartSpec.cart_of. rewrite Hu.
  cbn [saved account inventory with_cart Account.cart] in *.
  destruct (@find_line_spec _ _ _ Hl) as [Hf _].
  destruct (set_quantity_spec (Account.cart u) pid q) as [S1 [S2 S3]].
  split; [exact Hsp|]. split.
  { apply find_some in Hf. destruct Hf as [Hin Hh]. apply ref_eqb_eq in Hh.
    rewrite <- Hh. unfold CartSpec.products_of.
    apply (in_map (fun l => CartItem.product l)). exact Hin. }
  split; [apply S3; rewrite Hf; discriminate|].
  split; [exact Hq|]. split; [apply gtb_le; exact Hstock|].
  split; [exact S1|]. split; [exact S2 | exact Hpay].
Qed.

Lemma cart_update_sets_quantity_witness :
  exists sp,
    findById 1%N Till.db = Some sp
    /\ In (Some 1%N) (CartSpec.products_of (CartSpec.cart_of Till.db))
    /\ CartSpec.quantity_of (CartSpec.cart_of Till.after_update) 1%N = 3%Z
    /\ (1 <= 3)%Z
    /\ (Js.num 3 <= stock sp)%Qc
    /\ CartSpec.products_of (CartSpec.cart_of Till.after_update)
       = CartSpec.products_of (CartSpec.cart_of Till.db)
    /\ (forall id', id' <> 1%N ->
          CartSpec.quantity_of (CartSpec.cart_of Till.after_update) id'
          = CartSpec.quantity_of (CartSpec.cart_of Till.db) id')
    /\ populate_cart Till.after_update (CartSpec.cart_of Till.after_update)
       = populate_cart Till.after_update (CartSpec.cart_of Till.after_update).
Proof.
  apply (@cart_update_sets_quantity 1%N 3%Z Till.db 0%nat
           (populate_cart Till.after_update (CartSpec.cart_of Till.after_update))
           Till.after_update).
  vm_compute. reflexivity.
Defined.

Lemma without_line_spec (cart kept : list (CartItem.t ObjectId)) (id : ObjectId) :
  without_line cart id = Returned kept ->
  kept = filter (fun line => negb (holds_product id line)) cart
  /\ CartSpec.well_formed cart.
Proof.
  revert kept; induction cart as [|line cart IH]; simpl; intros kept H.
  - inversion H; subst. split; [reflexivity | intros l []].
  - unfold holds_product at 1. destruct (CartItem.product line) as [p|] eqn:Ep;
      [|discriminate].
    destruct (without_line cart id) as [kept0|e]; [|discriminate].
    destruct (IH kept0 eq_refl) as [Hk Hwf]. simpl. inversion H; subst; clear H.
    split.
    + destruct (N.eqb p id); reflexivity.
    + intros l [<-|Hl]; [congruence | apply Hwf; exact Hl].
Qed.

Lemma without_line_total (cart : list (CartItem.t ObjectId)) (id : ObjectId) :
  CartSpec.well_formed cart ->
  without_line cart id = Returned (filter (fun line => negb (holds_product id line)) cart).
Proof.
  induction cart as [|line cart IH]; simpl; intros Hwf; [reflexivity|].
  unfold holds_product at 1.
  destruct (CartItem.product line) as [p|] eqn:Ep;
    [|exfalso; exact (Hwf line (or_introl eq_refl) Ep)].
  rewrite IH by (intros l Hl; apply Hwf; right; exact Hl). simpl.
  destruct (N.eqb p id); reflexivity.
Qed.

Lemma delete_cart_item_json (pid : ObjectId) (db : UserDb) (t : nat)
  (payload : list (CartItem.t Stocked)) (db' : UserDb) :
  delete_cart_item pid db t = (Json payload, db') ->
  exists u kept,
    account db = Some u
    /\ without_line (Account.cart u) pid = Returned kept
    /\ db' = saved db (with_cart u kept)
    /\ payload = populate_cart db' kept.
Proof.
  route_unfold. route_split; route_done.
  eexists _, _; split; [reflexivity|]; split; [eassumption|]; split; reflexivity.
Qed.

Lemma quantity_of_filter (cart : list (CartItem.t ObjectId)) (id id' : ObjectId) :
  CartSpec.quantity_of (filter (fun line => negb (holds_product id line)) cart) id'
  = if N.eqb id' id then 0%Z else CartSpec.quantity_of cart id'.
Proof.
  rewrite !quantity_of_find.
  induction cart as [|line cart IH]; simpl; [destruct (N.eqb id' id); reflexivity|].
  destruct (holds_product id line) eqn:E; simpl.
  - rewrite IH. destruct (N.eqb id' id) eqn:En; [reflexivity|].
    apply N.eqb_neq in En. rewrite (@holds_product_other id id' line E En). reflexivity.
  - destruct (holds_product id' line) eqn:E'; [|exact IH].
    destruct (N.eqb id' id) eqn:En; [|reflexivity].
    apply N.eqb_eq in En. subst id'. congruence.
Qed.

(** X14. A 200 of DELETE /cart/:productId: the stored cart is the old one
    without the lines of the product, in the old order; it holds nothing
    of the product any more and every other product keeps its quantity;
    each line of the old cart had a product reference. *)
Theorem cart_remove_drops_product (pid : ObjectId) (db : UserDb) (t : nat)
  (payload : list (CartItem.t Stocked)) (db' : UserDb) :
  delete_cart_item pid db t = (Json payload, db') ->
  CartSpec.cart_of db'
  = filter (fun line => negb (ref_eqb (CartItem.product line) (Some pid)))
      (CartSpec.cart_of db)
  /\ ~ In (Some pid) (CartSpec.products_of (CartSpec.cart_of db'))
  /\ CartSpec.quantity_of (CartSpec.cart_of db') pid = 0%Z
  /\ (forall id', id' <> pid ->
        CartSpec.quantity_of (CartSpec.cart_of db') id'
        = CartSpec.quantity_of (CartSpec.cart_of db) id')
  /\ CartSpec.well_formed (CartSpec.cart_of db)
  /\ payload = populate_cart db' (CartSpec.cart_of db').
Proof.
  intros H. apply delete_cart_item_json in H.
  destruct H as [u [kept [Hu [Hk [Hdb Hpay]]]]].
  subst db'. unfold CartSpec.cart_of. rewrite Hu.
  cbn [saved account inventory with_cart Account.cart] in *.
  apply without_line_spec in Hk. destruct Hk as [-> Hwf].
  split; [reflexivity|]. split.
  { unfold CartSpec.products_of. intros Hin. apply in_map_iff in Hin.
    destruct Hin as [l [El Hl]]. apply filter_In in Hl. destruct Hl as [_ Hl].
    unfold holds_product in Hl. rewrite El in Hl. simpl in Hl.
    rewrite N.eqb_refl in Hl. discriminate. }
  split; [rewrite quantity_of_filter, N.eqb_refl; reflexivity|].
  split; [|split; [exact Hwf | exact Hpay]].
  intros id' Hne. rewrite quantity_of_filter.
  destruct (N.eqb id' pid) eqn:E; [apply N.eqb_eq in E; contradiction | reflexivity].
Qed.

Lemma cart_remove_drops_product_witness :
  CartSpec.cart_of Till.after_remove
  = filter (fun line => negb (ref_eqb (CartItem.product line) (Some 1%N)))
      (CartSpec.cart_of Till.db)
  /\ ~ In (Some 1%N) (CartSpec.products_of (CartSpec.cart_of Till.after_remove))
  /\ CartSpec.quantity_of (CartSpec.cart_of Till.after_remove) 1%N = 0%Z
  /\ (forall id', id' <> 1%N ->
        CartSpec.quantity_of (CartSpec.cart_of Till.after_remove) id'
        = CartSpec.quantity_of (CartSpec.cart_of Till.db) id')
  /\ CartSpec.well_formed (CartSpec.cart_of Till.db)
  /\ populate_cart Till.after_remove (CartSpec.cart_of Till.after_remove)
     = populate_cart Till.after_remove (CartSpec.cart_of Till.after_remove).
Proof.
  apply (@cart_remove_drops_product 1%N Till.db 0%nat
           (populate_cart Till.after_remove (CartSpec.cart_of Till.after_remove))
           Till.after_remove).
  vm_compute. reflexivity.
Defined.

Lemma saved_same (db : UserDb) (u : Account.t) :
  account db = Some u -> saved db (with_cart u (Account.cart u)) = db.
Proof.
  intros H. destruct db as [inv acc rf]. simpl in H. subst acc.
  destruct u. reflexivity.
Qed.

Lemma filter_fixed {A} (keep : A -> bool) (l : list A) :
  (forall x, In x l -> keep x = true) -> filter keep l = l.
Proof.
  induction l as [|x l IH]; simpl; intros H; [reflexivity|].
  rewrite (H x) by (left; reflexivity). f_equal. apply IH.
  intros y Hy. apply H. right. exact Hy.
Qed.

(** One step of a handler on a store that accepts the operation. *)
Lemma run_reading {P A B} (answer : UserDb -> A) (k : A -> Route P B) (db : UserDb)
  (t : nat) :
  refuses db t = false -> and_then (reading answer) k db t = k (answer db) db (S t).
Proof. intros H. unfold and_then, reading. rewrite H. reflexivity. Qed.

Lemma run_saving {P B} (u : Account.t) (k : unit -> Route P B) (db : UserDb) (t : nat) :
  refuses db t = false -> and_then (saving u) k db t = k tt (saved db u) (S t).
Proof. intros H. unfold and_then, saving. rewrite H. reflexivity. Qed.

Lemma run_the_user {P B} (u : Account.t) (k : Account.t -> Route P B) (db : UserDb)
  (t : nat) :
  refuses db t = false -> account db = Some u ->
  and_then the_user k db t = k u db (S t).
Proof.
  intros H Hu. unfold the_user, and_then, reading. rewrite H, Hu. reflexivity.
Qed.

Lemma run_lifting {P A B} (a : A) (k : A -> Route P B) (db : UserDb) (t : nat) :
  and_then (lifting (Returned a)) k db t = k a db t.
Proof. reflexivity. Qed.

(** X15. Putting a product into a cart that did not hold it and removing
    it again gives back the user document as it was: on a store that
    answers, the DELETE after a 200 of the POST replies 200 and leaves
    the stored data equal to that before the POST. *)
Theorem cart_add_then_remove (pid : ObjectId) (q : Z) (db : UserDb) (t t' : nat)
  (payload : list (CartItem.t Stocked)) (db1 : UserDb) :
  CartSpec.answers db ->
  ~ In (Some pid) (CartSpec.products_of (CartSpec.cart_of db)) ->
  post_cart (Some pid) (Some q) db t = (Json payload, db1) ->
  exists payload',
    delete_cart_item pid db1 t' = (Json payload', db)
    /\ payload' = populate_cart db (CartSpec.cart_of db).
Proof.
  intros Hans Hnot H. apply post_cart_json in H.
  destruct H as [u [sp [cart' [Hq [Hsp [Hstock [Hu [Hcase [Hdb Hpay]]]]]]]]].
  unfold CartSpec.cart_of in *. rewrite Hu in *.
  destruct Hcase as [[line [Hl _]] | [Hl ->]].
  { destruct (@find_line_spec _ _ _ Hl) as [Hf _].
    apply find_some in Hf. destruct Hf as [Hin Hh]. apply ref_eqb_eq in Hh.
    exfalso. apply Hnot. rewrite <- Hh. unfold CartSpec.products_of.
    apply (in_map (fun l => CartItem.product l)). exact Hin. }
  destruct (@find_line_spec _ _ _ Hl) as [Hf Hn]. destruct (Hn eq_refl) as [Hwf _].
  assert (Hkept : without_line
                    (Account.cart u ++ [{| CartItem.product := Some pid;
                                           CartItem.quantity := q |}]) pid
                  = Returned (Account.cart u)).
  { rewrite without_line_total.
    - rewrite filter_app. simpl. unfold holds_product at 2. simpl.
      rewrite N.eqb_refl. simpl. rewrite app_nil_r. f_equal.
      apply filter_fixed. intros l Hl'.
      destruct (holds_product pid l) eqn:E; [|reflexivity].
      exfalso. apply Hnot. apply ref_eqb_eq in E. rewrite <- E.
      unfold CartSpec.products_of. apply (in_map (fun l => CartItem.product l)). exact Hl'.
    - intros l Hl'. apply in_app_or in Hl'. destruct Hl' as [Hl'|[<-|[]]];
        [apply Hwf; exact Hl' | discriminate]. }
  subst db1. exists (populate_cart db (Account.cart u)). split; [|reflexivity].
  unfold delete_cart_item, serve.
  rewrite (@run_the_user _ _ (with_cart u (Account.cart u
             ++ [{| CartItem.product := Some pid; CartItem.quantity := q |}])))
    by (try apply Hans; reflexivity).
  cbn [with_cart Account.cart]. rewrite Hkept, run_lifting.
  rewrite run_saving by apply Hans.
  rewrite run_reading by apply Hans.
  unfold pure, saved, with_cart.
  cbn [inventory refuses account Account.cart Account.wishlist Account.addresses].
  pose proof (saved_same db Hu) as E. unfold saved, with_cart in E. rewrite E.
  reflexivity.
Qed.

Lemma cart_add_then_remove_witness :
  exists payload',
    delete_cart_item 2%N (snd (post_cart (Some 2%N) (Some 1%Z) Till.db 0)) 4 = (Json payload', Till.db)
    /\ payload' = populate_cart Till.db (CartSpec.cart_of Till.db).
Proof.
  apply (@cart_add_then_remove 2%N 1%Z Till.db 0%nat 4%nat
           (populate_cart Till.db
              (CartSpec.cart_of (snd (post_cart (Some 2%N) (Some 1%Z) Till.db 0))))
           (snd (post_cart (Some 2%N) (Some 1%Z) Till.db 0))).
  - intros t. reflexivity.
  - simpl. intros [H|[]]. discriminate H.
  - vm_compute. reflexivity.
Defined.

(* ------------------------------------------------------------------ *)
(** ** The cart summary *)

Lemma cart_items_cons (line : CartItem.t Stocked) (cart : list (CartItem.t Stocked)) :
  cart_items (line :: cart) = (CartItem.quantity line + cart_items cart)%Z.
Proof.
  unfold cart_items. simpl.
  assert (G : forall l acc,
             fold_left (fun total ln => (total + CartItem.quantity ln)%Z) l acc
             = (acc + fold_left (fun total (ln : CartItem.t Stocked) =>
                                   (total + CartItem.quantity ln)%Z) l 0)%Z).
  { induction l as [|x l IH]; intros acc; simpl; [lia|].
    rewrite IH. rewrite (IH (CartItem.quantity x)). lia. }
  rewrite G. lia.
Qed.

Lemma get_cart_runs (db : UserDb) (t : nat) (u : Account.t) :
  refuses db t = false -> account db = Some u ->
  get_cart db t
  = (Json (populate_cart db (Account.cart u),
           {| CartSummary.totalItems := cart_items (populate_cart db (Account.cart u));
              CartSummary.subtotal := cart_total (populate_cart db (Account.cart u));
              CartSummary.itemCount := length (populate_cart db (Account.cart u)) |}),
     db).
Proof.
  intros R Hu. unfold get_cart, serve. rewrite run_reading by exact R.
  rewrite Hu. reflexivity.
Qed.

Lemma cart_items_app (c1 c2 : list (CartItem.t Stocked)) :
  cart_items (c1 ++ c2) = (cart_items c1 + cart_items c2)%Z.
Proof.
  induction c1 as [|x c1 IH]; [unfold cart_items at 2; simpl; lia|].
  change ((x :: c1) ++ c2) with (x :: c1 ++ c2).
  rewrite !cart_items_cons, IH. lia.
Qed.

(** X16. GET /cart leaves the stored data alone, and its summary follows
    the cart: on a store that answers, after a 200 of POST /cart for [q]
    units of a product the cart did not hold, GET /cart replies with the
    cart the POST replied with, which is the cart GET /cart replied with
    before and one more line; [totalItems] has grown by [q] and
    [itemCount] by one. *)
Theorem cart_summary_after_add (pid : ObjectId) (q : Z) (db db1 : UserDb)
  (t t0 t1 : nat) (payload : list (CartItem.t Stocked)) :
  CartSpec.answers db ->
  ~ In (Some pid) (CartSpec.products_of (CartSpec.cart_of db)) ->
  post_cart (Some pid) (Some q) db t = (Json payload, db1) ->
  exists sp c0 s0 s1,
    findById pid db = Some sp
    /\ get_cart db t0 = (Json (c0, s0), db)
    /\ get_cart db1 t1 = (Json (payload, s1), db1)
    /\ payload = c0 ++ [{| CartItem.product := Some sp; CartItem.quantity := q |}]
    /\ CartSummary.totalItems s1 = (CartSummary.totalItems s0 + q)%Z
    /\ CartSummary.itemCount s1 = S (CartSummary.itemCount s0).
Proof.
  intros Hans Hnot Hadd. apply post_cart_json in Hadd.
  destruct Hadd as [u [sp [cart' [Hq [Hsp [Hstock [Hu [Hcase [Hdb Hpay]]]]]]]]].
  assert (Hpop : forall c, populate_cart db1 c = populate_cart db c)
    by (intros c; subst db1; reflexivity).
  assert (Hu1 : account db1 = Some (with_cart u cart')) by (subst db1; reflexivity).
  assert (Hans1 : refuses db1 t1 = false) by (subst db1; apply Hans).
  destruct Hcase as [[line [Hl _]] | [Hl ->]].
  { destruct (@find_line_spec _ _ _ Hl) as [Hf _].
    apply find_some in Hf. destruct Hf as [Hin Hh]. apply ref_eqb_eq in Hh.
    exfalso. apply Hnot. unfold CartSpec.cart_of. rewrite Hu, <- Hh.
    unfold CartSpec.products_of. apply (in_map (fun l => CartItem.product l)). exact Hin. }
  assert (Hnew : populate_cart db (Account.cart u
                                   ++ [{| CartItem.product := Some pid;
                                          CartItem.quantity := q |}])
                 = populate_cart db (Account.cart u)
                   ++ [{| CartItem.product := Some sp; CartItem.quantity := q |}]).
  { unfold populate_cart. rewrite map_app. simpl. rewrite Hsp. reflexivity. }
  exists sp. eexists _, _, _. split; [exact Hsp|].
  split; [apply (get_cart_runs db t0 (Hans t0) Hu)|].
  split.
  { rewrite (get_cart_runs db1 t1 Hans1 Hu1). cbn [with_cart Account.cart].
    rewrite Hpay. reflexivity. }
  cbn [CartSummary.totalItems CartSummary.itemCount with_cart Account.cart].
  rewrite Hpay, !Hpop, Hnew. split; [reflexivity|].
  rewrite cart_items_app, length_app. split; [|simpl; lia].
  rewrite (cart_items_cons _ []). change (cart_items []) with 0%Z. simpl. lia.
Qed.

Lemma cart_summary_after_add_witness :
  exists sp c0 s0 s1,
    findById 2%N Till.db = Some sp
    /\ get_cart Till.db 7 = (Json (c0, s0), Till.db)
    /\ get_cart Till.after_add 9
       = (Json (populate_cart Till.after_add (CartSpec.cart_of Till.after_add), s1),
          Till.after_add)
    /\ populate_cart Till.after_add (CartSpec.cart_of Till.after_add)
       = c0 ++ [{| CartItem.product := Some sp; CartItem.quantity := 1 |}]
    /\ CartSummary.totalItems s1 = (CartSummary.totalItems s0 + 1)%Z
    /\ CartSummary.itemCount s1 = S (CartSummary.itemCount s0).
Proof.
  apply (@cart_summary_after_add 2%N 1%Z Till.db Till.after_add 0%nat 7%nat 9%nat
           (populate_cart Till.after_add (CartSpec.cart_of Till.after_add))).
  - intros t. reflexivity.
  - simpl. intros [H|[]]. discriminate H.
  - vm_compute. reflexivity.
Defined.

(* ------------------------------------------------------------------ *)
(** ** The wishlist routes *)

Lemma post_wishlist_json (pid : ObjectId) (db : UserDb) (t : nat)
  (payload : list Stocked) (db' : UserDb) :
  post_wishlist pid db t = (Json payload, db') ->
  exists u sp,
    findById pid db = Some sp
    /\ account db = Some u
    /\ mem pid (Account.wishlist u) = false
    /\ db' = saved db (with_wishlist u (Account.wishlist u ++ [pid]))
    /\ payload = populate_wishlist db' (Account.wishlist u ++ [pid]).
Proof.
  route_unfold. route_split; route_done.
  eexists _, _; split; [reflexivity|]; split; [reflexivity|]; split; [eassumption|].
  split; reflexivity.
Qed.

Lemma delete_wishlist_json (pid : ObjectId) (db : UserDb) (t : nat)
  (payload : list Stocked) (db' : UserDb) :
  delete_wishlist pid db t = (Json payload, db') ->
  exists u,
    account db = Some u
    /\ db' = saved db (with_wishlist u (filter (fun id => negb (N.eqb id pid))
                                          (Account.wishlist u)))
    /\ payload = populate_wishlist db' (filter (fun id => negb (N.eqb id pid))
                                          (Account.wishlist u)).
Proof.
  route_unfold. route_split; route_done.
  eexists; split; [reflexivity|]; split; reflexivity.
Qed.

Lemma saved_same_wishlist (db : UserDb) (u : Account.t) :
  account db = Some u -> saved db (with_wishlist u (Account.wishlist u)) = db.
Proof.
  intros H. destruct db as [inv acc rf]. simpl in H. subst acc.
  destruct u. reflexivity.
Qed.

Lemma filter_out_last (l : list ObjectId) (id : ObjectId) :
  ~ In id l -> filter (fun x => negb (N.eqb x id)) (l ++ [id]) = l.
Proof.
  intros Hn. rewrite filter_app. simpl. rewrite N.eqb_refl. simpl. rewrite app_nil_r.
  apply filter_fixed. intros x Hx.
  destruct (N.eqb x id) eqn:E; [apply N.eqb_eq in E; subst; contradiction | reflexivity].
Qed.

(** X17. A 200 of POST /wishlist/:productId: the product exists and was
    not on the wishlist, and is now its last element; a wishlist without
    duplicates stays so.  On a store that answers, posting the product
    again replies 400 and changes nothing, and the DELETE of the product
    replies 200 and gives back the user document as it was before the
    POST. *)
Theorem wishlist_add_then_remove (pid : ObjectId) (db db1 : UserDb) (t t' : nat)
  (payload : list Stocked) :
  CartSpec.answers db ->
  post_wishlist pid db t = (Json payload, db1) ->
  findById pid db <> None
  /\ ~ In pid (CartSpec.wishlist_of db)
  /\ CartSpec.wishlist_of db1 = CartSpec.wishlist_of db ++ [pid]
  /\ (NoDup (CartSpec.wishlist_of db) -> NoDup (CartSpec.wishlist_of db1))
  /\ post_wishlist pid db1 t' = (BadRequest "Product already in wishlist", db1)
  /\ exists payload',
       delete_wishlist pid db1 t' = (Json payload', db)
       /\ payload' = populate_wishlist db (CartSpec.wishlist_of db).
Proof.
  intros Hans H. apply post_wishlist_json in H.
  destruct H as [u [sp [Hsp [Hu [Hmem [Hdb Hpay]]]]]].
  assert (Hnot : ~ In pid (Account.wishlist u)).
  { intros Hin. apply mem_In in Hin. congruence. }
  unfold CartSpec.wishlist_of. rewrite Hu. subst db1.
  cbn [saved account with_wishlist Account.wishlist].
  split; [congruence|]. split; [exact Hnot|]. split; [reflexivity|]. split.
  { intros Hnd. apply (Permutation_NoDup (l := pid :: Account.wishlist u)).
    - apply Permutation_cons_append.
    - constructor; assumption. }
  split.
  - unfold post_wishlist, serve.
    rewrite run_reading by apply Hans.
    change (findById pid (saved db ?x)) with (findById pid db). rewrite Hsp.
    rewrite (@run_the_user _ _ (with_wishlist u (Account.wishlist u ++ [pid])))
      by (try apply Hans; reflexivity).
    cbn [with_wishlist Account.wishlist].
    assert (E : mem pid (Account.wishlist u ++ [pid]) = true)
      by (apply mem_In; apply in_or_app; right; left; reflexivity).
    rewrite E. reflexivity.
  - exists (populate_wishlist db (Account.wishlist u)). split; [|reflexivity].
    unfold delete_wishlist, serve.
    rewrite (@run_the_user _ _ (with_wishlist u (Account.wishlist u ++ [pid])))
      by (try apply Hans; reflexivity).
    cbn [with_wishlist Account.wishlist]. cbv zeta.
    rewrite (@filter_out_last _ pid Hnot).
    rewrite run_saving by apply Hans.
    rewrite run_reading by apply Hans.
    unfold pure, saved, with_wishlist.
    cbn [inventory refuses account Account.cart Account.wishlist Account.addresses].
    pose proof (saved_same_wishlist db Hu) as E. unfold saved, with_wishlist in E.
    rewrite E. reflexivity.
Qed.

Lemma wishlist_add_then_remove_witness :
  findById 1%N Till.db <> None
  /\ ~ In 1%N (CartSpec.wishlist_of Till.db)
  /\ CartSpec.wishlist_of Till.after_wish = CartSpec.wishlist_of Till.db ++ [1%N]
  /\ (NoDup (CartSpec.wishlist_of Till.db) -> NoDup (CartSpec.wishlist_of Till.after_wish))
  /\ post_wishlist 1%N Till.after_wish 5
     = (BadRequest "Product already in wishlist", Till.after_wish)
  /\ exists payload',
       delete_wishlist 1%N Till.after_wish 5 = (Json payload', Till.db)
       /\ payload' = populate_wishlist Till.db (CartSpec.wishlist_of Till.db).
Proof.
  apply (@wishlist_add_then_remove 1%N Till.db Till.after_wish 0%nat 5%nat
           (populate_wishlist Till.db (CartSpec.wishlist_of Till.after_wish))).
  - intros t. reflexivity.
  - vm_compute. reflexivity.
Defined.

(** X18. A 200 of DELETE /wishlist/:productId: the stored wishlist is the
    old one without the product, in the old order, whether or not the
    product was on it; a second DELETE of the same product on a store
    that answers replies 200 and changes nothing more. *)
Theorem wishlist_remove_idempotent (pid : ObjectId) (db db1 : UserDb) (t t' : nat)
  (payload : list Stocked) :
  CartSpec.answers db ->
  delete_wishlist pid db t = (Json payload, db1) ->
  CartSpec.wishlist_of db1
  = filter (fun id => negb (N.eqb id pid)) (CartSpec.wishlist_of db)
  /\ ~ In pid (CartSpec.wishlist_of db1)
  /\ (forall id, id <> pid ->
        (In id (CartSpec.wishlist_of db1) <-> In id (CartSpec.wishlist_of db)))
  /\ CartSpec.cart_of db1 = CartSpec.cart_of db
  /\ delete_wishlist pid db1 t' = (Json payload, db1).
Proof.
  intros Hans H. apply delete_wishlist_json in H.
  destruct H as [u [Hu [Hdb Hpay]]].
  unfold CartSpec.wishlist_of, CartSpec.cart_of. rewrite Hu. subst db1.
  cbn [saved account with_wishlist Account.wishlist Account.cart].
  set (kept := filter (fun id => negb (N.eqb id pid)) (Account.wishlist u)) in *.
  assert (Hin : forall id, In id kept <-> In id (Account.wishlist u) /\ id <> pid).
  { intros id. unfold kept. rewrite filter_In, negb_true_iff, N.eqb_neq. tauto. }
  split; [reflexivity|]. split; [intros Hp; apply Hin in Hp; tauto|].
  split; [intros id Hne; rewrite Hin; tauto|]. split; [reflexivity|].
  unfold delete_wishlist, serve.
  rewrite (@run_the_user _ _ (with_wishlist u kept)) by (try apply Hans; reflexivity).
  cbn [with_wishlist Account.wishlist]. cbv zeta.
  assert (E : filter (fun id => negb (N.eqb id pid)) kept = kept).
  { apply filter_fixed. intros x Hx. apply Hin in Hx.
    apply negb_true_iff, N.eqb_neq. tauto. }
  rewrite E.
  rewrite run_saving by apply Hans.
  rewrite run_reading by apply Hans.
  unfold pure. cbn [fst snd]. subst payload. reflexivity.
Qed.

Lemma wishlist_remove_idempotent_witness :
  CartSpec.wishlist_of Till.after_unwish
  = filter (fun id => negb (N.eqb id 2%N)) (CartSpec.wishlist_of Till.db)
  /\ ~ In 2%N (CartSpec.wishlist_of Till.after_unwish)
  /\ (forall id, id <> 2%N ->
        (In id (CartSpec.wishlist_of Till.after_unwish)
         <-> In id (CartSpec.wishlist_of Till.db)))
  /\ CartSpec.cart_of Till.after_unwish = CartSpec.cart_of Till.db
  /\ delete_wishlist 2%N Till.after_unwish 6
     = (Json (populate_wishlist Till.db (CartSpec.wishlist_of Till.after_unwish)),
        Till.after_unwish).
Proof.
  apply (@wishlist_remove_idempotent 2%N Till.db Till.after_unwish 0%nat 6%nat
           (populate_wishlist Till.db (CartSpec.wishlist_of Till.after_unwish))).
  - intros t. reflexivity.
  - vm_compute. reflexivity.
Defined.

(* ------------------------------------------------------------------ *)
(** ** The address routes: the default address *)

Lemma defaults_app (l1 l2 : list Address.t) :
  CartSpec.defaults (l1 ++ l2) = (CartSpec.defaults l1 + CartSpec.defaults l2)%nat.
Proof. unfold CartSpec.defaults. rewrite filter_app, length_app. reflexivity. Qed.

Lemma defaults_clear (l : list Address.t) : CartSpec.defaults (clear_default l) = 0%nat.
Proof. unfold CartSpec.defaults. induction l as [|a l IH]; simpl; [reflexivity | exact IH]. Qed.

Lemma defaults_filter (keep : Address.t -> bool) (l : list Address.t) :
  (CartSpec.defaults (filter keep l) <= CartSpec.defaults l)%nat.
Proof.
  unfold CartSpec.defaults. induction l as [|a l IH]; simpl; [lia|].
  destruct (keep a); simpl; destruct (Address.isDefault a); simpl; lia.
Qed.

(** Taking the addresses with one [_id] out of a list. *)
Lemma defaults_pulled (l : list Address.t) (id : ObjectId) (a : Address.t) :
  address_by_id l id = Some a ->
  (CartSpec.defaults (filter (fun x => negb (N.eqb (Address._id x) id)) l)
   + (if Address.isDefault a then 1 else 0) <= CartSpec.defaults l)%nat
  /\ (NoDup (map Address._id l) ->
      (CartSpec.defaults (filter (fun x => negb (N.eqb (Address._id x) id)) l)
       + (if Address.isDefault a then 1 else 0) = CartSpec.defaults l)%nat).
Proof.
  unfold address_by_id, CartSpec.defaults.
  induction l as [|x l IH]; simpl; [discriminate|].
  destruct (N.eqb (Address._id x) id) eqn:E; simpl.
  - intros Hx. inversion Hx; subst x. clear Hx. split.
    + pose proof (defaults_filter (fun x => negb (N.eqb (Address._id x) id)) l) as G.
      unfold CartSpec.defaults in G. destruct (Address.isDefault a); simpl; lia.
    + intros Hnd. inversion Hnd as [|? ? Hnot Hrest]; subst.
      rewrite (@filter_fixed _ (fun x => negb (N.eqb (Address._id x) id)) l).
      * destruct (Address.isDefault a); simpl; lia.
      * intros y Hy. apply negb_true_iff, N.eqb_neq. intros Ey.
        apply Hnot. apply N.eqb_eq in E. rewrite E, <- Ey. apply in_map. exact Hy.
  - intros Hf. destruct (IH Hf) as [I1 I2]. split.
    + destruct (Address.isDefault x); simpl; lia.
    + intros Hnd. inversion Hnd as [|? ? _ Hrest]; subst. specialize (I2 Hrest).
      destruct (Address.isDefault x); simpl; lia.
Qed.

Lemma defaults_default_first (l : list Address.t) :
  CartSpec.defaults l = 0%nat -> l <> [] -> CartSpec.defaults (default_first l) = 1%nat.
Proof.
  unfold CartSpec.defaults. destruct l as [|a l]; [congruence|]. simpl.
  destruct (Address.isDefault a); simpl; [discriminate|]. intros -> _. reflexivity.
Qed.

(** [Object.assign] on the element with the given [_id]. *)
Lemma defaults_assign_at (l : list Address.t) (id : ObjectId) (body : AddressBody.t)
  (a : Address.t) :
  address_by_id l id = Some a ->
  (CartSpec.defaults (assign_at l id body)
   + (if Address.isDefault a then 1 else 0)
   = CartSpec.defaults l
     + (if match AddressBody.isDefault body with
           | Some b => b
           | None => Address.isDefault a
           end then 1 else 0))%nat
  /\ length (assign_at l id body) = length l.
Proof.
  unfold address_by_id, CartSpec.defaults.
  induction l as [|x l IH]; simpl; [discriminate|].
  destruct (N.eqb (Address._id x) id) eqn:E; simpl.
  - intros Hx. inversion Hx; subst x. clear Hx. split; [|reflexivity].
    destruct (AddressBody.isDefault body) as [[|]|], (Address.isDefault a); simpl; lia.
  - intros Hf. destruct (IH Hf) as [I1 I2]. split; [|rewrite I2; reflexivity].
    destruct (Address.isDefault x); simpl; lia.
Qed.

Lemma clear_default_found (l : list Address.t) (id : ObjectId) (a : Address.t) :
  address_by_id l id = Some a ->
  exists a', address_by_id (clear_default l) id = Some a' /\ Address.isDefault a' = false.
Proof.
  unfold address_by_id. induction l as [|x l IH]; simpl; [discriminate|].
  destruct (N.eqb (Address._id x) id) eqn:E; [|exact IH].
  intros _. eexists. split; reflexivity.
Qed.

Lemma post_address_effect (fresh : ObjectId) (body : AddressBody.t) (db : UserDb)
  (t : nat) :
  snd (post_address fresh body db t) = db
  \/ exists u flag,
       account db = Some u
       /\ flag = (truthy (AddressBody.isDefault body)
                  || (length (Account.addresses u) =? 0)%nat)
       /\ snd (post_address fresh body db t)
          = saved db (with_addresses u
                        ((if flag then clear_default (Account.addresses u)
                          else Account.addresses u)
                         ++ [{| Address._id := fresh;
                                Address.fields := AddressBody.fields body;
                                Address.isDefault := flag |}])).
Proof.
  route_unfold. route_split; cbn [fst snd]; try (left; reflexivity).
  all: right; eexists _, _; split; [reflexivity|]; split; [reflexivity|];
    match goal with H : _ || _ = _ |- _ => rewrite H end; reflexivity.
Qed.

Lemma put_address_effect (id : ObjectId) (body : AddressBody.t) (db : UserDb) (t : nat) :
  snd (put_address id body db t) = db
  \/ exists u a,
       account db = Some u
       /\ address_by_id (Account.addresses u) id = Some a
       /\ snd (put_address id body db t)
          = saved db (with_addresses u
                        (assign_at (if truthy (AddressBody.isDefault body)
                                    then clear_default (Account.addresses u)
                                    else Account.addresses u) id body)).
Proof.
  route_unfold. route_split; cbn [fst snd]; try (left; reflexivity).
  all: right; eexists _, _; split; [reflexivity|]; split; [eassumption|];
    reflexivity.
Qed.

Lemma delete_address_effect (id : ObjectId) (db : UserDb) (t : nat) :
  snd (delete_address id db t) = db
  \/ exists u a,
       account db = Some u
       /\ address_by_id (Account.addresses u) id = Some a
       /\ snd (delete_address id db t)
          = saved db (with_addresses u
               (if Address.isDefault a
                   && (0 <? length (filter (fun x => negb (N.eqb (Address._id x) id))
                                      (Account.addresses u)))%nat
                then default_first (filter (fun x => negb (N.eqb (Address._id x) id))
                                      (Account.addresses u))
                else filter (fun x => negb (N.eqb (Address._id x) id))
                       (Account.addresses u))).
Proof.
  route_unfold. route_split; cbn [fst snd]; try (left; reflexivity).
  all: right; eexists _, _; split; [reflexivity|]; split; [eassumption|];
    try match goal with H : _ && _ = _ |- _ => rewrite H end; reflexivity.
Qed.

(** What a request may do to the stored data: nothing, or one save of
    the user document with the part the request is about replaced. *)
Lemma router_effect (req : Request) (db : UserDb) (t : nat) :
  snd (router req db t) = db
  \/ exists u,
       account db = Some u
       /\ match part_of req with
          | CartPart => exists c, snd (router req db t) = saved db (with_cart u c)
          | WishlistPart => exists w, snd (router req db t) = saved db (with_wishlist u w)
          | AddressPart => exists a, snd (router req db t) = saved db (with_addresses u a)
          end.
Proof.
  destruct req; cbn [part_of]; route_unfold; route_split; cbn [fst snd];
    try (left; reflexivity);
    try (right; eexists; split; [reflexivity|]; eexists; reflexivity).
  all: destruct db as [inv [u|] rf]; cbn [account inventory refuses option_map] in *;
    [right; eexists; split; [reflexivity|]; eexists; reflexivity | left; reflexivity].
Qed.

Lemma router_keeps_addresses (req : Request) (db : UserDb) (t : nat) :
  part_of req <> AddressPart ->
  CartSpec.addresses_of (snd (router req db t)) = CartSpec.addresses_of db.
Proof.
  intros Hp. destruct (router_effect req db t) as [E|[u [Hu E]]]; [rewrite E; reflexivity|].
  unfold CartSpec.addresses_of. rewrite Hu.
  destruct (part_of req); [| |congruence]; destruct E as [x E]; rewrite E; reflexivity.
Qed.

(** X19. No request to the users router gives the user a second default
    address: when at most one stored address is the default before a
    request, at most one is after it, whatever the request and however
    it ends. *)
Theorem at_most_one_default_address (req : Request) (db : UserDb) (t : nat) :
  (CartSpec.defaults (CartSpec.addresses_of db) <= 1)%nat ->
  (CartSpec.defaults (CartSpec.addresses_of (snd (router req db t))) <= 1)%nat.
Proof.
  intros H.
  destruct req as [pid q| |pid q|pid| |pid|pid|fresh body|addressId body|addressId];
    try (rewrite router_keeps_addresses by discriminate; exact H).
  - (* POST /addresses *)
    unfold router, answered. cbn [snd].
    destruct (post_address_effect fresh body db t) as [E|[u [flag [Hu [Hflag E]]]]];
      rewrite E; [exact H|].
    unfold CartSpec.addresses_of in *. rewrite Hu in H.
    cbn [saved account with_addresses Account.addresses] in *.
    rewrite defaults_app. unfold CartSpec.defaults at 2. simpl.
    destruct flag; simpl; [rewrite defaults_clear|]; lia.
  - (* PUT /addresses/:addressId *)
    unfold router, answered. cbn [snd].
    destruct (put_address_effect addressId body db t) as [E|[u [a [Hu [Ha E]]]]];
      rewrite E; [exact H|].
    unfold CartSpec.addresses_of in *. rewrite Hu in H.
    cbn [saved account with_addresses Account.addresses] in *.
    destruct (AddressBody.isDefault body) as [[|]|] eqn:Eb; cbn [truthy].
    + destruct (clear_default_found _ _ Ha) as [a' [Ha' Hd]].
      destruct (@defaults_assign_at _ addressId body a' Ha') as [G _].
      rewrite Eb, Hd, defaults_clear in G. lia.
    + destruct (@defaults_assign_at _ addressId body a Ha) as [G _].
      rewrite Eb in G. destruct (Address.isDefault a); lia.
    + destruct (@defaults_assign_at _ addressId body a Ha) as [G _].
      rewrite Eb in G. destruct (Address.isDefault a); lia.
  - (* DELETE /addresses/:addressId *)
    unfold router, answered. cbn [snd].
    destruct (delete_address_effect addressId db t) as [E|[u [a [Hu [Ha E]]]]];
      rewrite E; [exact H|].
    unfold CartSpec.addresses_of in *. rewrite Hu in H.
    cbn [saved account with_addresses Account.addresses] in *.
    destruct (@defaults_pulled _ addressId a Ha) as [G _].
    set (pulled := filter (fun x => negb (N.eqb (Address._id x) addressId))
                     (Account.addresses u)) in *.
    destruct (Address.isDefault a); simpl; [|lia].
    destruct (0 <? length pulled)%nat eqn:El; [|lia].
    rewrite defaults_default_first; [lia | lia |].
    intros Enil. rewrite Enil in El. discriminate.
Qed.

Lemma at_most_one_default_address_witness :
  (CartSpec.defaults
     (CartSpec.addresses_of (snd (router (PostAddress 51%N Till.office) Till.db 0))) <= 1)%nat.
Proof.
  apply (@at_most_one_default_address (PostAddress 51%N Till.office) Till.db 0%nat).
  vm_compute. lia.
Defined.

Lemma address_found_nonempty (l : list Address.t) (id : ObjectId) (a : Address.t) :
  address_by_id l id = Some a -> l <> [].
Proof. destruct l; [discriminate | discriminate]. Qed.

(** X20. POST /addresses and DELETE /addresses/:addressId keep the default
    address: when the stored addresses have distinct ids and, unless
    there is none, exactly one of them is the default, the same holds of
    the addresses stored after any request other than a PUT of an
    address.  The first address becomes the default, and deleting the
    default makes the first remaining address the default. *)
Theorem default_address_kept (req : Request) (db : UserDb) (t : nat) :
  (forall id body, req <> PutAddress id body) ->
  NoDup (map Address._id (CartSpec.addresses_of db)) ->
  (CartSpec.addresses_of db <> [] -> CartSpec.defaults (CartSpec.addresses_of db) = 1%nat) ->
  CartSpec.addresses_of (snd (router req db t)) <> [] ->
  CartSpec.defaults (CartSpec.addresses_of (snd (router req db t))) = 1%nat.
Proof.
  intros Hput Hnd H.
  destruct req as [pid q| |pid q|pid| |pid|pid|fresh body|addressId body|addressId];
    try (rewrite router_keeps_addresses by discriminate; exact H).
  - (* POST /addresses *)
    unfold router, answered. cbn [snd].
    destruct (post_address_effect fresh body db t) as [E|[u [flag [Hu [Hflag E]]]]];
      rewrite E; [exact H|]. intros _.
    unfold CartSpec.addresses_of in *. rewrite Hu in H.
    cbn [saved account with_addresses Account.addresses] in *.
    rewrite defaults_app. unfold CartSpec.defaults at 2. simpl.
    destruct flag eqn:Ef; simpl; [rewrite defaults_clear; reflexivity|].
    symmetry in Hflag. apply orb_false_iff in Hflag. destruct Hflag as [_ Hlen].
    rewrite H; [reflexivity|]. intros Enil. rewrite Enil in Hlen. discriminate.
  - exfalso. exact (Hput addressId body eq_refl).
  - (* DELETE /addresses/:addressId *)
    unfold router, answered. cbn [snd].
    destruct (delete_address_effect addressId db t) as [E|[u [a [Hu [Ha E]]]]];
      rewrite E; [exact H|].
    unfold CartSpec.addresses_of in *. rewrite Hu in H, Hnd.
    cbn [saved account with_addresses Account.addresses] in *.
    destruct (@defaults_pulled _ addressId a Ha) as [_ G]. specialize (G Hnd).
    rewrite (H (@address_found_nonempty _ _ _ Ha)) in G.
    set (pulled := filter (fun x => negb (N.eqb (Address._id x) addressId))
                     (Account.addresses u)) in *.
    destruct (Address.isDefault a); simpl; [|intros _; lia].
    destruct (0 <? length pulled)%nat eqn:El.
    + intros _. apply defaults_default_first; [lia|].
      intros Enil. rewrite Enil in El. discriminate.
    + intros Hne. destruct pulled; [congruence | discriminate].
Qed.

Lemma default_address_kept_witness :
  CartSpec.defaults
    (CartSpec.addresses_of (snd (router (PostAddress 51%N Till.office) Till.db 0))) = 1%nat.
Proof.
  apply (@default_address_kept (PostAddress 51%N Till.office) Till.db 0%nat).
  - intros id body. discriminate.
  - simpl. repeat constructor. simpl. tauto.
  - intros _. reflexivity.
  - vm_compute. discriminate.
Defined.

(** X21. PUT /addresses/:addressId can leave the user without a default
    address: a body with [isDefault: false] for the address that is the
    only default replies 200 and stores as many addresses as before, none
    of them the default. *)
Theorem update_can_drop_default (id : ObjectId) (body : AddressBody.t) (db : UserDb)
  (t : nat) (u : Account.t) (a : Address.t) :
  CartSpec.answers db ->
  account db = Some u ->
  address_by_id (Account.addresses u) id = Some a ->
  Address.isDefault a = true ->
  AddressBody.isDefault body = Some false ->
  CartSpec.defaults (Account.addresses u) = 1%nat ->
  exists stored,
    put_address id body db t = (Json stored, saved db (with_addresses u stored))
    /\ length stored = length (Account.addresses u)
    /\ stored <> []
    /\ CartSpec.defaults stored = 0%nat.
Proof.
  intros Hans Hu Ha Hd Hb H1.
  exists (assign_at (Account.addresses u) id body).
  destruct (@defaults_assign_at _ id body a Ha) as [G L].
  rewrite Hb, Hd, H1 in G.
  split; [|split; [exact L|split; [|lia]]].
  - unfold put_address, serve.
    rewrite (@run_the_user _ _ u) by (try apply Hans; exact Hu).
    rewrite Ha, Hb. cbn [truthy]. cbv zeta.
    rewrite run_saving by apply Hans. reflexivity.
  - intros Enil. rewrite Enil in L. apply address_found_nonempty in Ha.
    destruct (Account.addresses u); [congruence | discriminate].
Qed.

Lemma update_can_drop_default_witness :
  exists stored,
    put_address 50%N Till.not_default Till.db 0
    = (Json stored, saved Till.db (with_addresses Till.user stored))
    /\ length stored = length (Account.addresses Till.user)
    /\ stored <> []
    /\ CartSpec.defaults stored = 0%nat.
Proof.
  apply (@update_can_drop_default 50%N Till.not_default Till.db 0%nat Till.user Till.home).
  - intros t. reflexivity.
  - reflexivity.
  - reflexivity.
  - reflexivity.
  - reflexivity.
  - reflexivity.
Defined.

(** X22. Every request leaves the products and their stock as they are
    (putting a product into the cart reserves nothing), creates no user
    document and deletes none, and changes at most the part of the user
    document it is about: a cart request leaves wishlist and addresses
    alone, and likewise for the other two. *)
Theorem router_touches_one_part (req : Request) (db : UserDb) (t : nat) :
  inventory (snd (router req db t)) = inventory db
  /\ refuses (snd (router req db t)) = refuses db
  /\ (account (snd (router req db t)) = None <-> account db = None)
  /\ match part_of req with
     | CartPart =>
         CartSpec.wishlist_of (snd (router req db t)) = CartSpec.wishlist_of db
         /\ CartSpec.addresses_of (snd (router req db t)) = CartSpec.addresses_of db
     | WishlistPart =>
         CartSpec.cart_of (snd (router req db t)) = CartSpec.cart_of db
         /\ CartSpec.addresses_of (snd (router req db t)) = CartSpec.addresses_of db
     | AddressPart =>
         CartSpec.cart_of (snd (router req db t)) = CartSpec.cart_of db
         /\ CartSpec.wishlist_of (snd (router req db t)) = CartSpec.wishlist_of db
     end.
Proof.
  destruct (router_effect req db t) as [E|[u [Hu E]]].
  - rewrite E. repeat split; try tauto. destruct (part_of req); split; reflexivity.
  - unfold CartSpec.cart_of, CartSpec.wishlist_of, CartSpec.addresses_of.
    destruct (part_of req); destruct E as [x E]; rewrite E, Hu; cbn;
      repeat split; congruence.
Qed.

Lemma run_pure {P A B} (a : A) (k : A -> Route P B) (db : UserDb) (t : nat) :
  and_then (pure a) k db t = k a db t.
Proof. reflexivity. Qed.

(** X23. A 500 of POST /cart does not mean that nothing happened: when
    the store accepts the save and rejects the read that populates the
    reply, the new line is stored and the reply is a server error. *)
Theorem cart_add_saved_before_500 (pid : ObjectId) (q : Z) (db : UserDb) (t : nat)
  (u : Account.t) (sp : Stocked) :
  refuses db t = false ->
  refuses db (S t) = false ->
  refuses db (S (S t)) = false ->
  refuses db (S (S (S t))) = true ->
  findById pid db = Some sp ->
  account db = Some u ->
  CartSpec.well_formed (Account.cart u) ->
  ~ In (Some pid) (CartSpec.products_of (Account.cart u)) ->
  (1 <= q)%Z ->
  (Js.num q <= stock sp)%Qc ->
  post_cart (Some pid) (Some q) db t
  = (ServerError StoreError,
     saved db (with_cart u (Account.cart u ++ [{| CartItem.product := Some pid;
                                                  CartItem.quantity := q |}]))).
Proof.
  intros R0 R1 R2 R3 Hsp Hu Hwf Hnot Hq Hstock.
  assert (Hl : find_line (Account.cart u) pid = Returned None).
  { clear - Hwf Hnot. induction (Account.cart u) as [|x l IH]; simpl; [reflexivity|].
    destruct (CartItem.product x) as [p|] eqn:Ep;
      [|exfalso; exact (Hwf x (or_introl eq_refl) Ep)].
    destruct (N.eqb p pid) eqn:E.
    - apply N.eqb_eq in E. subst p. exfalso. apply Hnot. left. exact Ep.
    - apply IH; [intros y Hy; apply Hwf; right; exact Hy|].
      intros Hin. apply Hnot. right. exact Hin. }
  unfold post_cart, serve.
  assert (Hq' : (q <? 1)%Z = false) by (apply Z.ltb_ge; exact Hq).
  rewrite Hq'. rewrite run_reading by exact R0. rewrite Hsp.
  assert (Hs' : Js.gtb (Js.num q) (stock sp) = false) by (apply gtb_le; exact Hstock).
  rewrite Hs'. rewrite (@run_the_user _ _ u) by assumption.
  rewrite Hl, run_lifting, run_pure.
  rewrite run_saving by exact R2.
  unfold and_then, reading. cbn [saved refuses]. rewrite R3. reflexivity.
Qed.

Lemma cart_add_saved_before_500_witness :
  post_cart (Some 2%N) (Some 1%Z) Till.flaky 0
  = (ServerError StoreError,
     saved Till.flaky
       (with_cart Till.user
          (Account.cart Till.user ++ [{| CartItem.product := Some 2%N;
                                         CartItem.quantity := 1 |}]))).
Proof.
  apply (@cart_add_saved_before_500 2%N 1%Z Till.flaky 0%nat Till.user
           (Till.stocked Sample.novel 10)).
  - reflexivity.
  - reflexivity.
  - reflexivity.
  - reflexivity.
  - reflexivity.
  - reflexivity.
  - intros line [<-|[]]. discriminate.
  - simpl. intros [H|[]]. discriminate H.
  - lia.
  - apply num_le. lia.
Defined.
